(** * Groundwater assistant: the query-answering core of [frontend/chatbot.py]

    A shallow embedding of [GroundwaterChatbot]: the entity extractor
    ([extract_entities]), the keyword router ([generate_response]), the
    query handlers and the trend projection ([analyze_trends],
    [predict_future_values]), followed by the properties of the
    specification that concern them.

    Conventions of the embedding.
    - Text is a [string] of 8-bit characters.  User input and the names
      held by the data tables are taken to be ASCII: [lower], [title],
      [strip], the regular-expression classes [\d], [\w] and the word
      boundary [\b] are the ASCII ones.  A Python [str] with a character
      outside ASCII has no counterpart here (Python's classes are the
      Unicode ones): what is stated of the patterns is stated of the
      texts that satisfy [isascii].  The literal texts of the answers are
      the UTF-8 bytes of the source literals.
    - A Python [float] is a binary64 value: Rocq's primitive [float], whose
      [+], [-], [*], [/] and comparisons are the IEEE ones Python uses.
    - What NumPy, pandas and the formatting mini-language compute ([np.sin],
      [np.polyfit], [Series.mean], [Series.std], [round], [format], [str]) is
      not code of this repository: it is the interface [PyLib], over which
      every definition and theorem is parametric.  [ref_lib] is a computable
      instance used to evaluate the model on concrete inputs.
    - Which spellings of a date [pd.to_datetime] reads when [load_data]
      converts a column is not code of this repository either: it is the
      interface [Pandas], with the instance [ref_pandas] for files whose
      month keys are written ["YYYY-MM"].
    - The global NumPy generator behind [np.random.choice] is threaded
      explicitly ([RandomState]); Python exceptions are the [Raise] case of
      [PyResult].
    - A timestamp is kept as a (year, month) pair.  [to_datetime] is the
      month that a key written ["YYYY-MM"] stands for; what is stated of the
      dates of a table is stated under [dates_parsed], which says that the
      keys of the table are written so. *)

From Stdlib Require Import ZArith List String Ascii Bool Lia Sorted.
From Stdlib Require Import Floats Uint63 DecimalString QArith Qminmax Qabs.
Import ListNotations.

Set Warnings "-inexact-float".

Open Scope bool_scope.
Open Scope list_scope.
Open Scope string_scope.

(** ** Python strings *)

Definition in_range (lo hi : nat) (c : ascii) : bool :=
  let n := nat_of_ascii c in (lo <=? n)%nat && (n <=? hi)%nat.

Definition is_upper (c : ascii) : bool := in_range 65 90 c.
Definition is_lower (c : ascii) : bool := in_range 97 122 c.
Definition is_alpha (c : ascii) : bool := is_upper c || is_lower c.

(** [\d] on an ASCII character: [0] to [9]. *)
Definition is_digit (c : ascii) : bool := in_range 48 57 c.

(** [\w] on an ASCII character: a letter, a digit or the underscore. *)
Definition is_word (c : ascii) : bool :=
  is_alpha c || is_digit c || Ascii.eqb c "_".

(** [str.isspace] on one character. *)
Definition is_space (c : ascii) : bool :=
  in_range 9 13 c || in_range 28 32 c.

Definition lower_char (c : ascii) : ascii :=
  if is_upper c then ascii_of_nat (nat_of_ascii c + 32) else c.

Definition upper_char (c : ascii) : ascii :=
  if is_lower c then ascii_of_nat (nat_of_ascii c - 32) else c.

(** [str.isascii]: every character is below U+0080. *)
Definition isascii (s : string) : bool :=
  forallb (fun c => (nat_of_ascii c <? 128)%nat) (list_ascii_of_string s).

(** [str.lower] *)
Fixpoint lower (s : string) : string :=
  match s with
  | EmptyString => EmptyString
  | String c s' => String (lower_char c) (lower s')
  end.

(** [str.title]: the first letter of every run of letters in upper case,
    the others in lower case. *)
Fixpoint title_from (previous_is_cased : bool) (s : string) : string :=
  match s with
  | EmptyString => EmptyString
  | String c s' =>
      if is_alpha c
      then String (if previous_is_cased then lower_char c else upper_char c)
                  (title_from true s')
      else String c (title_from false s')
  end.

Definition title (s : string) : string := title_from false s.

Fixpoint lstrip (s : string) : string :=
  match s with
  | EmptyString => EmptyString
  | String c s' => if is_space c then lstrip s' else s
  end.

Fixpoint rstrip (s : string) : string :=
  match s with
  | EmptyString => EmptyString
  | String c s' =>
      match rstrip s' with
      | EmptyString => if is_space c then EmptyString else String c EmptyString
      | r => String c r
      end
  end.

(** [str.strip] *)
Definition strip (s : string) : string := rstrip (lstrip s).

(** [needle in hay] *)
Fixpoint str_in (needle hay : string) : bool :=
  String.prefix needle hay
  || match hay with
     | EmptyString => false
     | String _ hay' => str_in needle hay'
     end.

(** [any(word in text for word in words)] *)
Definition any_in (words : list string) (text : string) : bool :=
  existsb (fun word => str_in word text) words.

Fixpoint drop (n : nat) (s : string) : string :=
  match n, s with
  | S n', String _ s' => drop n' s'
  | _, _ => s
  end.

(** Truth value of an optional string: [None] and [""] are false. *)
Definition truthy (o : option string) : bool :=
  match o with
  | Some (String _ _) => true
  | _ => false
  end.

(** The double quote, for the answer texts that quote example queries. *)
Definition dq : string := String (ascii_of_nat 34) EmptyString.

(** The line feed. *)
Definition nl : string := String (ascii_of_nat 10) EmptyString.

(** ** Numbers *)

Definition digit_value (c : ascii) : Z := Z.of_nat (nat_of_ascii c - 48).

(** Value of a run of decimal digits, most significant first. *)
Fixpoint digits_value (acc : Z) (s : string) : Z :=
  match s with
  | EmptyString => acc
  | String c s' => digits_value (10 * acc + digit_value c) s'
  end.

(** [int(s)] for a string of digits. *)
Definition py_int (s : string) : Z := digits_value 0 s.

(** Splits a literal [ddd], [ddd.] or [ddd.ddd] at its decimal point. *)
Fixpoint split_point (s : string) : string * string :=
  match s with
  | EmptyString => (EmptyString, EmptyString)
  | String c s' =>
      if Ascii.eqb c "."
      then (EmptyString, s')
      else let (ip, fp) := split_point s' in (String c ip, fp)
  end.

(** The binary64 value nearest to [m / 10^k] (ties to even): the IEEE
    division of the two integers, each taken exactly. *)
Definition nearest_binary64 (m : Z) (k : nat) : float :=
  match m with
  | Zpos p =>
      SF2Prim (SFdiv prec emax (S754_finite false p 0)
                     (S754_finite false (Z.to_pos (10 ^ Z.of_nat k)) 0))
  | _ => 0%float
  end.

(** [float(s)] for a literal matched by the number pattern. *)
Definition py_float (s : string) : float :=
  let (ip, fp) := split_point s in
  match fp with
  | EmptyString => nearest_binary64 (py_int ip) 0
  | _ => nearest_binary64 (py_int (ip ++ fp)) (String.length fp)
  end.

(** A Python [int] used as a float operand: exact below 2^53, as in
    Python; the step indices and month numbers it is applied to are far
    below. *)
Definition float_of_int (z : Z) : float :=
  if (z <? 0)%Z then PrimFloat.opp (PrimFloat.of_uint63 (Uint63.of_Z (- z)))
  else PrimFloat.of_uint63 (Uint63.of_Z z).

(** [max(a, b)] of the builtins: [b] only when it is greater. *)
Definition py_max (a b : float) : float := if PrimFloat.ltb a b then b else a.

(** [str(n)] for an integer. *)
Definition str_of_int (z : Z) : string := NilEmpty.string_of_int (Z.to_int z).

(** Truth value of an optional float: [None] and zero are false. *)
Definition truthy_float (o : option float) : bool :=
  match o with
  | Some x => negb (PrimFloat.eqb x 0)
  | None => false
  end.

(** ** The three patterns of [extract_entities]

    Each pattern is matched the way [re] does: [re.search] tries the
    positions of the text from left to right and keeps the first match;
    at one position the greedy alternatives are tried in order.  A matcher
    takes the character before the position ([None] at the start of the
    text) and the rest of the text from the position on. *)

Definition is_word_at (o : option ascii) : bool :=
  match o with
  | Some c => is_word c
  | None => false
  end.

Definition first_char (s : string) : option ascii :=
  match s with
  | EmptyString => None
  | String c _ => Some c
  end.

(** [\b] between the character [prev] and the text [rest] of an ASCII
    text. *)
Definition word_boundary (prev : option ascii) (rest : string) : bool :=
  xorb (is_word_at prev) (is_word_at (first_char rest)).

(** [\b(20\d{2})(?:-(\d{2}))?\b] at one position: group 1 of the match.
    The optional group is tried first; when the pattern fails with it,
    it is tried without. *)
Definition year_match (prev : option ascii) (s : string) : option string :=
  match s with
  | String c1 (String c2 (String d1 (String d2 rest))) =>
      if word_boundary prev s && Ascii.eqb c1 "2" && Ascii.eqb c2 "0"
         && is_digit d1 && is_digit d2 then
        let group1 := String c1 (String c2 (String d1 (String d2 EmptyString))) in
        let with_range :=
          match rest with
          | String c (String d3 (String d4 rest')) =>
              Ascii.eqb c "-" && is_digit d3 && is_digit d4
              && word_boundary (Some d4) rest'
          | _ => false
          end in
        if with_range then Some group1
        else if word_boundary (Some d2) rest then Some group1
        else None
      else None
  | _ => None
  end.

(** [re.search(year_pattern, text).group(1)], when there is a match. *)
Fixpoint year_search (prev : option ascii) (s : string) : option string :=
  match year_match prev s with
  | Some y => Some y
  | None =>
      match s with
      | EmptyString => None
      | String c s' => year_search (Some c) s'
      end
  end.

(** [(0[1-9]|1[0-2])] on two characters. *)
Definition is_month (m1 m2 : ascii) : bool :=
  (Ascii.eqb m1 "0" && in_range 49 57 m2)
  || (Ascii.eqb m1 "1" && in_range 48 50 m2).

(** [\b(0[1-9]|1[0-2])-(20\d{2})\b] at one position: groups 1 and 2. *)
Definition month_match (prev : option ascii) (s : string)
  : option (string * string) :=
  match s with
  | String m1 (String m2 (String c (String c1 (String c2 (String d1 (String d2 rest)))))) =>
      if word_boundary prev s && is_month m1 m2 && Ascii.eqb c "-"
         && Ascii.eqb c1 "2" && Ascii.eqb c2 "0"
         && is_digit d1 && is_digit d2 && word_boundary (Some d2) rest
      then Some (String m1 (String m2 EmptyString),
                 String c1 (String c2 (String d1 (String d2 EmptyString))))
      else None
  | _ => None
  end.

(** [re.search(month_pattern, text)]: groups 1 and 2 of the first match. *)
Fixpoint month_search (prev : option ascii) (s : string)
  : option (string * string) :=
  match month_match prev s with
  | Some g => Some g
  | None =>
      match s with
      | EmptyString => None
      | String c s' => month_search (Some c) s'
      end
  end.

(** [\d*]: the longest run of digits at the start of [s], and what follows. *)
Fixpoint take_digits (s : string) : string * string :=
  match s with
  | String c s' =>
      if is_digit c
      then let (ds, rest) := take_digits s' in (String c ds, rest)
      else (EmptyString, s)
  | EmptyString => (EmptyString, EmptyString)
  end.

(** Group 1 of the number pattern, [\d+\.?\d*], at the start of [s], and
    what follows it.  Every quantifier is greedy and nothing after them can
    fail, so the first attempt is the match. *)
Definition number_match (s : string) : option (string * string) :=
  match take_digits s with
  | (EmptyString, _) => None
  | (ip, String c r as rest) =>
      if Ascii.eqb c "."
      then let (fp, rest') := take_digits r in Some (ip ++ "." ++ fp, rest')
      else Some (ip, rest)
  | (ip, rest) => Some (ip, rest)
  end.

(** [(?:mm|m|cm|km)?]: what follows the unit, when one is there. *)
Definition skip_unit (s : string) : string :=
  if String.prefix "mm" s then drop 2 s
  else if String.prefix "m" s then drop 1 s
  else if String.prefix "cm" s then drop 2 s
  else if String.prefix "km" s then drop 2 s
  else s.

(** [re.findall(number_pattern, s)]: group 1 of the successive matches,
    each search resuming where the previous match ended.  [fuel] bounds the
    number of positions visited; [String.length s] is enough, since every
    step consumes at least one character. *)
Fixpoint findall_from (fuel : nat) (s : string) : list string :=
  match fuel with
  | O => []
  | S fuel' =>
      match number_match s with
      | Some (group1, rest) => group1 :: findall_from fuel' (skip_unit rest)
      | None =>
          match s with
          | EmptyString => []
          | String _ s' => findall_from fuel' s'
          end
      end
  end.

Definition number_findall (text : string) : list string :=
  findall_from (String.length text) text.

(** [2000 <= num <= 2030] *)
Definition is_year_like (num : float) : bool :=
  PrimFloat.leb 2000 num && PrimFloat.leb num 2030.

(** The loop over [number_matches]: the first value that is not year-like. *)
Fixpoint first_number (number_matches : list string) : option float :=
  match number_matches with
  | [] => None
  | m :: rest =>
      let num := py_float m in
      if negb (is_year_like num) then Some num else first_number rest
  end.

(** The first element of [names] that occurs in [text_lower] (the [for]
    loops with [break] over the sorted states and districts). *)
Fixpoint first_in (names : list string) (text_lower : string) : option string :=
  match names with
  | [] => None
  | name :: rest =>
      if str_in name text_lower then Some name else first_in rest text_lower
  end.

(** ** Sorting and tables *)

(** [sorted(names)] *)
Fixpoint insert_sorted (x : string) (l : list string) : list string :=
  match l with
  | [] => [x]
  | y :: l' => if String.leb x y then x :: l else y :: insert_sorted x l'
  end.

Definition sorted (l : list string) : list string :=
  fold_right insert_sorted [] l.

(** [Series.unique()]: the values in order of first appearance. *)
Fixpoint unique (l : list string) : list string :=
  match l with
  | [] => []
  | x :: l' => x :: filter (fun y => negb (String.eqb x y)) (unique l')
  end.

(** [DataFrame.sort_values] by one key: rows with equal keys keep their
    order (pandas leaves the order of ties to its sorting algorithm). *)
Section SortValues.
Context {A K : Type} (key : A -> K) (le : K -> K -> bool).

Fixpoint insert_row (x : A) (l : list A) : list A :=
  match l with
  | [] => [x]
  | y :: l' => if le (key y) (key x) then y :: insert_row x l' else x :: l
  end.

Definition sort_values (l : list A) : list A :=
  fold_left (fun acc x => insert_row x acc) l [].

(** [DataFrame.tail(n)] *)
Definition tail (n : nat) (l : list A) : list A :=
  skipn (List.length l - n) l.

End SortValues.

(** ** Exceptions and the random generator *)

Inductive PyException := IndexError | KeyError | ValueError.

Inductive PyResult (A : Type) : Type :=
| Return (a : A)
| Raise (e : PyException).

Arguments Return {A} a.
Arguments Raise {A} e.

Definition bind {A B : Type} (m : PyResult A) (k : A -> PyResult B) : PyResult B :=
  match m with
  | Return a => k a
  | Raise e => Raise e
  end.

Notation "x <- m ;; k" := (bind m (fun x => k))
  (at level 61, m at next level, right associativity).

(** [l[-1]] *)
Fixpoint last_item {A : Type} (l : list A) : PyResult A :=
  match l with
  | [] => Raise IndexError
  | [x] => Return x
  | _ :: l' => last_item l'
  end.

(** [l[0]] *)
Definition first_item {A : Type} (l : list A) : PyResult A :=
  match l with
  | [] => Raise IndexError
  | x :: _ => Return x
  end.

(** [d[key]] for a dictionary with string keys. *)
Fixpoint dict_get {A : Type} (d : list (string * A)) (key : string) : PyResult A :=
  match d with
  | [] => Raise KeyError
  | (k, v) :: d' => if String.eqb k key then Return v else dict_get d' key
  end.

(** The state of NumPy's global generator, as the stream of indices it
    will draw. *)
Definition RandomState : Type := nat -> nat.

(** [np.random.choice(l)] for a non-empty [l]: one draw, reduced to an
    index of [l]. *)
Definition random_choice {A : Type} (rs : RandomState) (l : list A) (default : A)
  : A * RandomState :=
  (nth (rs O mod List.length l) l default, fun n => rs (S n)).

(** ** The numerical libraries *)

Class PyLib : Type := {
  (** [np.sin] *)
  np_sin : float -> float;
  (** [np.polyfit(x, y, 1)[0]] *)
  np_polyfit_slope : list float -> list float -> float;
  (** [np.mean] of a list of floats *)
  np_mean : list float -> float;
  (** [Series.mean()] *)
  series_mean : list float -> float;
  (** [Series.std()] *)
  series_std : list float -> float;
  (** [groupby(...).mean()] of one group *)
  group_mean : list float -> float;
  (** [round(x, ndigits)] of a Python float *)
  py_round : float -> Z -> float;
  (** [round(x, ndigits)] of a NumPy float *)
  np_round : float -> Z -> float;
  (** [format(x, spec)], the [{x:spec}] of an f-string *)
  py_format : float -> string -> string;
  (** [str(x)], the [{x}] of an f-string *)
  py_str : float -> string
}.

(** ** The data tables *)

(** A [Timestamp] at the first day of a month. *)
Record Timestamp := { ts_year : Z; ts_month : Z }.

Definition all_digits (s : string) : bool :=
  forallb is_digit (list_ascii_of_string s).

(** The month that a key written ["YYYY-MM"] stands for; [None] for a
    string that is not written so.  [pd.to_datetime] gives that month
    (its first day) for such a key where it reads it; it reads other
    spellings of a date as well, and refuses years outside the range of
    its timestamps.  What pandas reads is not stated here: see [Pandas]. *)
Definition to_datetime (year_month : string) : option Timestamp :=
  match year_month with
  | String y1 (String y2 (String y3 (String y4 (String "-"
      (String m1 (String m2 EmptyString)))))) =>
      let y := String y1 (String y2 (String y3 (String y4 EmptyString))) in
      let m := String m1 (String m2 EmptyString) in
      if all_digits y && all_digits m
         && (1 <=? py_int m)%Z && (py_int m <=? 12)%Z
      then Some {| ts_year := py_int y; ts_month := py_int m |}
      else None
  | _ => None
  end.

Fixpoint zeros (n : nat) : string :=
  match n with
  | O => EmptyString
  | S n' => String "0" (zeros n')
  end.

(** [s] padded with zeros on the left to [width] characters. *)
Definition zero_pad (width : nat) (s : string) : string :=
  zeros (width - String.length s) ++ s.

(** [date.strftime("%Y-%m")] *)
Definition strftime_Y_m (d : Timestamp) : string :=
  zero_pad 4 (str_of_int (ts_year d)) ++ "-" ++ zero_pad 2 (str_of_int (ts_month d)).

Definition timestamp_le (a b : Timestamp) : bool :=
  (ts_year a <? ts_year b)%Z
  || ((ts_year a =? ts_year b)%Z && (ts_month a <=? ts_month b)%Z).

(** A row of [self.rainfall] after [load_data]. *)
Record RainfallRow := {
  rf_state_name : string;
  rf_year_month : string;
  rainfall_actual_mm : float;
  rf_date : Timestamp
}.

(** A row of [self.groundwater] after [load_data]. *)
Record GroundwaterRow := {
  gw_state_name : string;
  gw_district_name : string;
  gw_year_month : string;
  gw_level_m_bgl : float;
  gw_date : Timestamp
}.

(** The pre-trained regressor: [model.predict([[rainfall, lag]])[0]], or
    [None] when the call raises. *)
Definition Model : Type := float -> float -> option float.

Record GroundwaterChatbot := {
  rainfall : list RainfallRow;
  groundwater : list GroundwaterRow;
  model : option Model
}.

(** A row of [rainfall.csv]; an absent name is the empty string
    ([fillna("")]). *)
Record RainfallCsv := {
  csv_rf_state_name : string;
  csv_rf_year_month : string;
  csv_rainfall_actual_mm : float
}.

(** A row of [groundwater.csv]. *)
Record GroundwaterCsv := {
  csv_gw_state_name : string;
  csv_gw_district_name : string;
  csv_gw_year_month : string;
  csv_gw_level_m_bgl : float
}.

Fixpoint traverse {A B : Type} (f : A -> option B) (l : list A) : option (list B) :=
  match l with
  | [] => Some []
  | x :: l' =>
      match f x, traverse f l' with
      | Some y, Some ys => Some (y :: ys)
      | _, _ => None
      end
  end.

(** [pd.to_datetime(column)]: the timestamp at every position of the
    column, or [None] when the call raises.  Which strings pandas reads,
    and how it settles on one format for a column, is the library's. *)
Class Pandas : Type := {
  pd_to_datetime : list string -> option (nat -> Timestamp)
}.

(** The rows of a file, each with the date at its position ([n] is the
    position of the first row). *)
Fixpoint with_dates {A B : Type} (row : A -> Timestamp -> B)
    (date : nat -> Timestamp) (n : nat) (l : list A) : list B :=
  match l with
  | [] => []
  | x :: l' => row x (date n) :: with_dates row date (S n) l'
  end.

Definition load_rainfall_row (r : RainfallCsv) (d : Timestamp) : RainfallRow :=
  {| rf_state_name := lower (strip (csv_rf_state_name r));
     rf_year_month := csv_rf_year_month r;
     rainfall_actual_mm := csv_rainfall_actual_mm r;
     rf_date := d |}.

Definition load_groundwater_row (r : GroundwaterCsv) (d : Timestamp)
  : GroundwaterRow :=
  {| gw_state_name := lower (strip (csv_gw_state_name r));
     gw_district_name := lower (strip (csv_gw_district_name r));
     gw_year_month := csv_gw_year_month r;
     gw_level_m_bgl := csv_gw_level_m_bgl r;
     gw_date := d |}.

(** [load_data]: the names are stripped and lower-cased and the two
    [year_month] columns converted, the rainfall one first; when a
    conversion raises, both tables are left empty. *)
Definition load_data {P : Pandas} (rainfall_csv : list RainfallCsv)
    (groundwater_csv : list GroundwaterCsv)
  : list RainfallRow * list GroundwaterRow :=
  match pd_to_datetime (map csv_rf_year_month rainfall_csv) with
  | Some rainfall_date =>
      match pd_to_datetime (map csv_gw_year_month groundwater_csv) with
      | Some groundwater_date =>
          (with_dates load_rainfall_row rainfall_date 0 rainfall_csv,
           with_dates load_groundwater_row groundwater_date 0 groundwater_csv)
      | None => ([], [])
      end
  | None => ([], [])
  end.

(** [GroundwaterChatbot()] from the two files and the model artifact
    ([None] when [load_model] fails). *)
Definition init {P : Pandas} (rainfall_csv : list RainfallCsv)
    (groundwater_csv : list GroundwaterCsv) (m : option Model) : GroundwaterChatbot :=
  let (r, g) := load_data rainfall_csv groundwater_csv in
  {| rainfall := r; groundwater := g; model := m |}.

Definition non_blank (s : string) : bool :=
  truthy (Some s) && truthy (Some (strip s)).

Definition get_available_states (self : GroundwaterChatbot) : list string :=
  match rainfall self with
  | [] => []
  | _ => sorted (filter non_blank (unique (map rf_state_name (rainfall self))))
  end.

Definition get_available_districts (self : GroundwaterChatbot) (state : string)
  : list string :=
  match state, groundwater self with
  | String _ _, _ :: _ =>
      sorted (filter non_blank (unique (map gw_district_name
        (filter (fun r => String.eqb (gw_state_name r) state) (groundwater self)))))
  | _, _ => []
  end.

(** ** Entities *)

Record Entities := {
  e_state : option string;
  e_district : option string;
  e_year : option string;
  e_month : option string;
  e_number : option float
}.

Definition extract_entities (self : GroundwaterChatbot) (text : string) : Entities :=
  let text_lower := lower text in
  let state := first_in (get_available_states self) text_lower in
  let district :=
    match state with
    | Some (String _ _ as st) => first_in (get_available_districts self st) text_lower
    | _ => None
    end in
  let year := year_search None text in
  let month :=
    match month_search None text with
    | Some (group1, group2) => Some (group2 ++ "-" ++ group1)
    | None => None
    end in
  let number := first_number (number_findall text) in
  {| e_state := state; e_district := district; e_year := year;
     e_month := month; e_number := number |}.

(** ** Filters *)

Definition keep_if {A : Type} (field : A -> string) (wanted : option string)
    (data : list A) : list A :=
  match wanted with
  | Some (String _ _ as w) => filter (fun r => String.eqb (field r) w) data
  | _ => data
  end.

Definition get_rainfall_data (self : GroundwaterChatbot)
    (state year_month : option string) : list RainfallRow :=
  keep_if rf_year_month year_month (keep_if rf_state_name state (rainfall self)).

Definition get_groundwater_data (self : GroundwaterChatbot)
    (state district year_month : option string) : list GroundwaterRow :=
  keep_if gw_year_month year_month
    (keep_if gw_district_name district
       (keep_if gw_state_name state (groundwater self))).

(** ** Trend analysis and projection *)

(** One entry of ["predictions"]. *)
Record Prediction := {
  p_date : string;
  p_value : float;
  p_confidence : float
}.

(** The dictionary returned by [predict_future_values]. *)
Record Forecast := {
  predictions : list Prediction;
  confidence : float;
  trend_analysis : list (string * float)
}.

Definition np_pi : float := 3.141592653589793%float.

(** The month after [current_date]. *)
Definition next_month (current_date : Timestamp) : Timestamp :=
  if (ts_month current_date =? 12)%Z
  then {| ts_year := ts_year current_date + 1; ts_month := 1 |}
  else {| ts_year := ts_year current_date; ts_month := ts_month current_date + 1 |}.

(** [diff()]: the first entry has no predecessor. *)
Fixpoint diff_from (previous : float) (l : list float) : list float :=
  match l with
  | [] => []
  | x :: l' => (x - previous)%float :: diff_from x l'
  end.

Definition diff (l : list float) : list float :=
  match l with
  | [] => []
  | x :: l' => nan :: diff_from x l'
  end.

Section Engine.
Context {L : PyLib}.

Definition predict_groundwater (self : GroundwaterChatbot) (state : string)
    (rainfall_value lag_gw : float) : option float :=
  match model self with
  | None => None
  | Some m =>
      match m rainfall_value lag_gw with
      | Some prediction => Some (py_round prediction 2)
      | None => None
      end
  end.

(** [data.groupby('month')[value_col].mean()]: one mean per calendar
    month present, by ascending month. *)
Definition monthly_avg (data : list (Timestamp * float)) : list float :=
  flat_map
    (fun m =>
       match filter (fun r => (ts_month (fst r) =? m)%Z) data with
       | [] => []
       | group => [group_mean (map snd group)]
       end)
    [1; 2; 3; 4; 5; 6; 7; 8; 9; 10; 11; 12]%Z.

(** [analyze_trends], on the (date, value) columns of [data].  Where the
    source leaves the integer [0], [round] returns it unchanged. *)
Definition analyze_trends (data : list (Timestamp * float)) : list (string * float) :=
  match data with
  | [] => [("trend", 0%float); ("seasonality", 0%float); ("volatility", 0%float)]
  | _ =>
      let data := sort_values fst timestamp_le data in
      let x := map (fun n => float_of_int (Z.of_nat n)) (seq 0 (List.length data)) in
      let y := map snd data in
      let trend :=
        if (1 <? List.length x)%nat then np_round (np_polyfit_slope x y) 4
        else 0%float in
      let averages := monthly_avg data in
      let seasonality :=
        if (1 <? List.length averages)%nat then np_round (series_std averages) 2
        else 0%float in
      let volatility := series_std y in
      [("trend", trend); ("seasonality", seasonality);
       ("volatility", np_round volatility 2)]
  end.

(** The body of the loop [for i in range(1, months_ahead + 1)], with
    [n] iterations left. *)
Fixpoint project (trend seasonality : float) (n : nat) (i : Z)
    (current_date : Timestamp) (current_value : float) : list Prediction :=
  match n with
  | O => []
  | S n' =>
      let next_date := next_month current_date in
      let predicted_value := (current_value + trend * float_of_int i)%float in
      let seasonal_factor :=
        (1 + seasonality * 0.1
             * np_sin (2 * np_pi * float_of_int (ts_month next_date) / 12))%float in
      let predicted_value := (predicted_value * seasonal_factor)%float in
      {| p_date := strftime_Y_m next_date;
         p_value := np_round predicted_value 2;
         p_confidence := py_max 0.3 (1 - float_of_int i * 0.05)%float |}
      :: project trend seasonality n' (i + 1) next_date predicted_value
  end.

Definition predict_future_values (data : list (Timestamp * float))
    (months_ahead : Z) : PyResult Forecast :=
  match data with
  | [] => Return {| predictions := []; confidence := 0%float; trend_analysis := [] |}
  | _ =>
      let data := sort_values fst timestamp_le data in
      let analysis := analyze_trends data in
      latest <- last_item data ;;
      trend <- dict_get analysis "trend" ;;
      seasonality <- dict_get analysis "seasonality" ;;
      let preds :=
        project trend seasonality (Z.to_nat months_ahead) 1 (fst latest) (snd latest) in
      Return {| predictions := preds;
                confidence := np_round (np_mean (map p_confidence preds)) 2;
                trend_analysis := analysis |}
  end.

End Engine.

(** ** The answers *)

Definition get_help_response : string :=
  "
🤖 **I can help you with:**

📊 **Data Queries:**
- " ++ dq ++ "What's the rainfall in Maharashtra?" ++ dq ++ "
- " ++ dq ++ "Show me groundwater levels in Delhi" ++ dq ++ "
- " ++ dq ++ "Rainfall data for 2023" ++ dq ++ "

🔮 **Predictions:**
- " ++ dq ++ "Predict groundwater level for next month" ++ dq ++ "
- " ++ dq ++ "What will be the water level if rainfall is 100mm?" ++ dq ++ "

🔮 **Future Estimates:**
- " ++ dq ++ "Future rainfall forecast for Maharashtra" ++ dq ++ "
- " ++ dq ++ "What will be the groundwater levels in Karnataka next year?" ++ dq ++ "
- " ++ dq ++ "Estimate rainfall for Delhi for 2025" ++ dq ++ "
- " ++ dq ++ "Coming months forecast for Mumbai" ++ dq ++ "

📈 **Trends & Analysis:**
- " ++ dq ++ "Show rainfall trends in Karnataka" ++ dq ++ "
- " ++ dq ++ "Compare groundwater levels between states" ++ dq ++ "
- " ++ dq ++ "How has rainfall changed over time?" ++ dq ++ "

🗺️ **Geographic Queries:**
- " ++ dq ++ "Which states have the highest rainfall?" ++ dq ++ "
- " ++ dq ++ "Groundwater levels by district" ++ dq ++ "
- " ++ dq ++ "Show me districts in Maharashtra" ++ dq ++ "
- " ++ dq ++ "Groundwater in Mumbai district" ++ dq ++ "

💡 **Tips:**
- Be specific about states, districts, or time periods
- Ask for comparisons between different regions
- Request predictions with rainfall values

**Example queries:**
- " ++ dq ++ "Rainfall in Tamil Nadu for 2023" ++ dq ++ "
- " ++ dq ++ "Predict groundwater level for Maharashtra with 150mm rainfall" ++ dq ++ "
- " ++ dq ++ "Compare groundwater levels between Delhi and Mumbai" ++ dq ++ "
        ".

Definition get_default_response : string :=
  "
🤔 **I didn't quite understand that query.**

Here are some things I can help you with:

🌧️ **Rainfall Data:** Ask about rainfall in specific states or time periods
💧 **Groundwater Levels:** Query groundwater data by state or district  
🔮 **Predictions:** Get groundwater level predictions based on rainfall
📊 **Comparisons:** Compare data between different regions
📈 **Trends:** Analyze how water levels change over time

**Try asking:**
- " ++ dq ++ "What's the rainfall in Maharashtra?" ++ dq ++ "
- " ++ dq ++ "Show me groundwater levels in Delhi" ++ dq ++ "
- " ++ dq ++ "Predict groundwater level for Karnataka with 120mm rainfall" ++ dq ++ "

Type **'help'** for more detailed information about my capabilities!
        ".

Definition greetings : list string :=
  [ "Hello! I'm your Groundwater Assistant. I can help you with groundwater and rainfall data analysis, predictions, and insights. What would you like to know?";
    "Hi there! I'm here to help you understand groundwater levels, rainfall patterns, and make predictions. How can I assist you today?";
    "Welcome! I'm your AI assistant for groundwater monitoring. I can provide data insights, predictions, and answer questions about water resources. What's on your mind?" ].

Definition get_greeting_response (rs : RandomState) : string * RandomState :=
  random_choice rs greetings EmptyString.

(** [f"{district.title()}, {state.title()}" if district else state.title()] *)
Definition location_of (district : option string) (state : string) : string :=
  match district with
  | Some (String _ _ as d) => title d ++ ", " ++ title state
  | _ => title state
  end.

Definition model_unavailable : string :=
  "❌ **Prediction Model Unavailable:**" ++ nl ++ nl
  ++ "The prediction model is not loaded. Please check if the model file exists.".

Definition rainfall_usage : string :=
  "🌧️ **Rainfall Query:**" ++ nl ++ nl ++ "Please specify a state. For example:" ++ nl
  ++ "- 'Rainfall in Maharashtra'" ++ nl ++ "- 'Show rainfall data for Karnataka'" ++ nl
  ++ "- 'Rainfall in Delhi for 2023-06'".

Definition groundwater_usage : string :=
  "💧 **Groundwater Query:**" ++ nl ++ nl
  ++ "Please specify a state or district. For example:" ++ nl
  ++ "- 'Groundwater levels in Maharashtra'" ++ nl
  ++ "- 'Show groundwater data for Delhi'" ++ nl
  ++ "- 'Groundwater in Mumbai for 2023-06'".

Definition prediction_usage : string :=
  "🔮 **Prediction Query:**" ++ nl ++ nl
  ++ "Please provide both state and rainfall value. For example:" ++ nl
  ++ "- 'Predict groundwater level for Maharashtra with 150mm rainfall'" ++ nl
  ++ "- 'What will be the water level in Delhi if rainfall is 100mm?'" ++ nl
  ++ "- 'Predict groundwater for Mumbai district with 120mm rainfall for 2024'".

Definition trend_usage : string :=
  "📈 **Trend Analysis:**" ++ nl ++ nl
  ++ "Please specify a state for trend analysis. For example:" ++ nl
  ++ "- 'Show rainfall trends in Maharashtra'" ++ nl
  ++ "- 'Groundwater trends in Karnataka'".

Definition district_usage : string :=
  "📍 **District Query:**" ++ nl ++ nl
  ++ "Please specify a state to see its districts. For example:" ++ nl
  ++ "- 'Show me districts in Maharashtra'" ++ nl
  ++ "- 'What districts are in Karnataka?'".

Definition future_usage : string :=
  "🔮 **Future Prediction Query:**" ++ nl ++ nl
  ++ "Please specify a state for future predictions. For example:" ++ nl
  ++ "- 'Future rainfall forecast for Maharashtra'" ++ nl
  ++ "- 'What will be the groundwater levels in Karnataka next year?'" ++ nl
  ++ "- 'Estimate rainfall for Delhi for 2025'".

Definition no_groundwater_data (location : string) : string :=
  "❌ No groundwater data found for " ++ location.

Section Handlers.
Context {L : PyLib}.

Definition handle_rainfall_query (self : GroundwaterChatbot) (entities : Entities)
    (user_input : string) : PyResult string :=
  let year_month := e_month entities in
  match e_state entities with
  | Some (String _ _ as state) =>
      match get_rainfall_data self (Some state) year_month with
      | [] => Return ("❌ No rainfall data found for " ++ title state)
      | data =>
          match year_month with
          | Some (String _ _ as ym) =>
              let avg_rainfall := series_mean (map rainfall_actual_mm data) in
              Return ("🌧️ **Rainfall in " ++ title state ++ " for " ++ ym ++ ":**"
                      ++ nl ++ nl ++ "Average rainfall: **"
                      ++ py_format avg_rainfall ".2f" ++ " mm**")
          | _ =>
              let latest_data := tail 12 (sort_values rf_year_month String.leb data) in
              let avg_rainfall := series_mean (map rainfall_actual_mm latest_data) in
              latest <- last_item latest_data ;;
              Return ("🌧️ **Recent Rainfall in " ++ title state ++ ":**" ++ nl ++ nl
                      ++ "Average rainfall (last 12 months): **"
                      ++ py_format avg_rainfall ".2f" ++ " mm**" ++ nl ++ nl
                      ++ "Latest data available: " ++ rf_year_month latest)
          end
      end
  | _ => Return rainfall_usage
  end.

Definition handle_groundwater_query (self : GroundwaterChatbot) (entities : Entities)
    (user_input : string) : PyResult string :=
  let district := e_district entities in
  let year_month := e_month entities in
  match e_state entities with
  | Some (String _ _ as state) =>
      match get_groundwater_data self (Some state) district year_month with
      | [] => Return (no_groundwater_data (location_of district state))
      | data =>
          match year_month with
          | Some (String _ _ as ym) =>
              let avg_gw := series_mean (map gw_level_m_bgl data) in
              Return ("💧 **Groundwater Level in " ++ location_of district state
                      ++ " for " ++ ym ++ ":**" ++ nl ++ nl
                      ++ "Average groundwater level: **"
                      ++ py_format avg_gw ".2f" ++ " m bgl**")
          | _ =>
              let latest_data := tail 12 (sort_values gw_year_month String.leb data) in
              let avg_gw := series_mean (map gw_level_m_bgl latest_data) in
              latest <- last_item latest_data ;;
              Return ("💧 **Recent Groundwater Levels in " ++ location_of district state
                      ++ ":**" ++ nl ++ nl
                      ++ "Average groundwater level (last 12 months): **"
                      ++ py_format avg_gw ".2f" ++ " m bgl**" ++ nl ++ nl
                      ++ "Latest data available: " ++ gw_year_month latest)
          end
      end
  | _ => Return groundwater_usage
  end.

Definition handle_prediction_query (self : GroundwaterChatbot) (entities : Entities)
    (user_input : string) : PyResult string :=
  match model self with
  | None => Return model_unavailable
  | Some _ =>
      let district := e_district entities in
      let year := e_year entities in
      match e_state entities, e_number entities with
      | Some (String _ _ as state), Some rainfall_value =>
          if truthy_float (Some rainfall_value) then
            match tail 1 (sort_values gw_year_month String.leb
                            (get_groundwater_data self (Some state) district None)) with
            | [] =>
                Return ("❌ **No Historical Data:**" ++ nl ++ nl
                        ++ "No groundwater data found for " ++ location_of district state
                        ++ " to use as baseline for prediction.")
            | latest_gw_data =>
                row <- first_item latest_gw_data ;;
                let lag_gw := gw_level_m_bgl row in
                match predict_groundwater self state rainfall_value lag_gw with
                | Some prediction =>
                    let year_info :=
                      match year with
                      | Some (String _ _ as y) => " for " ++ y
                      | _ => EmptyString
                      end in
                    Return
                      ("🔮 **Groundwater Prediction for " ++ location_of district state
                       ++ year_info ++ ":**" ++ nl ++ nl
                       ++ "**Input Parameters:**" ++ nl
                       ++ "- Rainfall: " ++ py_str rainfall_value ++ " mm" ++ nl
                       ++ "- Current groundwater level: " ++ py_format lag_gw ".2f"
                       ++ " m bgl" ++ nl
                       ++ match district with
                          | Some (String _ _ as d) =>
                              "- Location: " ++ title d ++ " district" ++ nl
                          | _ => EmptyString
                          end
                       ++ match year with
                          | Some (String _ _ as y) => "- Year: " ++ y ++ nl
                          | _ => EmptyString
                          end
                       ++ nl ++ "**Predicted groundwater level:** **"
                       ++ py_str prediction ++ " m bgl**" ++ nl ++ nl
                       ++ "*Note: This is a machine learning prediction based on historical data.*")
                | None =>
                    Return ("❌ **Prediction Failed:**" ++ nl ++ nl
                            ++ "Unable to generate prediction. Please check the input parameters.")
                end
            end
          else Return prediction_usage
      | _, _ => Return prediction_usage
      end
  end.

Definition handle_comparison_query (self : GroundwaterChatbot) (entities : Entities)
    (user_input : string) : PyResult string :=
  Return ("📊 **Comparison Feature:**" ++ nl ++ nl
          ++ "To compare data between states or districts, please ask specific questions like:"
          ++ nl ++ "- 'Compare rainfall between Maharashtra and Karnataka'" ++ nl
          ++ "- 'Which state has higher groundwater levels?'" ++ nl ++ nl
          ++ "*Note: Advanced comparison features are being developed.*").

Definition handle_trend_query (self : GroundwaterChatbot) (entities : Entities)
    (user_input : string) : PyResult string :=
  match e_state entities with
  | Some (String _ _ as state) =>
      let rainfall_data :=
        tail 24 (sort_values rf_year_month String.leb
                   (get_rainfall_data self (Some state) None)) in
      let gw_data :=
        tail 24 (sort_values gw_year_month String.leb
                   (get_groundwater_data self (Some state) None None)) in
      match rainfall_data, gw_data with
      | _ :: _, _ :: _ =>
          let rainfall_trend := series_mean (diff (map rainfall_actual_mm rainfall_data)) in
          let gw_trend := series_mean (diff (map gw_level_m_bgl gw_data)) in
          Return
            ("📈 **Trend Analysis for " ++ title state ++ ":**" ++ nl ++ nl
             ++ "**Rainfall Trend:** " ++ py_format rainfall_trend "+.2f" ++ " mm/month" ++ nl
             ++ "**Groundwater Trend:** " ++ py_format gw_trend "+.2f" ++ " m bgl/month"
             ++ nl ++ nl
             ++ (if PrimFloat.ltb 0 rainfall_trend
                 then "📈 Rainfall is increasing over time" ++ nl
                 else "📉 Rainfall is decreasing over time" ++ nl)
             ++ (if PrimFloat.ltb 0 gw_trend
                 then "📈 Groundwater levels are rising (good for water availability)" ++ nl
                 else "📉 Groundwater levels are declining (concerning for water availability)"
                      ++ nl))
      | _, _ =>
          Return ("❌ **Insufficient Data:**" ++ nl ++ nl
                  ++ "Not enough data available for trend analysis in " ++ title state)
      end
  | _ => Return trend_usage
  end.

Definition handle_district_query (self : GroundwaterChatbot) (entities : Entities)
    (user_input : string) : PyResult string :=
  match e_state entities with
  | Some (String _ _ as state) =>
      match get_available_districts self state with
      | [] =>
          Return ("❌ **No Districts Found:**" ++ nl ++ nl
                  ++ "No district data available for " ++ title state)
      | districts =>
          let district_list := firstn 10 districts in
          let district_text :=
            String.concat nl (map (fun d => "- " ++ title d) district_list) in
          first_district <- first_item districts ;;
          Return
            ("📍 **Districts in " ++ title state ++ ":**" ++ nl ++ nl ++ district_text
             ++ (if (10 <? List.length districts)%nat
                 then nl ++ nl ++ "... and "
                      ++ str_of_int (Z.of_nat (List.length districts) - 10)
                      ++ " more districts"
                 else EmptyString)
             ++ nl ++ nl ++ "**Total districts:** "
             ++ str_of_int (Z.of_nat (List.length districts))
             ++ nl ++ nl ++ "💡 **Tip:** Ask for specific district data like:" ++ nl
             ++ "- 'Groundwater levels in " ++ title first_district ++ "'")
      end
  | _ => Return district_usage
  end.

(** [months_ahead]: twelve, or the distance of the year from 2024 in
    months, kept within one month and five years. *)
Definition months_ahead_of (year : option string) : Z :=
  match year with
  | Some (String _ _ as y) =>
      let current_year := 2024%Z in
      let target_year := py_int y in
      Z.max 1 (Z.min ((target_year - current_year) * 12) 60)
  | _ => 12%Z
  end.

(** [data['date'] = pd.to_datetime(data['year_month'])], then the (date,
    value) columns, for rows whose month keys are written ["YYYY-MM"]: the
    keys are read with [to_datetime], and a key that is not written so is
    rendered as a conversion that raises.  The handlers are stated under
    [dates_parsed], where no key is of that kind. *)
Definition dated {A : Type} (year_month : A -> string) (value : A -> float)
    (data : list A) : PyResult (list (Timestamp * float)) :=
  match traverse (fun r => match to_datetime (year_month r) with
                           | Some d => Some (d, value r)
                           | None => None
                           end) data with
  | Some l => Return l
  | None => Raise ValueError
  end.

Definition forecast_line (pair : Prediction * Prediction) : string :=
  let (rain_pred, gw_pred) := pair in
  "- **" ++ p_date rain_pred ++ ":**" ++ nl
  ++ "  • Rainfall: " ++ py_format (p_value rain_pred) ".1f" ++ " mm (confidence: "
  ++ py_format (p_confidence rain_pred) ".1%" ++ ")" ++ nl
  ++ "  • Groundwater: " ++ py_format (p_value gw_pred) ".2f" ++ " m bgl (confidence: "
  ++ py_format (p_confidence gw_pred) ".1%" ++ ")" ++ nl.

Definition handle_future_prediction_query (self : GroundwaterChatbot)
    (entities : Entities) (user_input : string) : PyResult string :=
  let district := e_district entities in
  let months_ahead := months_ahead_of (e_year entities) in
  match e_state entities with
  | Some (String _ _ as state) =>
      let rainfall_data := get_rainfall_data self (Some state) None in
      let groundwater_data := get_groundwater_data self (Some state) district None in
      match rainfall_data, groundwater_data with
      | _ :: _, _ :: _ =>
          rainfall_dated <- dated rf_year_month rainfall_actual_mm rainfall_data ;;
          groundwater_dated <- dated gw_year_month gw_level_m_bgl groundwater_data ;;
          let recent_rainfall := tail 36 rainfall_dated in
          let recent_groundwater := tail 36 groundwater_dated in
          rainfall_predictions <- predict_future_values recent_rainfall months_ahead ;;
          groundwater_predictions <- predict_future_values recent_groundwater months_ahead ;;
          trend_text <-
            match trend_analysis rainfall_predictions with
            | [] => Return EmptyString
            | trend_info =>
                trend <- dict_get trend_info "trend" ;;
                seasonality <- dict_get trend_info "seasonality" ;;
                volatility <- dict_get trend_info "volatility" ;;
                Return ("**📊 Trend Analysis:**" ++ nl
                        ++ "- Rainfall trend: " ++ py_format trend "+.4f" ++ " mm/month" ++ nl
                        ++ "- Seasonality: " ++ py_format seasonality ".2f" ++ nl
                        ++ "- Volatility: " ++ py_format volatility ".2f" ++ nl ++ nl)
            end ;;
          long_term <-
            (if (6 <? months_ahead)%Z then
               final_rain <- last_item (predictions rainfall_predictions) ;;
               final_gw <- last_item (predictions groundwater_predictions) ;;
               Return (nl ++ "**📈 Long-term Projection (" ++ str_of_int months_ahead
                       ++ " months):**" ++ nl
                       ++ "- **" ++ p_date final_rain ++ ":**" ++ nl
                       ++ "  • Expected rainfall: " ++ py_format (p_value final_rain) ".1f"
                       ++ " mm" ++ nl
                       ++ "  • Expected groundwater: " ++ py_format (p_value final_gw) ".2f"
                       ++ " m bgl" ++ nl)
             else Return EmptyString) ;;
          let avg_confidence :=
            ((confidence rainfall_predictions + confidence groundwater_predictions) / 2)%float in
          Return
            ("🔮 **Future Predictions for " ++ location_of district state ++ ":**" ++ nl ++ nl
             ++ trend_text
             ++ "**📅 Next 6 Months Forecast:**" ++ nl
             ++ String.concat EmptyString
                  (map forecast_line
                     (combine (firstn 6 (predictions rainfall_predictions))
                              (firstn 6 (predictions groundwater_predictions))))
             ++ long_term
             ++ nl ++ "**⚠️ Confidence Level:** " ++ py_format avg_confidence ".1%" ++ nl
             ++ "*Note: Predictions are based on historical trends and may not account for extreme weather events or human interventions.*")
      | _, _ =>
          Return ("❌ **Insufficient Data:**" ++ nl ++ nl
                  ++ "Not enough historical data available for future predictions in "
                  ++ location_of district state ++ ".")
      end
  | _ => Return future_usage
  end.

(** ** The router *)

Definition greeting_words : list string :=
  ["hello"; "hi"; "hey"; "good morning"; "good afternoon"; "good evening"].
Definition help_words : list string :=
  ["help"; "what can you do"; "commands"; "features"].
Definition future_words : list string :=
  ["future"; "forecast"; "next year"; "coming months"; "estimate"; "projection"].
Definition prediction_words : list string := ["predict"; "what will be"].
Definition rainfall_words : list string := ["rainfall"; "rain"; "precipitation"].
Definition groundwater_words : list string := ["groundwater"; "water level"; "gw level"].
Definition comparison_words : list string := ["compare"; "comparison"; "vs"; "versus"].
Definition trend_words : list string := ["trend"; "trends"; "over time"; "change"].
Definition district_words : list string := ["district"; "districts"; "show me districts"].

(** [generate_response]: the answer (or the exception raised) and the
    state the generator is left in. *)
Definition generate_response (self : GroundwaterChatbot) (rs : RandomState)
    (user_input : string) : PyResult string * RandomState :=
  let user_input_lower := lower user_input in
  let entities := extract_entities self user_input in
  if any_in greeting_words user_input_lower then
    let (greeting, rs') := get_greeting_response rs in (Return greeting, rs')
  else if any_in help_words user_input_lower then
    (Return get_help_response, rs)
  else if any_in future_words user_input_lower then
    (handle_future_prediction_query self entities user_input_lower, rs)
  else if any_in prediction_words user_input_lower then
    (handle_prediction_query self entities user_input_lower, rs)
  else if any_in rainfall_words user_input_lower
          && negb (any_in future_words user_input_lower) then
    (handle_rainfall_query self entities user_input_lower, rs)
  else if any_in groundwater_words user_input_lower then
    (handle_groundwater_query self entities user_input_lower, rs)
  else if any_in comparison_words user_input_lower then
    (handle_comparison_query self entities user_input_lower, rs)
  else if any_in trend_words user_input_lower then
    (handle_trend_query self entities user_input_lower, rs)
  else if any_in district_words user_input_lower then
    (handle_district_query self entities user_input_lower, rs)
  else if any_in future_words user_input_lower then
    (handle_future_prediction_query self entities user_input_lower, rs)
  else
    (Return get_default_response, rs).

End Handlers.

(** ** A computable instance of the libraries

    Sums run from left to right, the sine is a Taylor polynomial (adequate
    on the arguments the projection passes, within [0, 2 pi]), [str] writes
    the shortest fixed-point literal that reads back as the same float.
    The results agree with NumPy and pandas up to the last bits of
    rounding; no theorem below depends on this instance. *)

Definition is_nan (x : float) : bool := negb (PrimFloat.eqb x x).

Definition sum_floats (l : list float) : float :=
  fold_left PrimFloat.add l 0%float.

Definition count_floats (l : list float) : float :=
  float_of_int (Z.of_nat (List.length l)).

Definition mean_floats (l : list float) : float :=
  (sum_floats l / count_floats l)%float.

Definition skipna (l : list float) : list float :=
  filter (fun x => negb (is_nan x)) l.

(** Sample standard deviation ([ddof=1]), missing values skipped. *)
Definition std_floats (l : list float) : float :=
  let l := skipna l in
  let m := mean_floats l in
  PrimFloat.sqrt
    (sum_floats (map (fun x => ((x - m) * (x - m))%float) l)
     / (count_floats l - 1))%float.

(** Slope of the least-squares line through the points [(x, y)]. *)
Definition slope_floats (x y : list float) : float :=
  let mx := mean_floats x in
  let my := mean_floats y in
  (sum_floats (map (fun p => ((fst p - mx) * (snd p - my))%float) (combine x y))
   / sum_floats (map (fun a => ((a - mx) * (a - mx))%float) x))%float.

Fixpoint sin_terms (n : nat) (k : Z) (term x2 acc : float) : float :=
  match n with
  | O => acc
  | S n' =>
      let term' :=
        (- term * x2 / float_of_int ((2 * k + 2) * (2 * k + 3)))%float in
      sin_terms n' (k + 1) term' x2 (acc + term')%float
  end.

Definition sin_floats (x : float) : float := sin_terms 24 0 x (x * x)%float x.

(** [m * 2^e * 10^n], rounded to an integer, ties to even. *)
Definition scaled_round (m : positive) (e : Z) (n : Z) : Z :=
  let num := (Zpos m * 10 ^ n)%Z in
  if (0 <=? e)%Z then (num * 2 ^ e)%Z
  else
    let den := (2 ^ (- e))%Z in
    let q := (num / den)%Z in
    let r := (num mod den)%Z in
    if (2 * r <? den)%Z then q
    else if (den <? 2 * r)%Z then (q + 1)%Z
    else if Z.even q then q else (q + 1)%Z.

(** The float nearest to [x] among the decimals with [n] digits after
    the point. *)
Definition round_decimal (x : float) (n : Z) : float :=
  match Prim2SF x with
  | S754_finite s m e =>
      let r := nearest_binary64 (scaled_round m e n) (Z.to_nat n) in
      if s then (- r)%float else r
  | _ => x
  end.

(** [rint(x * 10^n) / 10^n] *)
Definition round_scaled (x : float) (n : Z) : float :=
  let p := float_of_int (10 ^ n) in
  let y := (x * p)%float in
  let big := 4503599627370496%float in
  let a := PrimFloat.abs y in
  let r := if PrimFloat.ltb a big then (a + big - big)%float else a in
  ((if PrimFloat.ltb y 0 then - r else r) / p)%float.

Definition sign_text (plus negative : bool) : string :=
  if negative then "-" else if plus then "+" else EmptyString.

(** The digits of [q] with a decimal point before the last [n] of them. *)
Definition place_point (q : Z) (n : nat) : string :=
  let s := zero_pad (S n) (str_of_int q) in
  let k := (String.length s - n)%nat in
  match n with
  | O => s
  | _ => String.substring 0 k s ++ "." ++ drop k s
  end.

(** [format(x, "[+].nf")] *)
Definition format_fixed (plus : bool) (n : nat) (x : float) : string :=
  match Prim2SF x with
  | S754_finite s m e => sign_text plus s ++ place_point (scaled_round m e (Z.of_nat n)) n
  | S754_zero s => sign_text plus s ++ place_point 0 n
  | S754_infinity s => sign_text plus s ++ "inf"
  | S754_nan => sign_text plus false ++ "nan"
  end.

(** The format specifications of the answers: an optional [+], a
    precision, and the type [f] or [%]. *)
Definition format_floats (x : float) (spec : string) : string :=
  let (plus, spec) :=
    match spec with
    | String "+" rest => (true, rest)
    | _ => (false, spec)
    end in
  match spec with
  | String "." rest =>
      let (digits, kind) := take_digits rest in
      let n := Z.to_nat (py_int digits) in
      if String.eqb kind "f" then format_fixed plus n x
      else if String.eqb kind "%" then format_fixed plus n (x * 100)%float ++ "%"
      else EmptyString
  | _ => EmptyString
  end.

(** The least number of decimals, from [n] on, with which [x] reads back. *)
Fixpoint shortest_decimals (fuel n : nat) (x : float) : nat :=
  match fuel with
  | O => n
  | S fuel' =>
      if PrimFloat.eqb (round_decimal x (Z.of_nat n)) x then n
      else shortest_decimals fuel' (S n) x
  end.

Definition str_floats (x : float) : string :=
  format_fixed false (shortest_decimals 400 1 x) x.

#[export] Instance ref_lib : PyLib := {|
  np_sin := sin_floats;
  np_polyfit_slope := slope_floats;
  np_mean := mean_floats;
  series_mean := fun l => mean_floats (skipna l);
  series_std := std_floats;
  group_mean := fun l => mean_floats (skipna l);
  py_round := round_decimal;
  np_round := round_scaled;
  py_format := format_floats;
  py_str := str_floats
|}.

(** A conversion for files whose month keys are written ["YYYY-MM"], on
    which the sample files are evaluated: every key is given its month,
    and a column with a key that is not written so is refused (pandas
    reads more spellings than this). *)
#[export] Instance ref_pandas : Pandas := {|
  pd_to_datetime := fun column =>
    match traverse to_datetime column with
    | Some dates => Some (fun i => nth i dates {| ts_year := 1970; ts_month := 1 |})
    | None => None
    end
|}.

(** ** Sample data

    A small pair of files, the assistant loaded from them with and without
    a model, and a generator; the closed examples below run on these. *)

Definition sample_rainfall_csv : list RainfallCsv :=
  [ {| csv_rf_state_name := "Kerala"; csv_rf_year_month := "2023-01";
       csv_rainfall_actual_mm := 12.5 |};
    {| csv_rf_state_name := " Goa"; csv_rf_year_month := "2023-01";
       csv_rainfall_actual_mm := 3 |};
    {| csv_rf_state_name := "Kerala"; csv_rf_year_month := "2023-02";
       csv_rainfall_actual_mm := 20.25 |};
    {| csv_rf_state_name := "Maharashtra"; csv_rf_year_month := "2023-02";
       csv_rainfall_actual_mm := 7 |};
    {| csv_rf_state_name := "Goa "; csv_rf_year_month := "2023-02";
       csv_rainfall_actual_mm := 4.5 |} ].

Definition sample_groundwater_csv : list GroundwaterCsv :=
  [ {| csv_gw_state_name := "Kerala"; csv_gw_district_name := "Idukki";
       csv_gw_year_month := "2023-01"; csv_gw_level_m_bgl := 6.5 |};
    {| csv_gw_state_name := "Goa"; csv_gw_district_name := "North Goa";
       csv_gw_year_month := "2023-01"; csv_gw_level_m_bgl := 3.25 |};
    {| csv_gw_state_name := "Kerala"; csv_gw_district_name := "Idukki";
       csv_gw_year_month := "2023-02"; csv_gw_level_m_bgl := 6.75 |};
    {| csv_gw_state_name := "Maharashtra"; csv_gw_district_name := "Pune";
       csv_gw_year_month := "2023-02"; csv_gw_level_m_bgl := 9 |} ].

Definition sample_model : Model :=
  fun rainfall_value lag_gw => Some (lag_gw - 0.01 * rainfall_value)%float.

Definition sample_bot : GroundwaterChatbot :=
  init sample_rainfall_csv sample_groundwater_csv (Some sample_model).

Definition sample_bot_without_model : GroundwaterChatbot :=
  init sample_rainfall_csv sample_groundwater_csv None.

(** A generator whose successive draws are 0, 1, 2, ... *)
Definition sample_draws : RandomState := fun n => n.

(** One observation, January 2024. *)
Definition sample_series : list (Timestamp * float) :=
  [ ({| ts_year := 2024; ts_month := 1 |}, 5.5%float) ].

(** The confidences of a forecast, in order; none when the call raised. *)
Definition confidences (r : PyResult Forecast) : list float :=
  match r with
  | Return f => map p_confidence (predictions f)
  | Raise _ => []
  end.

(** [max(0.3, 1 - (i * 0.05))], the confidence of step [i]. *)
Definition confidence_at (i : Z) : float :=
  py_max 0.3 (1 - float_of_int i * 0.05)%float.

(** The last character of a text. *)
Fixpoint last_char (s : string) : option ascii :=
  match s with
  | EmptyString => None
  | String c s' =>
      match last_char s' with
      | None => Some c
      | o => o
      end
  end.

(** A character that ends a word and a number: no letter, digit or
    underscore, and not the decimal point. *)
Definition is_delimiter (c : ascii) : bool :=
  negb (is_word c) && negb (Ascii.eqb c ".").

(** The text is empty or ends with a delimiter. *)
Definition delimited (s : string) : bool :=
  match last_char s with
  | None => true
  | Some c => is_delimiter c
  end.

Definition is_digit_at (o : option ascii) : bool :=
  match o with
  | Some c => is_digit c
  | None => false
  end.

(** What may follow a number for it to end there: no digit, and no
    decimal point followed by a digit. *)
Definition number_ends (post : string) : bool :=
  match post with
  | EmptyString => true
  | String c r =>
      negb (is_digit c) && negb (Ascii.eqb c "." && is_digit_at (first_char r))
  end.

(** The confidence formula of the specification, over the rationals:
    max(0.3, 1 - 0.05 i). *)
Definition spec_confidence (i : Z) : Q :=
  Qmax (3 # 10) (1 - (5 # 100) * inject_Z i).

(** The exact value of a finite float. *)
Definition Q_of_float (x : float) : option Q :=
  match Prim2SF x with
  | S754_zero _ => Some 0%Q
  | S754_finite s m e =>
      let v := if (0 <=? e)%Z then inject_Z (Zpos m * 2 ^ e)
               else Qmake (Zpos m) (Z.to_pos (2 ^ (- e))) in
      Some (if s then Qopp v else v)
  | _ => None
  end.

(** [x] is within 10^-15 of the rational [q]. *)
Definition close_to (x : float) (q : Q) : bool :=
  match Q_of_float x with
  | Some v => Qle_bool (Qabs (v - q)) (1 # 1000000000000000)
  | None => false
  end.

(** One field of the trend summary of a forecast. *)
Definition forecast_trend (r : PyResult Forecast) (key : string) : PyResult float :=
  f <- r ;; dict_get (trend_analysis f) key.

(** [get_available_months], for a table with rows: the month keys of the
    rainfall table.  There is no guard for an empty table here: the frame
    that a failed [load_data] leaves has no [year_month] column, and the
    method is defined where the table has a row. *)
Definition get_available_months (self : GroundwaterChatbot)
    (has_rows : rainfall self <> []) : list string :=
  sorted (unique (map rf_year_month (rainfall self))).

(** The month [k] months after [d], by arithmetic on the month count. *)
Definition add_months (d : Timestamp) (k : Z) : Timestamp :=
  let total := (ts_year d * 12 + (ts_month d - 1) + k)%Z in
  {| ts_year := total / 12; ts_month := total mod 12 + 1 |}.

(** A calendar month. *)
Definition valid_month (d : Timestamp) : Prop := (1 <= ts_month d <= 12)%Z.

(** A literal that [float] accepts: digits, then possibly a decimal point
    and further digits. *)
Definition is_float_literal (tok : string) : bool :=
  let (ip, rest) := take_digits tok in
  negb (String.eqb ip EmptyString)
  && match rest with
     | EmptyString => true
     | String c r => Ascii.eqb c "." && all_digits r
     end.

(** The order of two rows by a key. *)
Definition key_le {A K : Type} (key : A -> K) (le : K -> K -> bool) (a b : A) : Prop :=
  le (key a) (key b) = true.

(** The month keys of both tables are written ["YYYY-MM"], and the dates
    of the rows are the months they stand for (what [load_data] leaves
    for such keys). *)
Definition dates_parsed (self : GroundwaterChatbot) : Prop :=
  Forall (fun r => to_datetime (rf_year_month r) = Some (rf_date r)) (rainfall self)
  /\ Forall (fun r => to_datetime (gw_year_month r) = Some (gw_date r)) (groundwater self).

(** Two month keys in the order of their dates, where [to_datetime]
    reads both. *)
Definition chronological (a b : string) : Prop :=
  forall da db, to_datetime a = Some da -> to_datetime b = Some db ->
                timestamp_le da db = true.

(** Consecutive integers from [lo], for checks over a bounded range. *)
Definition Z_range (lo : Z) (n : nat) : list Z :=
  map (fun k => (lo + Z.of_nat k)%Z) (seq 0 n).

(** The order of [sorted]: strings compared character by character. *)
Definition alphabetical (a b : string) : Prop := String.leb a b = true.

(** * Properties *)

(** ** Strings *)





(** ** The loops with [break] *)

Lemma first_in_split (names : list string) (t s : string) :
  first_in names t = Some s ->
  exists before after,
    names = (before ++ s :: after)%list
    /\ str_in s t = true
    /\ forall x, In x before -> str_in x t = false.
Proof.
  induction names as [|n names IH]; simpl; [discriminate|].
  destruct (str_in n t) eqn:E; intros H.
  - injection H as <-. exists [], names. repeat split; [exact E | intros x []].
  - destruct (IH H) as (before & after & -> & Hs & Hb).
    exists (n :: before), after. repeat split; [exact Hs|].
    intros x [<-|Hx]; [exact E | now apply Hb].
Qed.


Lemma first_in_none (names : list string) (t : string) :
  (forall s, In s names -> str_in s t = false) -> first_in names t = None.
Proof.
  induction names as [|n names IH]; simpl; [reflexivity|].
  intros H. rewrite (H n (or_introl eq_refl)). apply IH.
  intros s Hs. apply H. now right.
Qed.

(** ** The router *)

Section Router.
Context {L : PyLib}.

Lemma e_state_extract (self : GroundwaterChatbot) (text : string) :
  e_state (extract_entities self text)
  = first_in (get_available_states self) (lower text).
Proof. reflexivity. Qed.

Lemma e_year_extract (self : GroundwaterChatbot) (text : string) :
  e_year (extract_entities self text) = year_search None text.
Proof. reflexivity. Qed.

Lemma e_number_extract (self : GroundwaterChatbot) (text : string) :
  e_number (extract_entities self text) = first_number (number_findall text).
Proof. reflexivity. Qed.

Lemma generate_response_greeting (self : GroundwaterChatbot) (rs : RandomState)
    (text : string) :
  any_in greeting_words (lower text) = true ->
  generate_response self rs text
  = (Return (nth (rs O mod 3) greetings EmptyString), fun n => rs (S n)).
Proof.
  intros H. unfold generate_response. cbv zeta. rewrite H. reflexivity.
Qed.

Lemma greeting_in_greetings (n : nat) : In (nth (n mod 3) greetings EmptyString) greetings.
Proof.
  apply nth_In. change (List.length greetings) with 3%nat.
  apply Nat.mod_upper_bound. discriminate.
Qed.

Lemma greeting_not_unavailable (g : string) :
  In g greetings -> g <> model_unavailable.
Proof.
  intros Hg E. subst g.
  assert (forall g, In g greetings -> String.get 0 g <> String.get 0 model_unavailable) as H.
  { intros g [<-|[<-|[<-|[]]]]; vm_compute; discriminate. }
  now apply (H _ Hg).
Qed.

Lemma hi_is_greeting (t : string) :
  str_in "hi" t = true -> any_in greeting_words t = true.
Proof.
  intros H. unfold any_in, greeting_words. cbn [existsb].
  rewrite H. rewrite orb_true_r. reflexivity.
Qed.

(** C9.  The greeting keywords are tested first, by substring containment:
    for every text whose lower-casing contains "hi" anywhere (inside
    "Delhi" or "Himachal", say), [generate_response] answers with one of
    the greetings, whatever the tables, the model, the generator and the
    rest of the text are. *)
Theorem hi_substring_is_greeted (self : GroundwaterChatbot) (rs : RandomState)
    (text : string) :
  str_in "hi" (lower text) = true ->
  exists g, In g greetings /\ fst (generate_response self rs text) = Return g.
Proof.
  intros H. apply hi_is_greeting in H.
  rewrite (generate_response_greeting self rs text H).
  exists (nth (rs O mod 3) greetings EmptyString). split.
  - apply greeting_in_greetings.
  - reflexivity.
Qed.

(** C1.  With no model loaded and any tables, the text "Predict
    groundwater level for Delhi with 100mm rainfall" is answered by a
    greeting, not by the model-unavailable message: "delhi" contains "hi"
    and the greeting test comes first.  The prediction handler, when it is
    reached, does return that message. *)
Theorem delhi_prediction_without_model (r : list RainfallRow)
    (g : list GroundwaterRow) (rs : RandomState) :
  let self := {| rainfall := r; groundwater := g; model := None |} in
  let text := "Predict groundwater level for Delhi with 100mm rainfall" in
  let answer := nth (rs O mod 3) greetings EmptyString in
  fst (generate_response self rs text) = Return answer
  /\ In answer greetings
  /\ answer <> model_unavailable
  /\ handle_prediction_query self (extract_entities self text) (lower text)
     = Return model_unavailable.
Proof.
  intros self text answer. split; [|split; [|split]].
  - unfold text. rewrite generate_response_greeting; [reflexivity|].
    apply hi_is_greeting. reflexivity.
  - apply greeting_in_greetings.
  - apply greeting_not_unavailable, greeting_in_greetings.
  - reflexivity.
Qed.


(** C5 (amended).  When no state of the vocabulary occurs in the text,
    "Groundwater levels in xyz" is answered by the prompt asking for a
    state or district, for every model and without a draw from the
    generator: no state, so no district is looked for and no table is
    read. *)
Theorem groundwater_query_without_state (self : GroundwaterChatbot)
    (rs : RandomState) :
  (forall s, In s (get_available_states self) ->
             str_in s "groundwater levels in xyz" = false) ->
  generate_response self rs "Groundwater levels in xyz"
  = (Return groundwater_usage, rs).
Proof.
  intros H. apply first_in_none in H.
  pose proof (e_state_extract self "Groundwater levels in xyz") as E.
  change (lower "Groundwater levels in xyz") with "groundwater levels in xyz" in E.
  rewrite H in E.
  unfold generate_response. cbv zeta.
  change (lower "Groundwater levels in xyz") with "groundwater levels in xyz".
  change (any_in greeting_words "groundwater levels in xyz") with false.
  change (any_in help_words "groundwater levels in xyz") with false.
  change (any_in future_words "groundwater levels in xyz") with false.
  change (any_in prediction_words "groundwater levels in xyz") with false.
  change (any_in rainfall_words "groundwater levels in xyz") with false.
  change (any_in groundwater_words "groundwater levels in xyz") with true.
  cbv iota. cbn [andb]. cbv iota.
  unfold handle_groundwater_query. rewrite E. reflexivity.
Qed.

End Router.

(** ** The projection *)

Lemma length_insert_row {A K : Type} (key : A -> K) (le : K -> K -> bool)
    (x : A) (l : list A) :
  List.length (insert_row key le x l) = S (List.length l).
Proof.
  induction l as [|y l IH]; simpl; [reflexivity|].
  destruct (le (key y) (key x)); simpl; [now rewrite IH | reflexivity].
Qed.

Lemma length_sort_values {A K : Type} (key : A -> K) (le : K -> K -> bool)
    (l : list A) :
  List.length (sort_values key le l) = List.length l.
Proof.
  unfold sort_values.
  assert (forall acc, List.length (fold_left (fun acc x => insert_row key le x acc) l acc)
                      = (List.length l + List.length acc)%nat) as H.
  { induction l as [|x l IH]; intros acc; simpl; [reflexivity|].
    rewrite IH, length_insert_row. lia. }
  rewrite H. simpl. lia.
Qed.

Lemma last_item_returns {A : Type} (l : list A) :
  l <> [] -> exists x, last_item l = Return x.
Proof.
  induction l as [|a l IH]; [congruence|]. intros _.
  destruct l as [|b l]; [now exists a|].
  destruct IH as [x Hx]; [discriminate|]. exists x. exact Hx.
Qed.

Lemma forallb_Z_range (P : Z -> bool) (lo : Z) (n : nat) :
  forallb P (Z_range lo n) = true ->
  forall i, (lo <= i < lo + Z.of_nat n)%Z -> P i = true.
Proof.
  intros H i Hi. rewrite forallb_forall in H. apply H.
  unfold Z_range. apply in_map_iff. exists (Z.to_nat (i - lo)). split; [lia|].
  apply in_seq. lia.
Qed.

(** The confidences fall strictly down to step 14. *)
Lemma confidence_strict (i : Z) :
  (1 <= i)%Z -> (i + 1 <= 14)%Z ->
  PrimFloat.ltb (confidence_at (i + 1)) (confidence_at i) = true.
Proof.
  intros H1 H2.
  apply (forallb_Z_range
           (fun i => PrimFloat.ltb (confidence_at (i + 1)) (confidence_at i)) 1 13);
    [vm_compute; reflexivity | lia].
Qed.

(** From step 14 on, the confidence is the floor. *)
Lemma confidence_floor (i : Z) :
  (14 <= i <= 60)%Z -> confidence_at i = 0.3%float.
Proof.
  intros H.
  assert (forall j, (14 <= j < 14 + Z.of_nat 47)%Z ->
                    PrimFloat.ltb 0.3 (1 - float_of_int j * 0.05) = false) as F.
  { intros j Hj.
    pose proof (forallb_Z_range
                  (fun j => negb (PrimFloat.ltb 0.3 (1 - float_of_int j * 0.05))) 14 47) as G.
    apply negb_true_iff. apply G; [vm_compute; reflexivity | exact Hj]. }
  unfold confidence_at, py_max. rewrite F; [reflexivity | lia].
Qed.

(** Up to step 60 the confidences never rise, stay at or above 0.3 and
    are, up to rounding, the rational values of the formula. *)
Lemma confidence_bounds (i : Z) :
  (1 <= i <= 60)%Z ->
  PrimFloat.leb 0.3 (confidence_at i) = true
  /\ PrimFloat.leb (confidence_at i) 1 = true
  /\ PrimFloat.leb (confidence_at (i + 1)) (confidence_at i) = true
  /\ close_to (confidence_at i) (spec_confidence i) = true.
Proof.
  intros H.
  pose proof (forallb_Z_range
                (fun i => PrimFloat.leb 0.3 (confidence_at i)
                          && PrimFloat.leb (confidence_at i) 1
                          && PrimFloat.leb (confidence_at (i + 1)) (confidence_at i)
                          && close_to (confidence_at i) (spec_confidence i)) 1 60) as G.
  specialize (G ltac:(vm_compute; reflexivity) i ltac:(lia)).
  apply andb_prop in G as [G G4]. apply andb_prop in G as [G G3].
  apply andb_prop in G as [G1 G2]. repeat split; assumption.
Qed.

Section Projection.
Context {L : PyLib}.

Lemma length_project (trend seasonality : float) (n : nat) (i : Z)
    (d : Timestamp) (v : float) :
  List.length (project trend seasonality n i d v) = n.
Proof.
  revert i d v. induction n as [|n IH]; intros i d v; simpl;
    [reflexivity | now rewrite IH].
Qed.

(** The point produced at iteration [i + k] carries the confidence of
    that step, whatever date and value the loop has reached. *)
Lemma project_confidence (trend seasonality : float) (n : nat) :
  forall (k : nat) (i : Z) (d : Timestamp) (v : float),
    (k < n)%nat ->
    exists p, nth_error (project trend seasonality n i d v) k = Some p
              /\ p_confidence p = confidence_at (i + Z.of_nat k).
Proof.
  induction n as [|n IH]; intros k i d v Hk; [lia|].
  destruct k as [|k].
  - cbn [project nth_error]. eexists. split; [reflexivity|].
    cbn [p_confidence Z.of_nat]. rewrite Z.add_0_r. reflexivity.
  - cbn [project nth_error].
    destruct (IH k (i + 1)%Z (next_month d)
                ((v + trend * float_of_int i)
                 * (1 + seasonality * 0.1
                        * np_sin (2 * np_pi
                                  * float_of_int (ts_month (next_month d)) / 12)))%float)
      as (p & Hp & Hc); [lia|].
    exists p. split; [exact Hp|]. rewrite Hc. f_equal. lia.
Qed.

(** A non-empty series always yields a forecast: the loop of
    [months_ahead] steps, started at step 1 from the latest observation. *)
Lemma predict_future_values_returns (data : list (Timestamp * float))
    (months_ahead : Z) :
  data <> [] ->
  exists trend seasonality latest f,
    predict_future_values data months_ahead = Return f
    /\ predictions f
       = project trend seasonality (Z.to_nat months_ahead) 1 (fst latest) (snd latest)
    /\ last_item (sort_values fst timestamp_le data) = Return latest
    /\ dict_get (trend_analysis f) "trend" = Return trend
    /\ dict_get (trend_analysis f) "seasonality" = Return seasonality.
Proof.
  intros Hne. unfold predict_future_values.
  destruct data as [|row data]; [congruence|].
  set (sorted_data := sort_values fst timestamp_le (row :: data)).
  assert (sorted_data <> []) as Hs.
  { intros E. pose proof (length_sort_values fst timestamp_le (row :: data)) as Hl.
    fold sorted_data in Hl. rewrite E in Hl. discriminate Hl. }
  destruct (last_item_returns sorted_data Hs) as [latest Hlatest].
  rewrite Hlatest. cbn [bind].
  unfold analyze_trends.
  destruct sorted_data as [|row' data'] eqn:E; [congruence|].
  cbn [dict_get String.eqb Ascii.eqb Bool.eqb bind].
  do 4 eexists. split; [reflexivity|]. cbn [predictions trend_analysis].
  repeat (split; [reflexivity|]). reflexivity.
Qed.

(** C6 (amended).  On an empty series [predict_future_values] returns no
    projection point, the overall confidence 0 and an empty trend
    summary, with no field at all; the summary with trend, seasonality
    and volatility all zero is what [analyze_trends] returns on an empty
    series. *)
Theorem empty_series_forecast (months_ahead : Z) :
  predict_future_values [] months_ahead
  = Return {| predictions := []; confidence := 0; trend_analysis := [] |}
  /\ forecast_trend (predict_future_values [] months_ahead) "trend" = Raise KeyError
  /\ analyze_trends []
     = [("trend", 0%float); ("seasonality", 0%float); ("volatility", 0%float)].
Proof.
  split; [|split].
  - unfold predict_future_values. reflexivity.
  - unfold forecast_trend, predict_future_values. reflexivity.
  - unfold analyze_trends. reflexivity.
Qed.

(** C7 (amended).  For a non-empty series and consecutive steps [i] and
    [i + 1] within the horizon, the confidence falls strictly while
    [i + 1 <= 14]; from step 14 on (up to step 60, the longest horizon the
    assistant asks for) both are the floor 0.3. *)
Theorem confidence_falls_to_floor (data : list (Timestamp * float))
    (months_ahead i : Z) :
  data <> [] -> (1 <= i)%Z -> (i + 1 <= months_ahead)%Z ->
  exists f p q,
    predict_future_values data months_ahead = Return f
    /\ nth_error (predictions f) (Z.to_nat (i - 1)) = Some p
    /\ nth_error (predictions f) (Z.to_nat i) = Some q
    /\ ((i + 1 <= 14)%Z ->
        PrimFloat.ltb (p_confidence q) (p_confidence p) = true)
    /\ ((14 <= i)%Z -> (i + 1 <= 60)%Z ->
        p_confidence p = 0.3%float /\ p_confidence q = 0.3%float).
Proof.
  intros Hne Hi Hh.
  destruct (predict_future_values_returns data months_ahead Hne)
    as (trend & seasonality & latest & f & Hf & Hp & _).
  destruct (project_confidence trend seasonality (Z.to_nat months_ahead)
              (Z.to_nat (i - 1)) 1 (fst latest) (snd latest)) as (p & Hnp & Hcp); [lia|].
  destruct (project_confidence trend seasonality (Z.to_nat months_ahead)
              (Z.to_nat i) 1 (fst latest) (snd latest)) as (q & Hnq & Hcq); [lia|].
  replace (1 + Z.of_nat (Z.to_nat (i - 1)))%Z with i in Hcp by lia.
  replace (1 + Z.of_nat (Z.to_nat i))%Z with (i + 1)%Z in Hcq by lia.
  exists f, p, q. rewrite Hp, Hcp, Hcq.
  split; [exact Hf|]. split; [exact Hnp|]. split; [exact Hnq|]. split.
  - intros H14. now apply confidence_strict.
  - intros H14 H60. split; apply confidence_floor; lia.
Qed.

(** C8.  For a non-empty series and a horizon [h] from 1 to 60,
    [predict_future_values] returns [h] points, and the [i]-th of them
    (i = 1..h) has the confidence max(0.3, 1 - i * 0.05) as binary64
    arithmetic evaluates it: within 10^-15 of the rational value of the
    formula, never below 0.3 and never above that of the step before. *)
Theorem confidence_of_step (data : list (Timestamp * float)) (h i : Z) :
  data <> [] -> (1 <= h <= 60)%Z -> (1 <= i <= h)%Z ->
  exists f p,
    predict_future_values data h = Return f
    /\ List.length (predictions f) = Z.to_nat h
    /\ nth_error (predictions f) (Z.to_nat (i - 1)) = Some p
    /\ p_confidence p = py_max 0.3 (1 - float_of_int i * 0.05)%float
    /\ close_to (p_confidence p) (spec_confidence i) = true
    /\ PrimFloat.leb 0.3 (p_confidence p) = true
    /\ PrimFloat.leb (confidence_at (i + 1)) (p_confidence p) = true.
Proof.
  intros Hne Hh Hi.
  destruct (predict_future_values_returns data h Hne)
    as (trend & seasonality & latest & f & Hf & Hp & _).
  destruct (project_confidence trend seasonality (Z.to_nat h)
              (Z.to_nat (i - 1)) 1 (fst latest) (snd latest)) as (p & Hnp & Hcp); [lia|].
  replace (1 + Z.of_nat (Z.to_nat (i - 1)))%Z with i in Hcp by lia.
  destruct (confidence_bounds i) as (B1 & _ & B3 & B4); [lia|].
  exists f, p. rewrite Hp, Hcp, length_project.
  repeat (split; [first [assumption | reflexivity]|]). exact B3.
Qed.

End Projection.

(** ** The sorted vocabulary *)

Lemma compare_lt_trans (a b c : string) :
  String.compare a b = Lt -> String.compare b c = Lt -> String.compare a c = Lt.
Proof.
  revert b c. induction a as [|x a IH]; intros [|y b] [|z c]; simpl;
    try discriminate; try reflexivity.
  unfold Ascii.compare.
  destruct (N.compare_spec (N_of_ascii x) (N_of_ascii y)) as [E1|E1|E1];
    destruct (N.compare_spec (N_of_ascii y) (N_of_ascii z)) as [E2|E2|E2];
    try discriminate; intros H1 H2.
  - rewrite E1, E2, N.compare_refl. now apply IH with b.
  - rewrite E1. now apply N.compare_lt_iff in E2 as ->.
  - rewrite <- E2. now apply N.compare_lt_iff in E1 as ->.
  - assert (N_of_ascii x < N_of_ascii z)%N as E by (eapply N.lt_trans; eassumption).
    now apply N.compare_lt_iff in E as ->.
Qed.

Lemma leb_trans (a b c : string) :
  String.leb a b = true -> String.leb b c = true -> String.leb a c = true.
Proof.
  unfold String.leb.
  destruct (String.compare a b) eqn:E1; try discriminate; intros _;
    destruct (String.compare b c) eqn:E2; try discriminate; intros _.
  - apply String.compare_eq_iff in E1, E2. subst.
    destruct (String.compare c c) eqn:E; try reflexivity.
    pose proof (String.compare_antisym c c) as A. rewrite E in A. discriminate A.
  - apply String.compare_eq_iff in E1. subst. now rewrite E2.
  - apply String.compare_eq_iff in E2. subst. now rewrite E1.
  - now rewrite (compare_lt_trans a b c E1 E2).
Qed.

Lemma in_insert_sorted (x y : string) (l : list string) :
  In y (insert_sorted x l) -> y = x \/ In y l.
Proof.
  induction l as [|z l IH]; simpl.
  - intros [<-|[]]. now left.
  - destruct (String.leb x z); simpl; intros [<-|H]; auto.
    destruct (IH H); auto.
Qed.

Lemma insert_sorted_sorted (x : string) (l : list string) :
  StronglySorted alphabetical l -> StronglySorted alphabetical (insert_sorted x l).
Proof.
  induction 1 as [|z l Hl IH Hz]; simpl.
  - constructor; constructor.
  - destruct (String.leb x z) eqn:E.
    + constructor; [now constructor|]. constructor; [exact E|].
      eapply Forall_impl; [|exact Hz]. intros w Hw.
      now apply leb_trans with z.
    + constructor; [exact IH|]. apply Forall_forall. intros w Hw.
      destruct (in_insert_sorted x w l Hw) as [->|Hin].
      * destruct (String.leb_total x z) as [T|T]; [congruence | exact T].
      * rewrite Forall_forall in Hz. now apply Hz.
Qed.

Lemma sorted_sorted (l : list string) : StronglySorted alphabetical (sorted l).
Proof.
  induction l as [|x l IH]; simpl; [constructor | now apply insert_sorted_sorted].
Qed.




(** ** Order on floats *)

Lemma SFcompare_swap (a b : spec_float) :
  SFcompare b a = option_map CompOpp (SFcompare a b).
Proof.
  destruct a as [sa|sa| |sa ma ea], b as [sb|sb| |sb mb eb]; cbn;
    try reflexivity;
    try (destruct sa; reflexivity); try (destruct sb; reflexivity);
    destruct sa, sb; try reflexivity;
    rewrite (Z.compare_antisym ea eb);
    destruct (ea ?= eb)%Z; cbn; try reflexivity;
    change (Pos.compare_cont Eq mb ma) with (Pos.compare mb ma);
    change (Pos.compare_cont Eq ma mb) with (Pos.compare ma mb);
    rewrite (Pos.compare_antisym ma mb);
    now destruct (Pos.compare ma mb).
Qed.

Lemma ltb_not_leb (x y : float) :
  PrimFloat.ltb x y = true -> PrimFloat.leb y x = false.
Proof.
  rewrite FloatAxioms.ltb_spec, FloatAxioms.leb_spec. unfold SFltb, SFleb.
  rewrite (SFcompare_swap (Prim2SF x) (Prim2SF y)).
  now destruct (SFcompare (Prim2SF x) (Prim2SF y)) as [[]|].
Qed.

(** A value below 2000 or above 2030 is not year-like. *)
Lemma outside_is_not_year_like (x : float) :
  PrimFloat.ltb x 2000 = true \/ PrimFloat.ltb 2030 x = true ->
  is_year_like x = false.
Proof.
  unfold is_year_like. intros [H|H]; apply ltb_not_leb in H; rewrite H.
  - reflexivity.
  - apply andb_false_r.
Qed.

(** ** The names of a loaded table *)

Lemma lower_char_idempotent (c : ascii) : lower_char (lower_char c) = lower_char c.
Proof. destruct c as [[] [] [] [] [] [] [] []]; reflexivity. Qed.

Lemma lower_idempotent (s : string) : lower (lower s) = lower s.
Proof.
  induction s as [|c s IH]; cbn [lower]; [reflexivity|].
  now rewrite lower_char_idempotent, IH.
Qed.

Lemma in_sorted (l : list string) (y : string) : In y (sorted l) -> In y l.
Proof.
  induction l as [|x l IH]; cbn [sorted fold_right]; [intros []|].
  intros H. apply in_insert_sorted in H as [->|H]; [now left | right; now apply IH].
Qed.

Lemma in_unique (l : list string) (y : string) : In y (unique l) -> In y l.
Proof.
  induction l as [|x l IH]; cbn [unique]; [intros []|].
  intros [<-|H]; [now left|]. right. apply filter_In in H as [H _]. now apply IH.
Qed.

(** A loaded row comes from a row of the file. *)
Lemma in_with_dates {A B : Type} (row : A -> Timestamp -> B)
    (date : nat -> Timestamp) (l : list A) :
  forall n y, In y (with_dates row date n l) ->
              exists x d, In x l /\ y = row x d.
Proof.
  induction l as [|x l IH]; cbn [with_dates]; intros n y Hy.
  - destruct Hy.
  - destruct Hy as [<-|Hy].
    + exists x, (date n). split; [now left | reflexivity].
    + destruct (IH _ _ Hy) as (x' & d & Hx' & ->).
      exists x', d. split; [now right | reflexivity].
Qed.

(** The states of an assistant loaded from the files are in lower case:
    a text that holds such a name in any letter case holds it once
    lower-cased. *)
Lemma loaded_states_are_lower {P : Pandas} (rainfall_csv : list RainfallCsv)
    (groundwater_csv : list GroundwaterCsv) (m : option Model) (s : string) :
  In s (get_available_states (init rainfall_csv groundwater_csv m)) -> lower s = s.
Proof.
  unfold get_available_states, init, load_data.
  destruct (pd_to_datetime (map csv_rf_year_month rainfall_csv)) as [rd|];
    [|cbn; intros []].
  destruct (pd_to_datetime (map csv_gw_year_month groundwater_csv)) as [gd|];
    [|cbn; intros []].
  cbn [rainfall].
  destruct (with_dates load_rainfall_row rd 0 rainfall_csv) as [|row r] eqn:Er;
    [intros []|].
  rewrite <- Er.
  intros H. apply in_sorted in H. apply filter_In in H as [H _].
  apply in_unique in H. apply in_map_iff in H as (row' & <- & Hrow).
  destruct (in_with_dates _ _ _ _ _ Hrow) as (raw & d & _ & ->).
  cbn [load_rainfall_row rf_state_name]. apply lower_idempotent.
Qed.

(** ** The entities *)


Lemma first_number_skip (before rest : list string) :
  Forall (fun tok => is_year_like (py_float tok) = true) before ->
  first_number (before ++ rest)%list = first_number rest.
Proof.
  induction 1 as [|tok before Htok _ IH]; simpl; [reflexivity|].
  now rewrite Htok.
Qed.

Lemma first_number_origin (tokens : list string) (x : float) :
  first_number tokens = Some x ->
  exists before tok after,
    tokens = (before ++ tok :: after)%list
    /\ x = py_float tok
    /\ is_year_like x = false
    /\ Forall (fun t => is_year_like (py_float t) = true) before.
Proof.
  induction tokens as [|t tokens IH]; simpl; [discriminate|].
  destruct (is_year_like (py_float t)) eqn:E; simpl; intros H.
  - destruct (IH H) as (before & tok & after & -> & Hx & Hy & Hb).
    exists (t :: before), tok, after. repeat split; auto.
  - injection H as <-. exists [], t, tokens. repeat split; auto.
Qed.

Lemma digit_value_bounds (c : ascii) :
  is_digit c = true -> (0 <= digit_value c <= 9)%Z.
Proof.
  unfold is_digit, in_range, digit_value. cbv zeta.
  intros H. apply andb_prop in H as [H1 H2].
  apply Nat.leb_le in H1, H2. lia.
Qed.

Lemma year_match_shape (prev : option ascii) (s y : string) :
  year_match prev s = Some y ->
  exists d1 d2,
    y = String "2" (String "0" (String d1 (String d2 EmptyString)))
    /\ is_digit d1 = true /\ is_digit d2 = true.
Proof.
  unfold year_match.
  destruct s as [|c1 [|c2 [|d1 [|d2 rest]]]]; try discriminate.
  destruct (word_boundary prev _); [|discriminate]. cbn [andb].
  destruct (Ascii.eqb_spec c1 "2") as [->|]; [|discriminate].
  destruct (Ascii.eqb_spec c2 "0") as [->|]; [|discriminate].
  destruct (is_digit d1) eqn:D1; [|discriminate].
  destruct (is_digit d2) eqn:D2; [|discriminate]. cbn [andb].
  intros H. exists d1, d2. repeat split; try assumption.
  destruct (match rest with String _ _ => _ | _ => _ end);
    [now injection H as <-|].
  destruct (word_boundary (Some d2) rest); [now injection H as <-|discriminate].
Qed.

Lemma year_search_shape (s : string) :
  forall prev y,
    year_search prev s = Some y ->
    exists d1 d2,
      y = String "2" (String "0" (String d1 (String d2 EmptyString)))
      /\ is_digit d1 = true /\ is_digit d2 = true.
Proof.
  induction s as [|c s IH]; intros prev y; cbn [year_search].
  - destruct (year_match prev EmptyString) eqn:E; [|discriminate].
    intros H. injection H as <-. now apply year_match_shape in E.
  - destruct (year_match prev (String c s)) eqn:E.
    + intros H. injection H as <-. now apply year_match_shape in E.
    + apply IH.
Qed.

(** C4 (amended).  For an ASCII text, the [number] field is the value of
    the first numeric token of the text that is not within [2000, 2030],
    both ends included: a token N with N < 2000 or N > 2030 is placed
    there when every token before it is within that range, and no value
    of that range is ever placed there.  The [year] field only ever holds
    four digits 20dd, a year from 2000 to 2099. *)
Theorem number_and_year_fields (self : GroundwaterChatbot) (text : string) :
  isascii text = true ->
  (forall before tok after,
      number_findall text = (before ++ tok :: after)%list ->
      Forall (fun t => is_year_like (py_float t) = true) before ->
      PrimFloat.ltb (py_float tok) 2000 = true
      \/ PrimFloat.ltb 2030 (py_float tok) = true ->
      e_number (extract_entities self text) = Some (py_float tok))
  /\ (forall x,
         e_number (extract_entities self text) = Some x ->
         is_year_like x = false
         /\ exists tok, In tok (number_findall text) /\ x = py_float tok)
  /\ (forall y,
         e_year (extract_entities self text) = Some y ->
         String.length y = 4%nat /\ (2000 <= py_int y <= 2099)%Z).
Proof.
  intros _. rewrite e_number_extract, e_year_extract. split; [|split].
  - intros before tok after -> Hbefore Htok.
    apply outside_is_not_year_like in Htok.
    rewrite (first_number_skip _ _ Hbefore). cbn [first_number].
    now rewrite Htok.
  - intros x Hx.
    destruct (first_number_origin _ _ Hx) as (before & tok & after & E & -> & Hy & _).
    split; [exact Hy|]. exists tok. split; [|reflexivity].
    rewrite E. apply in_or_app. right. now left.
  - intros y Hy.
    destruct (year_search_shape _ _ _ Hy) as (d1 & d2 & -> & D1 & D2).
    split; [reflexivity|].
    apply digit_value_bounds in D1, D2.
    unfold py_int. cbn [digits_value].
    change (digit_value "2") with 2%Z. change (digit_value "0") with 0%Z. lia.
Qed.

(** ** Characters *)

Lemma digit_is_word (c : ascii) : is_digit c = true -> is_word c = true.
Proof.
  intros H. unfold is_word. rewrite H. now rewrite orb_true_r.
Qed.

Lemma nonword_not_digit (c : ascii) : is_word c = false -> is_digit c = false.
Proof.
  intros H. destruct (is_digit c) eqn:E; [|reflexivity].
  now rewrite (digit_is_word c E) in H.
Qed.

Lemma word_not_eqb (c x : ascii) :
  is_word c = negb (is_word x) -> Ascii.eqb c x = false.
Proof.
  intros H. destruct (Ascii.eqb_spec c x) as [->|]; [|reflexivity].
  now destruct (is_word x).
Qed.

Lemma is_digit_cases (c : ascii) :
  is_digit c = true ->
  In c ["0"; "1"; "2"; "3"; "4"; "5"; "6"; "7"; "8"; "9"]%char.
Proof.
  destruct c as [[] [] [] [] [] [] [] []]; intros H; vm_compute in H;
    try discriminate H; cbn [In]; tauto.
Qed.

Lemma last_char_cons (a : ascii) (s : string) (c : ascii) :
  last_char (String a s) = Some c ->
  (s = EmptyString /\ a = c) \/ (s <> EmptyString /\ last_char s = Some c).
Proof.
  cbn [last_char]. destruct s as [|b s].
  - cbn [last_char]. intros H. injection H as ->. now left.
  - destruct (last_char (String b s)) eqn:E.
    + intros H. right. split; [discriminate | exact H].
    + exfalso. cbn [last_char] in E. destruct (last_char s); discriminate.
Qed.

Lemma last_char_some (a : ascii) (s : string) : exists c, last_char (String a s) = Some c.
Proof.
  cbn [last_char]. destruct (last_char s) as [c|]; eauto.
Qed.

(** ** The year pattern *)

(** Once the year is matched, the optional range adds nothing: the match
    stands exactly when no word character follows the four digits. *)
Lemma year_match_simpl (prev : option ascii) (c1 c2 d1 d2 : ascii) (rest : string) :
  year_match prev (String c1 (String c2 (String d1 (String d2 rest))))
  = if xorb (is_word_at prev) (is_word c1) && Ascii.eqb c1 "2" && Ascii.eqb c2 "0"
       && is_digit d1 && is_digit d2 && negb (is_word_at (first_char rest))
    then Some (String c1 (String c2 (String d1 (String d2 EmptyString))))
    else None.
Proof.
  unfold year_match, word_boundary. cbn [first_char is_word_at].
  destruct (xorb (is_word_at prev) (is_word c1)); [|reflexivity].
  destruct (Ascii.eqb c1 "2"); [|reflexivity].
  destruct (Ascii.eqb c2 "0"); [|reflexivity].
  destruct (is_digit d1); [|reflexivity].
  destruct (is_digit d2) eqn:D2; [|reflexivity]. cbn [andb].
  rewrite (digit_is_word d2 D2).
  destruct rest as [|e r]; [reflexivity|]. cbn [first_char is_word_at].
  destruct (is_word e) eqn:We; cbn [xorb negb].
  - assert (Ascii.eqb e "-" = false) as N by (apply word_not_eqb; now rewrite We).
    destruct r as [|d3 [|d4 r']]; try reflexivity. now rewrite N.
  - now destruct (match r with String _ _ => _ | _ => _ end).
Qed.

Lemma year_match_app (prev : option ascii) (s rest : string) (c : ascii) :
  last_char s = Some c -> is_word c = false ->
  year_match prev (s ++ rest) = year_match prev s.
Proof.
  intros Hlast Hc.
  assert (Ascii.eqb c "2" = false) as N2 by (apply word_not_eqb; now rewrite Hc).
  assert (Ascii.eqb c "0" = false) as N0 by (apply word_not_eqb; now rewrite Hc).
  pose proof (nonword_not_digit c Hc) as Nd.
  destruct s as [|a1 [|a2 [|a3 [|a4 [|a5 s]]]]]; cbn [append].
  - discriminate Hlast.
  - cbn in Hlast. injection Hlast as ->.
    destruct rest as [|b2 [|b3 [|b4 r]]]; try reflexivity.
    rewrite year_match_simpl, N2. now rewrite andb_false_r.
  - cbn in Hlast. injection Hlast as ->.
    destruct rest as [|b3 [|b4 r]]; try reflexivity.
    rewrite year_match_simpl, N0. now rewrite andb_false_r.
  - cbn in Hlast. injection Hlast as ->.
    destruct rest as [|b4 r]; try reflexivity.
    rewrite year_match_simpl, Nd. now rewrite !andb_false_r.
  - cbn in Hlast. injection Hlast as ->.
    rewrite !year_match_simpl, Nd. now rewrite !andb_false_r.
  - rewrite !year_match_simpl. reflexivity.
Qed.

Lemma year_search_none (prev : option ascii) (a : ascii) (s : string) :
  year_search prev (String a s) = None ->
  year_match prev (String a s) = None /\ year_search (Some a) s = None.
Proof.
  cbn [year_search]. destruct (year_match prev (String a s)); [discriminate|].
  intros H. now split.
Qed.

(** A search that finds nothing in [pre] goes on in what follows it. *)
Lemma year_search_app (pre : string) :
  forall (prev : option ascii) (rest : string) (c : ascii),
    last_char pre = Some c -> is_word c = false ->
    year_search prev pre = None ->
    year_search prev (pre ++ rest) = year_search (Some c) rest.
Proof.
  induction pre as [|a pre IH]; intros prev rest c Hlast Hc Hnone;
    [discriminate Hlast|].
  apply year_search_none in Hnone as [Hm Hs].
  cbn [append year_search].
  change (String a (pre ++ rest)) with (String a pre ++ rest).
  rewrite (year_match_app prev (String a pre) rest c Hlast Hc), Hm.
  destruct (last_char_cons a pre c Hlast) as [[-> ->]|[Hne Hl]].
  - reflexivity.
  - now apply IH.
Qed.

(** ** The number pattern *)

Lemma length_app (a b : string) :
  String.length (a ++ b) = (String.length a + String.length b)%nat.
Proof.
  induction a as [|c a IH]; simpl; [reflexivity | now rewrite IH].
Qed.

Lemma take_digits_length (s : string) :
  String.length s
  = (String.length (fst (take_digits s)) + String.length (snd (take_digits s)))%nat.
Proof.
  induction s as [|c s IH]; cbn [take_digits]; [reflexivity|].
  destruct (is_digit c); [|reflexivity].
  destruct (take_digits s) as [ds r]. cbn [fst snd String.length] in *. lia.
Qed.

Lemma take_digits_app (s t : string) :
  snd (take_digits s) <> EmptyString ->
  take_digits (s ++ t) = (fst (take_digits s), snd (take_digits s) ++ t).
Proof.
  induction s as [|c s IH]; cbn [take_digits append]; [intros H; now elim H|].
  destruct (is_digit c); [|reflexivity].
  destruct (take_digits s) as [ds r]. cbn [fst snd] in *. intros H.
  now rewrite (IH H).
Qed.

Lemma take_digits_last (s : string) (c : ascii) :
  last_char s = Some c -> is_digit c = false ->
  last_char (snd (take_digits s)) = Some c.
Proof.
  induction s as [|a s IH]; intros Hlast Hc; [discriminate Hlast|].
  cbn [take_digits]. destruct (is_digit a) eqn:Da; [|exact Hlast].
  destruct (last_char_cons a s c Hlast) as [[-> ->]|[Hne Hl]]; [congruence|].
  destruct (take_digits s) as [ds r]. cbn [snd] in *. now apply IH.
Qed.

Lemma take_digits_run (ds r : string) :
  all_digits ds = true -> is_digit_at (first_char r) = false ->
  take_digits (ds ++ r) = (ds, r).
Proof.
  unfold all_digits. induction ds as [|d ds IH]; cbn [append]; intros Hd Hr.
  - destruct r as [|c r]; [reflexivity|]. cbn [take_digits].
    cbn in Hr. now rewrite Hr.
  - cbn [list_ascii_of_string forallb] in Hd. apply andb_prop in Hd as [D Hd].
    cbn [take_digits]. now rewrite D, (IH Hd Hr).
Qed.

Lemma number_match_length (s g r : string) :
  number_match s = Some (g, r) -> (String.length r < String.length s)%nat.
Proof.
  unfold number_match. pose proof (take_digits_length s) as Hl.
  destruct (take_digits s) as [ip r1]. cbn [fst snd] in Hl.
  destruct ip as [|d ip]; [discriminate|].
  destruct r1 as [|c r2].
  - intros H. injection H as _ <-. cbn [String.length] in *. lia.
  - destruct (Ascii.eqb c ".").
    + pose proof (take_digits_length r2) as Hl2.
      destruct (take_digits r2) as [fp r3]. cbn [fst snd] in Hl2.
      intros H. injection H as _ <-. cbn [String.length] in *. lia.
    + intros H. injection H as _ <-. cbn [String.length] in *. lia.
Qed.

Lemma length_drop (n : nat) (s : string) :
  (String.length (drop n s) <= String.length s)%nat.
Proof.
  revert s. induction n as [|n IH]; intros [|c s]; cbn [drop String.length]; try lia.
  specialize (IH s). lia.
Qed.

Lemma skip_unit_length (r : string) :
  (String.length (skip_unit r) <= String.length r)%nat.
Proof.
  unfold skip_unit.
  repeat match goal with
         | |- context [if ?b then _ else _] => destruct b
         end; try apply length_drop; lia.
Qed.

(** The fuel does not matter once it covers the length of the text. *)
Lemma findall_from_fuel (fuel : nat) :
  forall (fuel' : nat) (s : string),
    (String.length s <= fuel)%nat -> (String.length s <= fuel')%nat ->
    findall_from fuel s = findall_from fuel' s.
Proof.
  induction fuel as [|fuel IH]; intros fuel' s H H'.
  - destruct s; [|cbn in H; lia]. now destruct fuel'.
  - destruct fuel' as [|fuel'].
    + destruct s; [reflexivity | cbn in H'; lia].
    + cbn [findall_from]. destruct (number_match s) as [[g r]|] eqn:E.
      * apply number_match_length in E. pose proof (skip_unit_length r).
        f_equal. apply IH; lia.
      * destruct s as [|c s]; [reflexivity|]. cbn [String.length] in *.
        apply IH; lia.
Qed.

(** [re.findall] as an equation: the match at the start and the matches
    after it, or the matches from the next position on. *)
Lemma number_findall_eq (s : string) :
  number_findall s
  = match number_match s with
    | Some (g, r) => g :: number_findall (skip_unit r)
    | None =>
        match s with
        | EmptyString => []
        | String _ s' => number_findall s'
        end
    end.
Proof.
  unfold number_findall. destruct s as [|c s]; [reflexivity|].
  cbn [String.length findall_from].
  destruct (number_match (String c s)) as [[g r]|] eqn:E.
  - apply number_match_length in E. pose proof (skip_unit_length r).
    cbn [String.length] in E. f_equal. apply findall_from_fuel; lia.
  - reflexivity.
Qed.

Lemma number_match_app (pre rest : string) (c : ascii) :
  last_char pre = Some c -> is_delimiter c = true ->
  match number_match pre with
  | Some (g, r) =>
      number_match (pre ++ rest) = Some (g, r ++ rest) /\ last_char r = Some c
  | None => number_match (pre ++ rest) = None
  end.
Proof.
  intros Hlast Hc. unfold is_delimiter in Hc. apply andb_prop in Hc as [Hw Hdot].
  apply negb_true_iff in Hw, Hdot. pose proof (nonword_not_digit c Hw) as Hd.
  pose proof (take_digits_last pre c Hlast Hd) as Hr.
  assert (snd (take_digits pre) <> EmptyString) as Hne
      by (intros E; rewrite E in Hr; discriminate Hr).
  unfold number_match. rewrite (take_digits_app pre rest Hne).
  destruct (take_digits pre) as [ip r1]. cbn [fst snd] in *.
  destruct ip as [|d ip]; [reflexivity|].
  destruct r1 as [|a r2]; [now elim Hne|]. cbn [append].
  destruct (Ascii.eqb_spec a ".") as [->|Na].
  - destruct (last_char_cons "." r2 c Hr) as [[_ <-]|[Hne2 Hl2]];
      [discriminate Hdot|].
    pose proof (take_digits_last r2 c Hl2 Hd) as Hr3.
    assert (snd (take_digits r2) <> EmptyString) as Hne3
        by (intros E; rewrite E in Hr3; discriminate Hr3).
    rewrite (take_digits_app r2 rest Hne3).
    destruct (take_digits r2) as [fp r3]. cbn [fst snd] in *. now split.
  - now split.
Qed.

Lemma prefix_empty (s : string) : String.prefix EmptyString s = true.
Proof. now destruct s. Qed.

(** A unit made of letters is looked for, and skipped, within a text that
    ends with a delimiter. *)
Lemma prefix_app_word (u : string) :
  forall (r rest : string) (c : ascii),
    last_char r = Some c -> is_word c = false ->
    forallb is_word (list_ascii_of_string u) = true ->
    String.prefix u (r ++ rest) = String.prefix u r
    /\ (String.prefix u r = true ->
        last_char (drop (String.length u) r) = Some c
        /\ drop (String.length u) (r ++ rest) = drop (String.length u) r ++ rest).
Proof.
  induction u as [|x u IH]; intros r rest c Hlast Hc Hu.
  - rewrite !prefix_empty. split; [reflexivity|]. intros _. cbn [String.length drop].
    split; [exact Hlast|]. now destruct r.
  - cbn [list_ascii_of_string forallb] in Hu. apply andb_prop in Hu as [Hx Hu].
    destruct r as [|a r]; [discriminate Hlast|].
    cbn [append String.prefix String.length drop].
    destruct (ascii_dec x a) as [<-|Nx]; [|split; [reflexivity | discriminate]].
    destruct (last_char_cons x r c Hlast) as [[_ <-]|[_ Hl]]; [congruence|].
    exact (IH r rest c Hl Hc Hu).
Qed.

Lemma skip_unit_app (r rest : string) (c : ascii) :
  last_char r = Some c -> is_word c = false ->
  skip_unit (r ++ rest) = skip_unit r ++ rest /\ last_char (skip_unit r) = Some c.
Proof.
  intros Hlast Hc. unfold skip_unit.
  destruct (prefix_app_word "mm" r rest c Hlast Hc eq_refl) as [-> Hmm].
  destruct (prefix_app_word "m" r rest c Hlast Hc eq_refl) as [-> Hm].
  destruct (prefix_app_word "cm" r rest c Hlast Hc eq_refl) as [-> Hcm].
  destruct (prefix_app_word "km" r rest c Hlast Hc eq_refl) as [-> Hkm].
  cbn [String.length] in *.
  destruct (String.prefix "mm" r); [destruct (Hmm eq_refl); now split|].
  destruct (String.prefix "m" r); [destruct (Hm eq_refl); now split|].
  destruct (String.prefix "cm" r); [destruct (Hcm eq_refl); now split|].
  destruct (String.prefix "km" r); [destruct (Hkm eq_refl); now split|].
  now split.
Qed.

(** The numbers of a text that ends with a delimiter, then those of what
    follows it. *)
Lemma number_findall_app (n : nat) :
  forall (pre rest : string) (c : ascii),
    (String.length pre <= n)%nat ->
    last_char pre = Some c -> is_delimiter c = true ->
    number_findall (pre ++ rest)
    = (number_findall pre ++ number_findall rest)%list.
Proof.
  induction n as [|n IH]; intros pre rest c Hn Hlast Hc.
  - destruct pre; [discriminate Hlast | cbn in Hn; lia].
  - assert (is_word c = false) as Hw.
    { unfold is_delimiter in Hc. apply andb_prop in Hc as [Hw _].
      now apply negb_true_iff in Hw. }
    rewrite (number_findall_eq (pre ++ rest)), (number_findall_eq pre).
    pose proof (number_match_app pre rest c Hlast Hc) as Hm.
    destruct (number_match pre) as [[g r]|] eqn:E.
    + destruct Hm as [-> Hr].
      destruct (skip_unit_app r rest c Hr Hw) as [-> Hs].
      apply number_match_length in E. pose proof (skip_unit_length r).
      rewrite (IH (skip_unit r) rest c); [reflexivity | lia | exact Hs | exact Hc].
    + rewrite Hm. destruct pre as [|a pre]; [discriminate Hlast|].
      cbn [append].
      destruct (last_char_cons a pre c Hlast) as [[-> _]|[_ Hl]]; [reflexivity|].
      cbn [String.length] in Hn. apply (IH pre rest c); [lia | exact Hl | exact Hc].
Qed.

(** ** Year ranges *)

Lemma last_char_none (s : string) : last_char s = None -> s = EmptyString.
Proof.
  destruct s as [|a s]; [reflexivity|].
  destruct (last_char_some a s) as [c ->]. discriminate.
Qed.

Lemma two_digit_number (d3 d4 : ascii) :
  is_digit d3 = true -> is_digit d4 = true ->
  is_year_like (py_float (String d3 (String d4 EmptyString))) = false
  /\ py_float (String d3 (String d4 ".")) = py_float (String d3 (String d4 EmptyString)).
Proof.
  intros H3 H4. apply is_digit_cases in H3, H4. cbn [In] in H3, H4.
  repeat (destruct H3 as [<-|H3]; [|]); try contradiction;
    repeat (destruct H4 as [<-|H4]; [|]); try contradiction;
    vm_compute; split; reflexivity.
Qed.

Lemma skip_unit_delimiter (c : ascii) (s : string) :
  is_word c = false -> skip_unit (String c s) = String c s.
Proof.
  intros Hc. unfold skip_unit. cbn [String.prefix].
  destruct (ascii_dec "m" c) as [<-|_]; [discriminate Hc|].
  destruct (ascii_dec "c" c) as [<-|_]; [discriminate Hc|].
  destruct (ascii_dec "k" c) as [<-|_]; [discriminate Hc|].
  reflexivity.
Qed.

Lemma number_findall_skip (c : ascii) (s : string) :
  is_digit c = false -> number_findall (String c s) = number_findall s.
Proof.
  intros Hc. rewrite number_findall_eq. unfold number_match.
  cbn [take_digits]. now rewrite Hc.
Qed.

(** A run of digits followed by something that ends a number is one
    token, with the decimal point when one follows. *)
Lemma number_match_run (ds r : string) :
  ds <> EmptyString -> all_digits ds = true -> number_ends r = true ->
  exists g r',
    number_match (ds ++ r) = Some (g, r')
    /\ (g = ds \/ g = ds ++ ".").
Proof.
  intros Hne Hd Hr. unfold number_match.
  assert (is_digit_at (first_char r) = false) as Hf.
  { destruct r as [|c r]; [reflexivity|]. cbn in Hr |- *.
    apply andb_prop in Hr as [Hr _]. now apply negb_true_iff in Hr. }
  rewrite (take_digits_run ds r Hd Hf).
  destruct ds as [|d ds]; [now elim Hne|].
  destruct r as [|c r]; [eauto|].
  destruct (Ascii.eqb c ".") eqn:Ec; [|eauto].
  cbn [number_ends] in Hr. rewrite Ec in Hr. cbn [andb] in Hr.
  apply andb_prop in Hr as [_ Hr]. apply negb_true_iff in Hr.
  pose proof (take_digits_run EmptyString r eq_refl Hr) as Ht.
  cbn [append] in Ht. rewrite Ht.
  do 2 eexists. split; [reflexivity|]. right. reflexivity.
Qed.

Lemma year_match_token (prev : option ascii) (d1 d2 : ascii) (rest : string) :
  is_word_at prev = false -> is_digit d1 = true -> is_digit d2 = true ->
  year_match prev (String "2" (String "0" (String d1 (String d2 (String "-" rest)))))
  = Some (String "2" (String "0" (String d1 (String d2 EmptyString)))).
Proof.
  intros Hp D1 D2. rewrite year_match_simpl, Hp, D1, D2. reflexivity.
Qed.

(** C10 (amended).  In an ASCII text, take a year range 20dd-dd whose
    year is within [2000, 2030], standing at the start of the text or
    after a delimiter
    (no word character, no decimal point), with no match of the year
    pattern before it, no earlier numeric token outside [2000, 2030], and
    no digit (nor a decimal point and a digit) right after its suffix.
    Then [year] is the four-digit year and [number] is the two-digit suffix
    as a float: the suffix is read as a number although it belongs to the
    year expression. *)
Theorem year_range_suffix_is_number (self : GroundwaterChatbot)
    (pre post : string) (d1 d2 d3 d4 : ascii) :
  let year := String "2" (String "0" (String d1 (String d2 EmptyString))) in
  let suffix := String d3 (String d4 EmptyString) in
  isascii (pre ++ year ++ "-" ++ suffix ++ post) = true ->
  is_digit d1 = true -> is_digit d2 = true ->
  is_digit d3 = true -> is_digit d4 = true ->
  is_year_like (py_float year) = true ->
  delimited pre = true ->
  year_search None pre = None ->
  Forall (fun tok => is_year_like (py_float tok) = true) (number_findall pre) ->
  number_ends post = true ->
  let entities := extract_entities self (pre ++ year ++ "-" ++ suffix ++ post) in
  e_year entities = Some year /\ e_number entities = Some (py_float suffix).
Proof.
  intros year suffix _ D1 D2 D3 D4 HY Hdel Hsearch Htoks Hends entities.
  unfold entities. rewrite e_year_extract, e_number_extract.
  destruct (two_digit_number d3 d4 D3 D4) as [Hsmall Hpoint].
  fold suffix in Hsmall, Hpoint.
  set (rest := suffix ++ post).
  change (year ++ "-" ++ rest)
    with (String "2" (String "0" (String d1 (String d2 (String "-" rest))))).
  set (range := String "2" (String "0" (String d1 (String d2 (String "-" rest))))).
  (* the tokens of the range *)
  assert (exists g more,
             number_findall range = year :: g :: more
             /\ py_float g = py_float suffix) as (g & more & Hrange & Hg).
  { destruct (number_match_run suffix post) as (g & r' & Hm & Hg);
      [discriminate | unfold suffix, all_digits; cbn; now rewrite D3, D4 | exact Hends |].
    assert (number_match range = Some (year, String "-" rest)) as Hyear.
    { unfold range, number_match.
      change (String "2" (String "0" (String d1 (String d2 (String "-" rest)))))
        with (year ++ String "-" rest).
      rewrite (take_digits_run year (String "-" rest));
        [reflexivity | unfold year, all_digits; cbn; now rewrite D1, D2 | reflexivity]. }
    exists g, (number_findall (skip_unit r')).
    rewrite number_findall_eq, Hyear.
    rewrite (skip_unit_delimiter "-" rest eq_refl).
    rewrite (number_findall_skip "-" rest eq_refl).
    rewrite number_findall_eq. unfold rest. rewrite Hm. split; [reflexivity|].
    destruct Hg as [->| ->]; [reflexivity | exact Hpoint]. }
  assert (first_number (number_findall range) = Some (py_float suffix)) as Hnum.
  { rewrite Hrange. cbn [first_number]. rewrite HY. cbn [negb].
    rewrite Hg, Hsmall. reflexivity. }
  unfold delimited in Hdel. destruct (last_char pre) as [c|] eqn:Hlast.
  - assert (is_word c = false) as Hw.
    { unfold is_delimiter in Hdel. apply andb_prop in Hdel as [Hw _].
      now apply negb_true_iff in Hw. }
    split.
    + rewrite (year_search_app pre None range c Hlast Hw Hsearch).
      unfold range. cbn [year_search].
      rewrite year_match_token; [reflexivity | exact Hw | exact D1 | exact D2].
    + rewrite (number_findall_app (String.length pre) pre range c (le_n _) Hlast Hdel).
      now rewrite (first_number_skip _ _ Htoks).
  - apply last_char_none in Hlast. subst pre. cbn [append]. split.
    + unfold range. cbn [year_search].
      rewrite year_match_token; [reflexivity | reflexivity | exact D1 | exact D2].
    + exact Hnum.
Qed.

(** ** Closed examples *)

(** The prediction handler is reached, and answers that the model is
    unavailable, when the state named has no "hi" in it. *)
Example goa_prediction_without_model :
  fst (generate_response sample_bot_without_model sample_draws
         "Predict groundwater level for Goa with 100mm rainfall")
  = Return model_unavailable.
Proof. vm_compute. reflexivity. Qed.





(** C4, counterexample: 2030 is greater than 2029, yet it is not placed
    in [number] and it is returned as [year]; 2050 is placed in [number]
    and returned as [year] too. *)
Lemma year_2030_is_no_number :
  number_findall "rainfall 2030" = ["2030"]
  /\ PrimFloat.ltb 2029 (py_float "2030") = true
  /\ e_number (extract_entities sample_bot "rainfall 2030") = None
  /\ e_year (extract_entities sample_bot "rainfall 2030") = Some "2030"
  /\ PrimFloat.ltb 2029 (py_float "2050") = true
  /\ e_number (extract_entities sample_bot "rainfall 2050") = Some (py_float "2050")
  /\ e_year (extract_entities sample_bot "rainfall 2050") = Some "2050".
Proof.
  repeat (split; [vm_compute; reflexivity|]). vm_compute. reflexivity.
Qed.

(** C4, witness: a text with the tokens 2024, 120.5 and 2031. *)
Lemma number_and_year_fields_witness :
  e_number (extract_entities sample_bot "In 2024 Kerala had 120.5mm, not 2031")
  = Some (py_float "120.5")
  /\ String.length "2024" = 4%nat /\ (2000 <= py_int "2024" <= 2099)%Z.
Proof.
  pose proof (number_and_year_fields sample_bot
                "In 2024 Kerala had 120.5mm, not 2031"
                ltac:(vm_compute; reflexivity)) as (Hnumber & _ & Hyear).
  split.
  - apply (Hnumber ["2024"] "120.5" ["2031"]).
    + vm_compute. reflexivity.
    + constructor; [vm_compute; reflexivity | constructor].
    + left. vm_compute. reflexivity.
  - apply (Hyear "2024"). vm_compute. reflexivity.
Defined.

(** C5, counterexample: no groundwater row names the district "xyz" and
    "xyz" is no state, yet the answer is the usage prompt, which neither
    says that no data was found nor mentions "xyz". *)
Lemma groundwater_xyz_gets_usage :
  filter (fun r => String.eqb (gw_district_name r) "xyz") (groundwater sample_bot) = []
  /\ existsb (String.eqb "xyz") (get_available_states sample_bot) = false
  /\ fst (generate_response sample_bot sample_draws "Groundwater levels in xyz")
     = Return groundwater_usage
  /\ str_in "No groundwater data found" groundwater_usage = false
  /\ str_in "xyz" groundwater_usage = false.
Proof.
  repeat (split; [vm_compute; reflexivity|]). vm_compute. reflexivity.
Qed.

(** C5, witness: the sample tables, none of whose states occurs in the
    text. *)
Lemma groundwater_query_without_state_witness :
  generate_response sample_bot_without_model sample_draws "Groundwater levels in xyz"
  = (Return groundwater_usage, sample_draws).
Proof.
  apply (groundwater_query_without_state sample_bot_without_model sample_draws).
  intros s Hs.
  replace (get_available_states sample_bot_without_model)
    with ["goa"; "kerala"; "maharashtra"] in Hs by (vm_compute; reflexivity).
  destruct Hs as [<-|[<-|[<-|[]]]]; vm_compute; reflexivity.
Defined.

(** C6, counterexample: the forecast of an empty series has no [trend],
    [seasonality] or [volatility] field: reading one raises [KeyError]
    where the claim has the value 0. *)
Lemma empty_forecast_has_no_trend :
  predict_future_values [] 12
  = Return {| predictions := []; confidence := 0; trend_analysis := [] |}
  /\ forecast_trend (predict_future_values [] 12) "trend" = Raise KeyError
  /\ forecast_trend (predict_future_values [] 12) "seasonality" = Raise KeyError
  /\ forecast_trend (predict_future_values [] 12) "volatility" = Raise KeyError
  /\ Raise KeyError <> Return 0%float.
Proof.
  repeat (split; [reflexivity|]). discriminate.
Qed.

(** C7, counterexample: with a horizon of 15 months the confidences of
    steps 14 and 15 are both 0.3; the second is not below the first. *)
Lemma confidence_stalls_at_floor :
  nth 13 (confidences (predict_future_values sample_series 15)) nan = 0.3%float
  /\ nth 14 (confidences (predict_future_values sample_series 15)) nan = 0.3%float
  /\ PrimFloat.ltb
       (nth 14 (confidences (predict_future_values sample_series 15)) nan)
       (nth 13 (confidences (predict_future_values sample_series 15)) nan)
     = false.
Proof.
  repeat (split; [vm_compute; reflexivity|]). vm_compute. reflexivity.
Qed.

(** C7, witness: one observation, 24 months ahead, steps 3 and 4. *)
Lemma confidence_falls_to_floor_witness :
  exists f p q,
    predict_future_values sample_series 24 = Return f
    /\ nth_error (predictions f) (Z.to_nat (3 - 1)) = Some p
    /\ nth_error (predictions f) (Z.to_nat 3) = Some q
    /\ ((3 + 1 <= 14)%Z -> PrimFloat.ltb (p_confidence q) (p_confidence p) = true)
    /\ ((14 <= 3)%Z -> (3 + 1 <= 60)%Z ->
        p_confidence p = 0.3%float /\ p_confidence q = 0.3%float).
Proof.
  apply (confidence_falls_to_floor sample_series 24 3).
  - discriminate.
  - lia.
  - lia.
Defined.

(** C8, witness: one observation, 12 months ahead, step 7. *)
Lemma confidence_of_step_witness :
  exists f p,
    predict_future_values sample_series 12 = Return f
    /\ List.length (predictions f) = Z.to_nat 12
    /\ nth_error (predictions f) (Z.to_nat (7 - 1)) = Some p
    /\ p_confidence p = py_max 0.3 (1 - float_of_int 7 * 0.05)%float
    /\ close_to (p_confidence p) (spec_confidence 7) = true
    /\ PrimFloat.leb 0.3 (p_confidence p) = true
    /\ PrimFloat.leb (confidence_at (7 + 1)) (p_confidence p) = true.
Proof.
  apply (confidence_of_step sample_series 12 7).
  - discriminate.
  - lia.
  - lia.
Defined.

(** C9, witness: a groundwater query that names Delhi. *)
Lemma hi_substring_is_greeted_witness :
  str_in "hi" (lower "Show me groundwater levels in Delhi") = true
  /\ exists g,
       In g greetings
       /\ fst (generate_response sample_bot sample_draws
                 "Show me groundwater levels in Delhi") = Return g.
Proof.
  split; [vm_compute; reflexivity|].
  apply (hi_substring_is_greeted sample_bot sample_draws
           "Show me groundwater levels in Delhi").
  vm_compute. reflexivity.
Defined.

(** C10, counterexample: in "2001 and 2016-17" the only numeric token
    before the range, 2001, is within [2000, 2030], yet [year] is "2001",
    not the year of the range. *)
Lemma earlier_year_wins :
  number_findall "2001 and 2016-17" = ["2001"; "2016"; "17"]
  /\ is_year_like (py_float "2001") = true
  /\ is_year_like (py_float "2016") = true
  /\ e_year (extract_entities sample_bot "2001 and 2016-17") = Some "2001"
  /\ e_number (extract_entities sample_bot "2001 and 2016-17") = Some (py_float "17")
  /\ Some "2001" <> Some "2016".
Proof.
  repeat (split; [vm_compute; reflexivity|]). discriminate.
Qed.

(** C10, witness: "2016-17" at the end of a sentence. *)
Lemma year_range_suffix_is_number_witness :
  e_year (extract_entities sample_bot "Rainfall in Kerala for 2016-17.") = Some "2016"
  /\ e_number (extract_entities sample_bot "Rainfall in Kerala for 2016-17.")
     = Some (py_float "17").
Proof.
  apply (year_range_suffix_is_number sample_bot "Rainfall in Kerala for " "."
           "1" "6" "1" "7").
  - vm_compute. reflexivity.
  - vm_compute. reflexivity.
  - vm_compute. reflexivity.
  - vm_compute. reflexivity.
  - vm_compute. reflexivity.
  - vm_compute. reflexivity.
  - vm_compute. reflexivity.
  - vm_compute. reflexivity.
  - replace (number_findall "Rainfall in Kerala for ") with (@nil string)
      by (vm_compute; reflexivity).
    constructor.
  - vm_compute. reflexivity.
Defined.

(** * Further properties of the assistant *)

(** ** Sorting rows *)

Section SortedRows.
Context {A K : Type} (key : A -> K) (le : K -> K -> bool).
Hypothesis le_total : forall a b, le a b = true \/ le b a = true.
Hypothesis le_trans : forall a b c, le a b = true -> le b c = true -> le a c = true.

Lemma in_insert_row (x y : A) (l : list A) :
  In y (insert_row key le x l) <-> y = x \/ In y l.
Proof.
  induction l as [|z l IH]; cbn [insert_row In]; [intuition|].
  destruct (le (key z) (key x)); cbn [In]; [rewrite IH|]; intuition.
Qed.

Lemma in_sort_values (y : A) (l : list A) : In y (sort_values key le l) <-> In y l.
Proof.
  unfold sort_values.
  assert (forall acc, In y (fold_left (fun acc x => insert_row key le x acc) l acc)
                      <-> In y l \/ In y acc) as H.
  { induction l as [|x l IH]; intros acc; cbn [fold_left In]; [intuition|].
    rewrite IH, in_insert_row. intuition. }
  rewrite H. cbn [In]. intuition.
Qed.

Lemma insert_row_sorted (x : A) (l : list A) :
  StronglySorted (key_le key le) l ->
  StronglySorted (key_le key le) (insert_row key le x l).
Proof.
  induction 1 as [|z l Hl IH Hz]; cbn [insert_row].
  - constructor; constructor.
  - destruct (le (key z) (key x)) eqn:E.
    + constructor; [exact IH|]. apply Forall_forall. intros w Hw.
      apply in_insert_row in Hw as [->|Hw]; [exact E|].
      rewrite Forall_forall in Hz. now apply Hz.
    + assert (le (key x) (key z) = true) as E'
          by (destruct (le_total (key x) (key z)); congruence).
      constructor; [now constructor|]. constructor; [exact E'|].
      eapply Forall_impl; [|exact Hz]. intros w Hw.
      exact (le_trans _ _ _ E' Hw).
Qed.

Lemma sort_values_sorted (l : list A) :
  StronglySorted (key_le key le) (sort_values key le l).
Proof.
  unfold sort_values.
  assert (forall acc, StronglySorted (key_le key le) acc ->
                      StronglySorted (key_le key le)
                        (fold_left (fun acc x => insert_row key le x acc) l acc)) as H.
  { induction l as [|x l IH]; intros acc Hacc; cbn [fold_left]; [exact Hacc|].
    apply IH. now apply insert_row_sorted. }
  apply H. constructor.
Qed.

(** The last row of a sorted table has the greatest key. *)
Lemma last_item_greatest (l : list A) (x : A) :
  StronglySorted (key_le key le) l -> last_item l = Return x ->
  In x l /\ forall y, In y l -> le (key y) (key x) = true.
Proof.
  induction 1 as [|z l Hl IH Hz]; [discriminate|].
  destruct l as [|z' l'].
  - cbn [last_item]. intros H. injection H as <-. split; [now left|].
    intros y [<-|[]]. destruct (le_total (key z) (key z)); assumption.
  - intros H. change (last_item (z' :: l') = Return x) in H.
    destruct (IH H) as [Hin Hmax]. split; [now right|].
    intros y [<-|Hy]; [|now apply Hmax].
    rewrite Forall_forall in Hz. now apply Hz.
Qed.

Lemma skipn_sorted (n : nat) (l : list A) :
  StronglySorted (key_le key le) l -> StronglySorted (key_le key le) (skipn n l).
Proof.
  revert l. induction n as [|n IH]; intros l H; [exact H|].
  destruct l as [|z l]; [constructor|]. cbn [skipn]. apply IH.
  now apply StronglySorted_inv in H.
Qed.

End SortedRows.

Lemma last_item_skipn {A : Type} (n : nat) (l : list A) :
  (n < List.length l)%nat -> last_item (skipn n l) = last_item l.
Proof.
  revert l. induction n as [|n IH]; intros l H; [reflexivity|].
  destruct l as [|a l]; [cbn in H; lia|]. cbn [skipn].
  cbn [List.length] in H. rewrite IH by lia.
  destruct l as [|b l]; [cbn in H; lia | reflexivity].
Qed.

(** The last row of [tail n] is the last row of the table. *)
Lemma last_item_tail {A : Type} (n : nat) (l : list A) :
  (0 < n)%nat -> l <> [] -> last_item (tail n l) = last_item l.
Proof.
  intros Hn Hl. unfold tail. apply last_item_skipn.
  destruct l; [congruence | cbn [List.length]; lia].
Qed.

Lemma timestamp_le_total (a b : Timestamp) :
  timestamp_le a b = true \/ timestamp_le b a = true.
Proof.
  unfold timestamp_le.
  destruct (Z.ltb_spec (ts_year a) (ts_year b)), (Z.ltb_spec (ts_year b) (ts_year a)),
    (Z.eqb_spec (ts_year a) (ts_year b)), (Z.eqb_spec (ts_year b) (ts_year a)),
    (Z.leb_spec (ts_month a) (ts_month b)), (Z.leb_spec (ts_month b) (ts_month a));
    cbn; auto; lia.
Qed.

Lemma timestamp_le_trans (a b c : Timestamp) :
  timestamp_le a b = true -> timestamp_le b c = true -> timestamp_le a c = true.
Proof.
  unfold timestamp_le.
  destruct (Z.ltb_spec (ts_year a) (ts_year b)), (Z.ltb_spec (ts_year b) (ts_year c)),
    (Z.ltb_spec (ts_year a) (ts_year c)),
    (Z.eqb_spec (ts_year a) (ts_year b)), (Z.eqb_spec (ts_year b) (ts_year c)),
    (Z.eqb_spec (ts_year a) (ts_year c)),
    (Z.leb_spec (ts_month a) (ts_month b)), (Z.leb_spec (ts_month b) (ts_month c)),
    (Z.leb_spec (ts_month a) (ts_month c));
    cbn; auto; try discriminate; lia.
Qed.

(** ** The dates of a projection *)

Lemma next_month_add (d : Timestamp) :
  valid_month d -> next_month d = add_months d 1 /\ valid_month (next_month d).
Proof.
  unfold valid_month, next_month, add_months. intros H.
  destruct (Z.eqb_spec (ts_month d) 12) as [E|E]; cbn [ts_year ts_month].
  - rewrite E. split; [|lia]. f_equal.
    + replace (ts_year d * 12 + (12 - 1) + 1)%Z with ((ts_year d + 1) * 12)%Z by lia.
      now rewrite Z.div_mul.
    + replace (ts_year d * 12 + (12 - 1) + 1)%Z with ((ts_year d + 1) * 12)%Z by lia.
      now rewrite Z.mod_mul.
  - split; [|lia]. f_equal.
    + replace (ts_year d * 12 + (ts_month d - 1) + 1)%Z
        with (ts_month d + ts_year d * 12)%Z by lia.
      rewrite Z.div_add by lia. rewrite Z.div_small by lia. lia.
    + replace (ts_year d * 12 + (ts_month d - 1) + 1)%Z
        with (ts_month d + ts_year d * 12)%Z by lia.
      rewrite Z.mod_add by lia. rewrite Z.mod_small by lia. lia.
Qed.

Lemma add_months_add (d : Timestamp) (a b : Z) :
  add_months (add_months d a) b = add_months d (a + b).
Proof.
  unfold add_months. cbn [ts_year ts_month].
  set (t := (ts_year d * 12 + (ts_month d - 1) + a)%Z).
  replace (t / 12 * 12 + (t mod 12 + 1 - 1) + b)%Z with (t + b)%Z
    by (pose proof (Z.div_mod t 12); lia).
  replace (ts_year d * 12 + (ts_month d - 1) + (a + b))%Z with (t + b)%Z
    by (unfold t; lia).
  reflexivity.
Qed.

Section ProjectionDates.
Context {L : PyLib}.

Lemma project_dates (trend seasonality : float) (n : nat) :
  forall (k : nat) (i : Z) (d : Timestamp) (v : float),
    (k < n)%nat -> valid_month d ->
    exists p, nth_error (project trend seasonality n i d v) k = Some p
              /\ p_date p = strftime_Y_m (add_months d (Z.of_nat k + 1)).
Proof.
  induction n as [|n IH]; intros k i d v Hk Hd; [lia|].
  destruct (next_month_add d Hd) as [Hnext Hvalid].
  destruct k as [|k].
  - cbn [project nth_error]. eexists. split; [reflexivity|].
    cbn [p_date Z.of_nat]. now rewrite Hnext.
  - cbn [project nth_error].
    destruct (IH k (i + 1)%Z (next_month d)
                ((v + trend * float_of_int i)
                 * (1 + seasonality * 0.1
                        * np_sin (2 * np_pi
                                  * float_of_int (ts_month (next_month d)) / 12)))%float)
      as (p & Hp & Hdate); [lia | exact Hvalid |].
    exists p. split; [exact Hp|]. rewrite Hdate, Hnext, add_months_add.
    do 2 f_equal. lia.
Qed.

(** X1.  The projection starts from the latest observation and advances
    one calendar month per step: point [i] is dated [i] months after the
    greatest date of the series, December rolling over to January of the
    next year. *)
Theorem projection_dates (data : list (Timestamp * float)) (months_ahead i : Z) :
  data <> [] ->
  Forall (fun row => valid_month (fst row)) data ->
  (1 <= i <= months_ahead)%Z ->
  exists f p latest,
    predict_future_values data months_ahead = Return f
    /\ In latest data
    /\ (forall row, In row data -> timestamp_le (fst row) (fst latest) = true)
    /\ nth_error (predictions f) (Z.to_nat (i - 1)) = Some p
    /\ p_date p = strftime_Y_m (add_months (fst latest) i)
    /\ (ts_month (fst latest) = 12%Z ->
        add_months (fst latest) 1
        = {| ts_year := ts_year (fst latest) + 1; ts_month := 1 |}).
Proof.
  intros Hne Hvalid Hi.
  destruct (predict_future_values_returns data months_ahead Hne)
    as (trend & seasonality & latest & f & Hf & Hp & Hlast & _).
  destruct (last_item_greatest fst timestamp_le timestamp_le_total
              _ latest (sort_values_sorted fst timestamp_le timestamp_le_total
                          timestamp_le_trans data) Hlast) as [Hin Hmax].
  apply in_sort_values in Hin.
  assert (valid_month (fst latest)) as Hlatest
      by (rewrite Forall_forall in Hvalid; now apply Hvalid).
  destruct (project_dates trend seasonality (Z.to_nat months_ahead)
              (Z.to_nat (i - 1)) 1 (fst latest) (snd latest)) as (p & Hnp & Hdate);
    [lia | exact Hlatest |].
  replace (Z.of_nat (Z.to_nat (i - 1)) + 1)%Z with i in Hdate by lia.
  exists f, p, latest. rewrite Hp.
  split; [exact Hf|]. split; [exact Hin|]. split.
  { intros row Hrow. apply Hmax. now apply in_sort_values. }
  split; [exact Hnp|]. split; [exact Hdate|].
  intros H12. destruct (next_month_add (fst latest) Hlatest) as [<- _].
  unfold next_month. now rewrite H12.
Qed.

End ProjectionDates.

(** ** Month keys *)

Lemma digit_compare (a b : ascii) :
  is_digit a = true -> is_digit b = true ->
  Ascii.compare a b = Z.compare (digit_value a) (digit_value b).
Proof.
  intros Ha Hb. apply is_digit_cases in Ha, Hb. cbn [In] in Ha, Hb.
  repeat (destruct Ha as [<-|Ha]; [|]); try contradiction;
    repeat (destruct Hb as [<-|Hb]; [|]); try contradiction;
    vm_compute; reflexivity.
Qed.

(** What [to_datetime] accepts: four digits, a dash, two digits that
    make a month. *)
Lemma to_datetime_shape (s : string) (d : Timestamp) :
  to_datetime s = Some d ->
  exists y1 y2 y3 y4 m1 m2,
    s = String y1 (String y2 (String y3 (String y4 (String "-"
          (String m1 (String m2 EmptyString))))))
    /\ is_digit y1 = true /\ is_digit y2 = true /\ is_digit y3 = true
    /\ is_digit y4 = true /\ is_digit m1 = true /\ is_digit m2 = true
    /\ ts_year d = (1000 * digit_value y1 + 100 * digit_value y2
                    + 10 * digit_value y3 + digit_value y4)%Z
    /\ ts_month d = (10 * digit_value m1 + digit_value m2)%Z
    /\ valid_month d.
Proof.
  unfold to_datetime. intros H.
  destruct s as [|y1 [|y2 [|y3 [|y4 [|c [|m1 [|m2 [|x s]]]]]]]];
    try discriminate H;
    destruct c as [[] [] [] [] [] [] [] []]; try discriminate H.
  unfold all_digits in H. cbn [list_ascii_of_string forallb] in H.
  destruct (is_digit y1) eqn:D1; [|discriminate H].
  destruct (is_digit y2) eqn:D2; [|discriminate H].
  destruct (is_digit y3) eqn:D3; [|discriminate H].
  destruct (is_digit y4) eqn:D4; [|discriminate H].
  destruct (is_digit m1) eqn:D5; [|discriminate H].
  destruct (is_digit m2) eqn:D6; [|discriminate H]. cbn [andb] in H.
  destruct (1 <=? _)%Z eqn:E1; [|discriminate H].
  destruct (_ <=? 12)%Z eqn:E2; [|discriminate H].
  cbn [andb] in H. injection H as <-.
  apply Z.leb_le in E1, E2. unfold py_int in *. cbn [digits_value] in *.
  exists y1, y2, y3, y4, m1, m2. unfold valid_month. cbn [ts_year ts_month].
  split; [reflexivity|]. repeat (split; [assumption|]). repeat split; lia.
Qed.

Lemma month_key_leb (a b : string) (da db : Timestamp) :
  to_datetime a = Some da -> to_datetime b = Some db ->
  String.leb a b = timestamp_le da db.
Proof.
  intros Ha Hb.
  destruct (to_datetime_shape a da Ha)
    as (y1 & y2 & y3 & y4 & m1 & m2 & -> & A1 & A2 & A3 & A4 & A5 & A6 & Ya & Ma & _).
  destruct (to_datetime_shape b db Hb)
    as (z1 & z2 & z3 & z4 & n1 & n2 & -> & B1 & B2 & B3 & B4 & B5 & B6 & Yb & Mb & _).
  unfold String.leb, timestamp_le. rewrite Ya, Yb, Ma, Mb.
  cbn [String.compare].
  change (Ascii.compare "-" "-") with Eq.
  rewrite !digit_compare by assumption.
  apply digit_value_bounds in A1, A2, A3, A4, A5, A6, B1, B2, B3, B4, B5, B6.
  generalize dependent (digit_value y1). generalize dependent (digit_value y2).
  generalize dependent (digit_value y3). generalize dependent (digit_value y4).
  generalize dependent (digit_value m1). generalize dependent (digit_value m2).
  generalize dependent (digit_value z1). generalize dependent (digit_value z2).
  generalize dependent (digit_value z3). generalize dependent (digit_value z4).
  generalize dependent (digit_value n1). generalize dependent (digit_value n2).
  intros. clear Ha Hb Ya Yb Ma Mb.
  repeat match goal with
         | |- context [Z.compare ?x ?y] => destruct (Z.compare_spec x y)
         end;
    repeat match goal with
           | |- context [(?x <? ?y)%Z] => destruct (Z.ltb_spec x y)
           | |- context [(?x =? ?y)%Z] => destruct (Z.eqb_spec x y)
           | |- context [(?x <=? ?y)%Z] => destruct (Z.leb_spec x y)
           end; cbn; try reflexivity; lia.
Qed.

Lemma timestamp_le_antisym (a b : Timestamp) :
  timestamp_le a b = true -> timestamp_le b a = true -> a = b.
Proof.
  unfold timestamp_le. destruct a as [ya ma], b as [yb mb]. cbn [ts_year ts_month].
  destruct (Z.ltb_spec ya yb), (Z.ltb_spec yb ya), (Z.eqb_spec ya yb), (Z.eqb_spec yb ya),
    (Z.leb_spec ma mb), (Z.leb_spec mb ma); cbn; try discriminate; try lia.
  intros _ _. f_equal; lia.
Qed.

(** X2.  On month keys in the form ["YYYY-MM"] the order of the strings,
    which the handlers sort by, is the order of the dates, and two keys
    are equal exactly when their dates are. *)
Theorem month_key_order (a b : string) (da db : Timestamp) :
  to_datetime a = Some da -> to_datetime b = Some db ->
  String.leb a b = timestamp_le da db
  /\ (String.ltb a b = true <-> timestamp_le da db = true /\ da <> db)
  /\ (a = b <-> da = db).
Proof.
  intros Ha Hb.
  pose proof (month_key_leb a b da db Ha Hb) as Hab.
  pose proof (month_key_leb b a db da Hb Ha) as Hba.
  assert (a = b <-> da = db) as Heq.
  { split.
    - intros ->. rewrite Ha in Hb. now injection Hb.
    - intros ->. apply String.leb_antisym.
      + rewrite Hab. destruct (timestamp_le_total db db); assumption.
      + rewrite Hba. destruct (timestamp_le_total db db); assumption. }
  split; [exact Hab|]. split; [|exact Heq].
  rewrite <- Hab. unfold String.ltb, String.leb.
  destruct (String.compare a b) eqn:E.
  - apply String.compare_eq_iff in E. split; [discriminate|].
    intros [_ N]. elim N. now apply Heq.
  - split; [|reflexivity]. intros _. split; [reflexivity|].
    intros D. apply Heq in D. subst b.
    pose proof (String.compare_antisym a a) as A. rewrite E in A. discriminate A.
  - split; [discriminate | intros [F _]; discriminate F].
Qed.

(** ** Loaded tables *)

Lemma traverse_nth {A B : Type} (f : A -> option B) (default : B) (l : list A) :
  forall l', traverse f l = Some l' ->
  forall i x, nth_error l i = Some x -> f x = Some (nth i l' default).
Proof.
  induction l as [|a l IH]; cbn [traverse]; intros l' H i x Hx.
  - destruct i; discriminate Hx.
  - destruct (f a) as [b|] eqn:E; [|discriminate].
    destruct (traverse f l) as [bs|]; [|discriminate].
    injection H as <-. destruct i as [|i]; cbn [nth_error nth] in *.
    + now injection Hx as <-.
    + now apply (IH bs eq_refl i x).
Qed.

Lemma with_dates_forall {A B : Type} (row : A -> Timestamp -> B)
    (date : nat -> Timestamp) (Q : B -> Prop) (l : list A) :
  forall n,
    (forall i x, nth_error l i = Some x -> Q (row x (date (n + i)%nat))) ->
    Forall Q (with_dates row date n l).
Proof.
  induction l as [|a l IH]; cbn [with_dates]; intros n H; constructor.
  - specialize (H 0%nat a eq_refl). now rewrite Nat.add_0_r in H.
  - apply IH. intros i x Hx. specialize (H (S i) x Hx).
    now rewrite Nat.add_succ_r in H.
Qed.

(** Files whose month keys are written ["YYYY-MM"], read as such, give
    tables whose dates are those of the keys. *)
Lemma init_dates_parsed (rainfall_csv : list RainfallCsv)
    (groundwater_csv : list GroundwaterCsv) (m : option Model) :
  dates_parsed (init (P := ref_pandas) rainfall_csv groundwater_csv m).
Proof.
  unfold dates_parsed, init, load_data. cbn [pd_to_datetime ref_pandas].
  destruct (traverse to_datetime (map csv_rf_year_month rainfall_csv))
    as [rd|] eqn:Er; [|split; constructor].
  destruct (traverse to_datetime (map csv_gw_year_month groundwater_csv))
    as [gd|] eqn:Eg; [|split; constructor].
  cbn [rainfall groundwater]. split.
  - apply with_dates_forall. intros i x Hx.
    cbn [load_rainfall_row rf_year_month rf_date Nat.add].
    apply (traverse_nth _ _ _ _ Er i).
    now apply map_nth_error.
  - apply with_dates_forall. intros i x Hx.
    cbn [load_groundwater_row gw_year_month gw_date Nat.add].
    apply (traverse_nth _ _ _ _ Eg i).
    now apply map_nth_error.
Qed.

Lemma keep_if_in {A : Type} (field : A -> string) (wanted : option string)
    (data : list A) (r : A) :
  In r (keep_if field wanted data) -> In r data.
Proof.
  unfold keep_if. destruct wanted as [[|c w]|]; try tauto.
  intros H. now apply filter_In in H.
Qed.

Lemma keep_if_falsy {A : Type} (field : A -> string) (wanted : option string)
    (data : list A) :
  truthy wanted = false -> keep_if field wanted data = data.
Proof.
  unfold keep_if, truthy. destruct wanted as [[|c w]|]; [reflexivity | discriminate | reflexivity].
Qed.

Lemma keep_if_state {A : Type} (field : A -> string) (c : ascii) (w : string)
    (data : list A) (r : A) :
  In r (keep_if field (Some (String c w)) data) <-> In r data /\ field r = String c w.
Proof.
  unfold keep_if. rewrite filter_In. now rewrite String.eqb_eq.
Qed.

Lemma string_leb_total (a b : string) : String.leb a b = true \/ String.leb b a = true.
Proof. apply String.leb_total. Qed.

Lemma in_tail {A : Type} (n : nat) (l : list A) (x : A) :
  In x (tail n l) -> In x l.
Proof.
  unfold tail. generalize (List.length l - n)%nat. intros k. revert l.
  induction k as [|k IH]; intros [|a l]; cbn [skipn In]; auto.
Qed.

Lemma last_item_in {A : Type} (l : list A) (x : A) :
  last_item l = Return x -> In x l.
Proof.
  induction l as [|a l IH]; [discriminate|].
  destruct l as [|b l]; [intros H; injection H as <-; now left|].
  intros H. right. now apply IH.
Qed.

(** The rows a handler keeps, sorted by month key, end with the row of
    the latest date. *)
Lemma latest_by_month_key {A : Type} (year_month : A -> string) (date : A -> Timestamp)
    (rows : list A) :
  rows <> [] ->
  Forall (fun r => to_datetime (year_month r) = Some (date r)) rows ->
  exists latest,
    last_item (tail 12 (sort_values year_month String.leb rows)) = Return latest
    /\ In latest rows
    /\ forall row, In row rows -> timestamp_le (date row) (date latest) = true.
Proof.
  intros Hne Hdates.
  set (sorted_rows := sort_values year_month String.leb rows).
  assert (sorted_rows <> []) as Hs.
  { intros E. pose proof (length_sort_values year_month String.leb rows) as Hl.
    fold sorted_rows in Hl. rewrite E in Hl. destruct rows; [congruence | discriminate Hl]. }
  destruct (last_item_returns sorted_rows Hs) as [latest Hlatest].
  exists latest. rewrite last_item_tail by (lia || exact Hs).
  split; [exact Hlatest|].
  destruct (last_item_greatest year_month String.leb string_leb_total _ latest
              (sort_values_sorted year_month String.leb string_leb_total leb_trans rows)
              Hlatest) as [Hin Hmax].
  apply in_sort_values in Hin. split; [exact Hin|].
  intros row Hrow. rewrite Forall_forall in Hdates.
  rewrite <- (month_key_leb _ _ _ _ (Hdates row Hrow) (Hdates latest Hin)).
  apply Hmax. now apply in_sort_values.
Qed.

Section LatestPeriod.
Context {L : PyLib}.

(** X3.  On tables whose month keys are written ["YYYY-MM"]: asked about
    a state with rainfall rows and no month, the rainfall handler answers
    with the mean of at most twelve rows of that state and names, as the
    latest data available, the month key of a row of that state that no
    other row of the state is dated after. *)
Theorem recent_rainfall_names_latest_period (self : GroundwaterChatbot)
    (entities : Entities) (user_input : string) (c : ascii) (w : string) :
  let state := String c w in
  dates_parsed self ->
  e_state entities = Some state ->
  truthy (e_month entities) = false ->
  (exists row, In row (rainfall self) /\ rf_state_name row = state) ->
  exists latest recent,
    handle_rainfall_query self entities user_input
    = Return ("🌧️ **Recent Rainfall in " ++ title state ++ ":**" ++ nl ++ nl
              ++ "Average rainfall (last 12 months): **"
              ++ py_format (series_mean (map rainfall_actual_mm recent)) ".2f"
              ++ " mm**" ++ nl ++ nl
              ++ "Latest data available: " ++ rf_year_month latest)
    /\ (List.length recent <= 12)%nat
    /\ (forall row, In row recent -> In row (rainfall self) /\ rf_state_name row = state)
    /\ In latest recent
    /\ (forall row, In row (rainfall self) -> rf_state_name row = state ->
                    timestamp_le (rf_date row) (rf_date latest) = true).
Proof.
  intros state [Hdates _] Hstate Hmonth (row0 & Hrow0 & Hrow0s).
  unfold handle_rainfall_query. rewrite Hstate. fold state.
  unfold get_rainfall_data. rewrite (keep_if_falsy _ _ _ Hmonth).
  set (rows := keep_if rf_state_name (Some state) (rainfall self)).
  assert (forall r, In r rows <-> In r (rainfall self) /\ rf_state_name r = state) as Hrows
      by (intros r; apply keep_if_state).
  assert (rows <> []) as Hne.
  { intros E. assert (In row0 rows) as H0 by (apply Hrows; now split).
    rewrite E in H0. destruct H0. }
  assert (Forall (fun r => to_datetime (rf_year_month r) = Some (rf_date r)) rows) as Hd.
  { apply Forall_forall. intros r Hr. apply Hrows in Hr as [Hr _].
    rewrite Forall_forall in Hdates. now apply Hdates. }
  destruct (latest_by_month_key rf_year_month rf_date rows Hne Hd)
    as (latest & Hlast & Hin & Hmax).
  set (recent := tail 12 (sort_values rf_year_month String.leb rows)) in *.
  exists latest, recent.
  assert (forall r, In r recent -> In r rows) as Hrecent.
  { intros r Hr. apply (in_sort_values rf_year_month String.leb).
    now apply (in_tail 12). }
  split.
  - destruct rows as [|r0 rows0] eqn:E; [congruence|].
    destruct (e_month entities) as [[|c' w']|]; try discriminate Hmonth;
      fold recent; rewrite Hlast; reflexivity.
  - split.
    { unfold recent, tail. rewrite length_skipn. lia. }
    split; [intros r Hr; apply Hrows; now apply Hrecent|].
    split; [exact (last_item_in recent latest Hlast)|].
    intros r Hr Hs. apply Hmax. apply Hrows. now split.
Qed.

End LatestPeriod.

(** ** The vocabulary *)

Lemma in_unique_iff (l : list string) (y : string) : In y (unique l) <-> In y l.
Proof.
  split; [apply in_unique|].
  induction l as [|x l IH]; cbn [unique In]; [tauto|].
  intros [->|H]; [now left|].
  destruct (String.eqb_spec x y) as [->|N]; [now left|].
  right. apply filter_In. split; [now apply IH|].
  apply negb_true_iff. now apply String.eqb_neq.
Qed.

Lemma NoDup_unique (l : list string) : NoDup (unique l).
Proof.
  induction l as [|x l IH]; cbn [unique]; constructor.
  - intros H. apply filter_In in H as [_ H].
    now rewrite String.eqb_refl in H.
  - now apply NoDup_filter.
Qed.

Lemma in_insert_sorted_iff (x y : string) (l : list string) :
  In y (insert_sorted x l) <-> y = x \/ In y l.
Proof.
  split; [apply in_insert_sorted|].
  induction l as [|z l IH]; cbn [insert_sorted In]; [intuition|].
  destruct (String.leb x z); cbn [In]; intuition.
Qed.

Lemma in_sorted_iff (l : list string) (y : string) : In y (sorted l) <-> In y l.
Proof.
  induction l as [|x l IH]; cbn [sorted fold_right In]; [tauto|].
  change (fold_right insert_sorted [] l) with (sorted l).
  rewrite in_insert_sorted_iff, IH. intuition.
Qed.

Lemma NoDup_insert_sorted (x : string) (l : list string) :
  ~ In x l -> NoDup l -> NoDup (insert_sorted x l).
Proof.
  induction l as [|z l IH]; cbn [insert_sorted]; intros Hx Hl.
  - constructor; [intros [] | constructor].
  - destruct (String.leb x z); [now constructor|].
    apply NoDup_cons_iff in Hl as [Hz Hl]. constructor.
    + rewrite in_insert_sorted_iff. intros [->|H]; [apply Hx; now left | now apply Hz].
    + apply IH; [|exact Hl]. intros H. apply Hx. now right.
Qed.

Lemma NoDup_sorted (l : list string) : NoDup l -> NoDup (sorted l).
Proof.
  induction 1 as [|x l Hx Hl IH]; cbn [sorted fold_right]; [constructor|].
  change (fold_right insert_sorted [] l) with (sorted l).
  apply NoDup_insert_sorted; [now rewrite in_sorted_iff | exact IH].
Qed.

(** What a vocabulary listing holds: the non-blank values of a column,
    once each, in alphabetical order. *)
Lemma listing_spec (names : list string) :
  StronglySorted alphabetical (sorted (filter non_blank (unique names)))
  /\ NoDup (sorted (filter non_blank (unique names)))
  /\ forall s, In s (sorted (filter non_blank (unique names)))
               <-> non_blank s = true /\ In s names.
Proof.
  split; [apply sorted_sorted|]. split.
  - apply NoDup_sorted, NoDup_filter, NoDup_unique.
  - intros s. rewrite in_sorted_iff, filter_In, in_unique_iff. tauto.
Qed.

(** X4.  [get_available_states] lists, in alphabetical order and without
    repetition, exactly the non-blank state names of the rainfall rows. *)
Theorem available_states_listing (self : GroundwaterChatbot) :
  StronglySorted alphabetical (get_available_states self)
  /\ NoDup (get_available_states self)
  /\ forall s, In s (get_available_states self)
               <-> non_blank s = true
                   /\ exists row, In row (rainfall self) /\ rf_state_name row = s.
Proof.
  unfold get_available_states.
  destruct (rainfall self) as [|row rows] eqn:E.
  - split; [constructor|]. split; [constructor|].
    intros s. split; [intros [] | intros (_ & r & [] & _)].
  - destruct (listing_spec (map rf_state_name (row :: rows))) as (Hs & Hn & Hin).
    split; [exact Hs|]. split; [exact Hn|].
    intros s. rewrite Hin, in_map_iff. split.
    + intros (Hb & r & Hr & Hrow). split; [exact Hb|]. now exists r.
    + intros (Hb & r & Hrow & Hr). split; [exact Hb|]. now exists r.
Qed.

Lemma in_available_districts (self : GroundwaterChatbot) (state d : string) :
  In d (get_available_districts self state)
  <-> state <> EmptyString
      /\ non_blank d = true
      /\ exists row, In row (groundwater self)
                     /\ gw_state_name row = state /\ gw_district_name row = d.
Proof.
  unfold get_available_districts.
  destruct state as [|c w].
  - split; [intros [] | intros (N & _); now elim N].
  - destruct (groundwater self) as [|row rows] eqn:E.
    + split; [intros [] | intros (_ & _ & r & [] & _)].
    + destruct (listing_spec (map gw_district_name
                  (filter (fun r => String.eqb (gw_state_name r) (String c w))
                          (row :: rows)))) as (_ & _ & Hin).
      rewrite Hin, in_map_iff. split.
      * intros (Hb & r & Hd & Hr). apply filter_In in Hr as [Hr Hs].
        apply String.eqb_eq in Hs. split; [discriminate|]. split; [exact Hb|].
        now exists r.
      * intros (_ & Hb & r & Hr & Hs & Hd). split; [exact Hb|].
        exists r. split; [exact Hd|]. apply filter_In. split; [exact Hr|].
        now apply String.eqb_eq.
Qed.

(** X5.  [get_available_districts] lists, in alphabetical order and
    without repetition, exactly the non-blank district names of the
    groundwater rows of the state; it lists nothing for an empty state
    name. *)
Theorem available_districts_listing (self : GroundwaterChatbot) (state : string) :
  StronglySorted alphabetical (get_available_districts self state)
  /\ NoDup (get_available_districts self state)
  /\ forall d, In d (get_available_districts self state)
               <-> state <> EmptyString
                   /\ non_blank d = true
                   /\ exists row, In row (groundwater self)
                                  /\ gw_state_name row = state
                                  /\ gw_district_name row = d.
Proof.
  split; [|split; [|apply in_available_districts]].
  - unfold get_available_districts.
    destruct state; [constructor|]. destruct (groundwater self); [constructor|].
    apply sorted_sorted.
  - unfold get_available_districts.
    destruct state; [constructor|]. destruct (groundwater self); [constructor|].
    apply NoDup_sorted, NoDup_filter, NoDup_unique.
Qed.

(** X6.  A district is only ever extracted together with a state: it is
    then a district of that state occurring in the lower-cased text, and
    the groundwater rows of that state and district are not empty. *)
Theorem district_comes_with_its_state (self : GroundwaterChatbot) (text d : string) :
  e_district (extract_entities self text) = Some d ->
  exists s,
    e_state (extract_entities self text) = Some s
    /\ In s (get_available_states self)
    /\ In d (get_available_districts self s)
    /\ str_in d (lower text) = true
    /\ get_groundwater_data self (Some s) (Some d) None <> [].
Proof.
  unfold extract_entities. cbn [e_state e_district].
  destruct (first_in (get_available_states self) (lower text)) as [[|c w]|] eqn:Es;
    try discriminate.
  intros Hd.
  destruct (first_in_split _ _ _ Es) as (b1 & a1 & Hs1 & _ & _).
  destruct (first_in_split _ _ _ Hd) as (b2 & a2 & Hs2 & Hocc & _).
  assert (In d (get_available_districts self (String c w))) as Hind
      by (rewrite Hs2; apply in_or_app; right; now left).
  exists (String c w). split; [reflexivity|]. split.
  { rewrite Hs1. apply in_or_app. right. now left. }
  split; [exact Hind|]. split; [exact Hocc|].
  apply in_available_districts in Hind as (_ & Hb & row & Hrow & Hrs & Hrd).
  assert (d <> EmptyString) as Hne by (intros ->; discriminate Hb).
  destruct d as [|c' w']; [now elim Hne|].
  intros E.
  assert (In row (get_groundwater_data self (Some (String c w)) (Some (String c' w')) None))
    as Hin.
  { unfold get_groundwater_data. cbn [keep_if]. apply filter_In. split.
    - apply filter_In. split; [exact Hrow | now apply String.eqb_eq].
    - now apply String.eqb_eq. }
  rewrite E in Hin. destruct Hin.
Qed.

(** ** The month entity *)

Lemma month_match_shape (prev : option ascii) (s g1 g2 : string) :
  month_match prev s = Some (g1, g2) ->
  exists m1 m2 d1 d2,
    g1 = String m1 (String m2 EmptyString)
    /\ g2 = String "2" (String "0" (String d1 (String d2 EmptyString)))
    /\ is_month m1 m2 = true /\ is_digit d1 = true /\ is_digit d2 = true
    /\ exists rest,
         s = String m1 (String m2 (String "-" (String "2" (String "0"
               (String d1 (String d2 rest))))))
         /\ is_word_at (first_char rest) = false.
Proof.
  unfold month_match.
  destruct s as [|m1 [|m2 [|c [|c1 [|c2 [|d1 [|d2 rest]]]]]]]; try discriminate.
  destruct (word_boundary prev _); [|discriminate].
  destruct (is_month m1 m2) eqn:M; [|discriminate].
  destruct (Ascii.eqb_spec c "-") as [->|]; [|discriminate].
  destruct (Ascii.eqb_spec c1 "2") as [->|]; [|discriminate].
  destruct (Ascii.eqb_spec c2 "0") as [->|]; [|discriminate].
  destruct (is_digit d1) eqn:D1; [|discriminate].
  destruct (is_digit d2) eqn:D2; [|discriminate].
  cbn [andb]. unfold word_boundary. cbn [is_word_at]. rewrite (digit_is_word d2 D2).
  destruct (is_word_at (first_char rest)) eqn:W; [discriminate|].
  cbn [xorb]. intros H. injection H as <- <-.
  exists m1, m2, d1, d2. repeat (split; [reflexivity || assumption|]).
  exists rest. now split.
Qed.

Lemma year_search_found_later (prev : option ascii) (a : ascii) (s : string) :
  year_search (Some a) s <> None -> year_search prev (String a s) <> None.
Proof.
  cbn [year_search]. now destruct (year_match prev (String a s)).
Qed.

Lemma year_found_with_month (prev : option ascii) (s g1 g2 : string) :
  month_match prev s = Some (g1, g2) -> year_search prev s <> None.
Proof.
  intros H.
  destruct (month_match_shape prev s g1 g2 H)
    as (m1 & m2 & d1 & d2 & _ & _ & _ & D1 & D2 & rest & -> & W).
  do 3 apply year_search_found_later.
  cbn [year_search]. rewrite year_match_simpl, D1, D2, W. discriminate.
Qed.

Lemma month_search_shape (s : string) :
  forall prev g1 g2,
    month_search prev s = Some (g1, g2) ->
    year_search prev s <> None
    /\ exists m1 m2 d1 d2,
         g1 = String m1 (String m2 EmptyString)
         /\ g2 = String "2" (String "0" (String d1 (String d2 EmptyString)))
         /\ is_month m1 m2 = true /\ is_digit d1 = true /\ is_digit d2 = true.
Proof.
  induction s as [|c s IH]; intros prev g1 g2; cbn [month_search].
  - destruct (month_match prev EmptyString) as [[h1 h2]|] eqn:E; [|discriminate].
    intros H. injection H as <- <-. split; [now apply year_found_with_month in E|].
    destruct (month_match_shape _ _ _ _ E) as (m1 & m2 & d1 & d2 & ? & ? & ? & ? & ? & _).
    now exists m1, m2, d1, d2.
  - destruct (month_match prev (String c s)) as [[h1 h2]|] eqn:E.
    + intros H. injection H as <- <-. split; [now apply year_found_with_month in E|].
      destruct (month_match_shape _ _ _ _ E) as (m1 & m2 & d1 & d2 & ? & ? & ? & ? & ? & _).
      now exists m1, m2, d1, d2.
    + intros H. destruct (IH _ _ _ H) as [Hy Hs]. split; [|exact Hs].
      now apply year_search_found_later.
Qed.

Lemma is_month_cases (m1 m2 : ascii) :
  is_month m1 m2 = true ->
  In (m1, m2) [("0", "1"); ("0", "2"); ("0", "3"); ("0", "4"); ("0", "5"); ("0", "6");
               ("0", "7"); ("0", "8"); ("0", "9"); ("1", "0"); ("1", "1"); ("1", "2")]%char.
Proof.
  unfold is_month. intros H.
  assert (is_digit m2 = true) as D.
  { unfold is_digit, in_range in *. cbv zeta in *.
    destruct (Ascii.eqb m1 "0"), (Ascii.eqb m1 "1"); cbn [andb orb] in H;
      try discriminate H;
      repeat match goal with
             | H : (_ || _) = true |- _ => apply orb_prop in H as [H|H]
             | H : (_ && _) = true |- _ => apply andb_prop in H as [? ?]
             end;
      repeat match goal with
             | H : (_ <=? _)%nat = true |- _ => apply Nat.leb_le in H
             end;
      apply andb_true_intro; split; apply Nat.leb_le; lia. }
  apply is_digit_cases in D. cbn [In] in D.
  destruct (Ascii.eqb_spec m1 "0") as [->|N0];
    [|destruct (Ascii.eqb_spec m1 "1") as [->|N1]; [|discriminate H]];
    repeat (destruct D as [<-|D]; [|]); try contradiction;
    vm_compute in H; try discriminate H; cbn [In]; tauto.
Qed.

(** X7.  The month entity of an ASCII text is always a month key written
    ["YYYY-MM"]: [to_datetime] reads it as a month of a year from 2000 to
    2099, [strftime] writes that month back as the same key, and the year
    entity is set as well. *)
Theorem month_entity_is_a_month_key (self : GroundwaterChatbot) (text m : string) :
  isascii text = true ->
  e_month (extract_entities self text) = Some m ->
  exists d,
    to_datetime m = Some d
    /\ strftime_Y_m d = m
    /\ (2000 <= ts_year d <= 2099)%Z
    /\ valid_month d
    /\ exists y, e_year (extract_entities self text) = Some y.
Proof.
  intros _. unfold extract_entities. cbn [e_month e_year].
  destruct (month_search None text) as [[g1 g2]|] eqn:E; [|discriminate].
  intros H. injection H as <-.
  destruct (month_search_shape _ _ _ _ E)
    as (Hy & m1 & m2 & d1 & d2 & -> & -> & M & D1 & D2).
  assert (exists d,
             to_datetime (String "2" (String "0" (String d1 (String d2 EmptyString)))
                          ++ "-" ++ String m1 (String m2 EmptyString)) = Some d
             /\ strftime_Y_m d
                = String "2" (String "0" (String d1 (String d2 EmptyString)))
                  ++ "-" ++ String m1 (String m2 EmptyString)
             /\ (2000 <=? ts_year d)%Z && (ts_year d <=? 2099)%Z
                && (1 <=? ts_month d)%Z && (ts_month d <=? 12)%Z = true)
    as (d & Hd & Hs & Hb).
  { apply is_month_cases in M. apply is_digit_cases in D1, D2.
    cbn [In] in M, D1, D2.
    repeat (destruct D1 as [<-|D1]; [|]); try contradiction;
      repeat (destruct D2 as [<-|D2]; [|]); try contradiction;
      repeat (destruct M as [M|M]; [injection M as <- <-|]); try contradiction;
      eexists; (split; [vm_compute; reflexivity|]);
      split; vm_compute; reflexivity. }
  exists d. split; [exact Hd|]. split; [exact Hs|].
  apply andb_prop in Hb as [Hb H4]. apply andb_prop in Hb as [Hb H3].
  apply andb_prop in Hb as [H1 H2].
  apply Z.leb_le in H1, H2, H3, H4. unfold valid_month.
  split; [lia|]. split; [lia|].
  destruct (year_search None text) as [y|]; [now exists y | now elim Hy].
Qed.

(** ** The numeric tokens *)

Lemma take_digits_all_digits (s : string) : all_digits (fst (take_digits s)) = true.
Proof.
  unfold all_digits. induction s as [|c s IH]; cbn [take_digits]; [reflexivity|].
  destruct (is_digit c) eqn:D; [|reflexivity].
  destruct (take_digits s) as [ds r]. cbn [fst list_ascii_of_string forallb] in *.
  now rewrite D, IH.
Qed.

Lemma take_digits_whole (ds : string) :
  all_digits ds = true -> take_digits ds = (ds, EmptyString).
Proof.
  intros H. pose proof (take_digits_run ds EmptyString H eq_refl) as T.
  replace (ds ++ EmptyString) with ds in T; [exact T|].
  clear. induction ds as [|c ds IH]; cbn [append]; [reflexivity | now rewrite <- IH].
Qed.

Lemma append_assoc (a b c : string) : (a ++ b) ++ c = a ++ b ++ c.
Proof.
  induction a as [|x a IH]; cbn [append]; [reflexivity | now rewrite IH].
Qed.

Lemma number_match_literal (s g r : string) :
  number_match s = Some (g, r) -> is_float_literal g = true /\ s = g ++ r.
Proof.
  unfold number_match, is_float_literal.
  pose proof (take_digits_all_digits s) as Hd.
  assert (s = fst (take_digits s) ++ snd (take_digits s)) as Hs.
  { clear. induction s as [|c s IH]; cbn [take_digits]; [reflexivity|].
    destruct (is_digit c); [|reflexivity].
    destruct (take_digits s) as [ds r]. cbn [fst snd append] in *. now rewrite <- IH. }
  destruct (take_digits s) as [ip r1]. cbn [fst snd] in *.
  destruct ip as [|d ip]; [discriminate|].
  destruct r1 as [|c r2].
  - intros H. injection H as <- <-. rewrite (take_digits_whole _ Hd). now split.
  - destruct (Ascii.eqb_spec c ".") as [->|N].
    + pose proof (take_digits_all_digits r2) as Hf.
      assert (r2 = fst (take_digits r2) ++ snd (take_digits r2)) as Hr2.
      { clear. induction r2 as [|c s IH]; cbn [take_digits]; [reflexivity|].
        destruct (is_digit c); [|reflexivity].
        destruct (take_digits s) as [ds r]. cbn [fst snd append] in *. now rewrite <- IH. }
      destruct (take_digits r2) as [fp r3]. cbn [fst snd] in *.
      intros H. injection H as <- <-.
      split.
      * pose proof (take_digits_run (String d ip) ("." ++ fp) Hd eq_refl) as T.
        cbn [append] in T |- *. rewrite T.
        cbn [negb String.eqb andb append]. now rewrite Hf.
      * rewrite Hs, Hr2. cbn [append]. now rewrite append_assoc.
    + intros H. injection H as <- <-. rewrite (take_digits_whole _ Hd). now split.
Qed.

Lemma findall_from_literals (fuel : nat) :
  forall s, Forall (fun tok => is_float_literal tok = true) (findall_from fuel s).
Proof.
  induction fuel as [|fuel IH]; intros s; cbn [findall_from]; [constructor|].
  destruct (number_match s) as [[g r]|] eqn:E.
  - constructor; [now apply number_match_literal in E | apply IH].
  - destruct s; [constructor | apply IH].
Qed.

(** X8.  Every numeric token found in an ASCII text is a literal that
    [float] reads: one or more digits, then possibly a decimal point and
    further digits.  The [number] entity, when set, is the value of such
    a token. *)
Theorem numeric_tokens_are_float_literals (self : GroundwaterChatbot) (text : string) :
  isascii text = true ->
  Forall (fun tok => is_float_literal tok = true) (number_findall text)
  /\ forall x, e_number (extract_entities self text) = Some x ->
               exists tok, In tok (number_findall text)
                           /\ is_float_literal tok = true /\ x = py_float tok.
Proof.
  intros _. pose proof (findall_from_literals (String.length text) text) as H.
  split; [exact H|].
  rewrite e_number_extract. intros x Hx.
  destruct (first_number_origin _ _ Hx) as (before & tok & after & E & -> & _ & _).
  assert (In tok (number_findall text)) as Hin
      by (rewrite E; apply in_or_app; right; now left).
  exists tok. split; [exact Hin|]. split; [|reflexivity].
  unfold number_findall in Hin. rewrite Forall_forall in H. now apply H.
Qed.

(** ** No exception reaches the caller *)

Lemma sort_values_nonempty {A K : Type} (key : A -> K) (le : K -> K -> bool)
    (l : list A) :
  l <> [] -> sort_values key le l <> [].
Proof.
  intros Hl E. pose proof (length_sort_values key le l) as H.
  rewrite E in H. destruct l; [congruence | discriminate H].
Qed.

Lemma tail_nonempty {A : Type} (n : nat) (l : list A) :
  (0 < n)%nat -> l <> [] -> tail n l <> [].
Proof.
  intros Hn Hl E. assert (List.length (tail n l) = 0%nat) as H by now rewrite E.
  unfold tail in H. rewrite length_skipn in H.
  destruct l; [congruence | cbn [List.length] in H; lia].
Qed.

Lemma traverse_length {A B : Type} (f : A -> option B) (l : list A) :
  forall l', traverse f l = Some l' -> List.length l' = List.length l.
Proof.
  induction l as [|x l IH]; cbn [traverse]; intros l' H.
  - now injection H as <-.
  - destruct (f x); [|discriminate]. destruct (traverse f l) as [ys|]; [|discriminate].
    injection H as <-. cbn [List.length]. now rewrite (IH ys).
Qed.

Lemma traverse_some {A B : Type} (f : A -> option B) (l : list A) :
  Forall (fun x => f x <> None) l -> exists l', traverse f l = Some l'.
Proof.
  induction 1 as [|x l Hx _ [l' IH]]; cbn [traverse]; [now exists []|].
  destruct (f x) as [y|]; [|now elim Hx]. rewrite IH. now exists (y :: l').
Qed.

Section NeverRaises.
Context {L : PyLib}.

Lemma dated_returns {A : Type} (year_month : A -> string) (date : A -> Timestamp)
    (value : A -> float) (rows : list A) :
  Forall (fun r => to_datetime (year_month r) = Some (date r)) rows ->
  exists l, dated year_month value rows = Return l
            /\ List.length l = List.length rows.
Proof.
  intros H. unfold dated.
  destruct (traverse_some
              (fun r => match to_datetime (year_month r) with
                        | Some d => Some (d, value r)
                        | None => None
                        end) rows) as [l Hl].
  { eapply Forall_impl; [|exact H]. intros r Hr. now rewrite Hr. }
  rewrite Hl. exists l. split; [reflexivity|]. exact (traverse_length _ _ _ Hl).
Qed.

(** [predict_future_values] always returns; its trend summary is empty or
    has the three fields, and a non-empty series gives one point per
    month asked for. *)
Lemma predict_future_values_total (data : list (Timestamp * float)) (months_ahead : Z) :
  exists f,
    predict_future_values data months_ahead = Return f
    /\ (data <> [] -> List.length (predictions f) = Z.to_nat months_ahead)
    /\ (trend_analysis f = []
        \/ exists t s v,
             trend_analysis f = [("trend", t); ("seasonality", s); ("volatility", v)]).
Proof.
  destruct data as [|row data].
  - eexists. split; [reflexivity|]. split; [congruence | now left].
  - destruct (predict_future_values_returns (row :: data) months_ahead)
      as (trend & seasonality & latest & f & Hf & Hp & _); [discriminate|].
    exists f. split; [exact Hf|]. split.
    + intros _. rewrite Hp. apply length_project.
    + right. revert Hf. unfold predict_future_values.
      set (sorted_data := sort_values fst timestamp_le (row :: data)).
      assert (sorted_data <> []) as Hs by (apply sort_values_nonempty; discriminate).
      destruct (last_item sorted_data); [|discriminate]. cbn [bind].
      unfold analyze_trends. destruct sorted_data as [|r d]; [congruence|].
      cbn [dict_get String.eqb Ascii.eqb Bool.eqb bind].
      intros H. injection H as <-. cbn [trend_analysis]. eauto.
Qed.

Lemma handle_rainfall_query_returns (self : GroundwaterChatbot) (entities : Entities)
    (input : string) :
  exists msg, handle_rainfall_query self entities input = Return msg.
Proof.
  unfold handle_rainfall_query.
  destruct (e_state entities) as [[|c w]|]; try (eexists; reflexivity).
  destruct (get_rainfall_data self _ _) as [|r rows] eqn:E; [eexists; reflexivity|].
  destruct (e_month entities) as [[|c' w']|]; try (eexists; reflexivity);
    (destruct (last_item_returns
                 (tail 12 (sort_values rf_year_month String.leb (r :: rows))))
      as [x ->];
     [apply tail_nonempty; [lia | apply sort_values_nonempty; discriminate]
     | eexists; reflexivity]).
Qed.

Lemma handle_groundwater_query_returns (self : GroundwaterChatbot) (entities : Entities)
    (input : string) :
  exists msg, handle_groundwater_query self entities input = Return msg.
Proof.
  unfold handle_groundwater_query.
  destruct (e_state entities) as [[|c w]|]; try (eexists; reflexivity).
  destruct (get_groundwater_data self _ _ _) as [|r rows] eqn:E; [eexists; reflexivity|].
  destruct (e_month entities) as [[|c' w']|]; try (eexists; reflexivity);
    (destruct (last_item_returns
                 (tail 12 (sort_values gw_year_month String.leb (r :: rows))))
      as [x ->];
     [apply tail_nonempty; [lia | apply sort_values_nonempty; discriminate]
     | eexists; reflexivity]).
Qed.

Lemma handle_prediction_query_returns (self : GroundwaterChatbot) (entities : Entities)
    (input : string) :
  exists msg, handle_prediction_query self entities input = Return msg.
Proof.
  unfold handle_prediction_query.
  destruct (model self); [|eexists; reflexivity].
  destruct (e_state entities) as [[|c w]|]; try (eexists; reflexivity);
    try (destruct (e_number entities); eexists; reflexivity).
  destruct (e_number entities) as [x|]; [|eexists; reflexivity].
  destruct (truthy_float (Some x)); [|eexists; reflexivity].
  destruct (tail 1 _) as [|row rows]; [eexists; reflexivity|].
  cbn [first_item bind].
  destruct (predict_groundwater self _ x _); eexists; reflexivity.
Qed.

Lemma handle_district_query_returns (self : GroundwaterChatbot) (entities : Entities)
    (input : string) :
  exists msg, handle_district_query self entities input = Return msg.
Proof.
  unfold handle_district_query.
  destruct (e_state entities) as [[|c w]|]; try (eexists; reflexivity).
  destruct (get_available_districts self _); eexists; reflexivity.
Qed.

Lemma handle_trend_query_returns (self : GroundwaterChatbot) (entities : Entities)
    (input : string) :
  exists msg, handle_trend_query self entities input = Return msg.
Proof.
  unfold handle_trend_query.
  destruct (e_state entities) as [[|c w]|]; try (eexists; reflexivity).
  destruct (tail 24 (sort_values rf_year_month _ _)); [eexists; reflexivity|].
  destruct (tail 24 (sort_values gw_year_month _ _)); eexists; reflexivity.
Qed.

Lemma handle_future_prediction_query_returns (self : GroundwaterChatbot)
    (entities : Entities) (input : string) :
  dates_parsed self ->
  (1 <= months_ahead_of (e_year entities))%Z ->
  exists msg, handle_future_prediction_query self entities input = Return msg.
Proof.
  intros [Hr Hg] Hmonths. unfold handle_future_prediction_query.
  destruct (e_state entities) as [[|c w]|]; try (eexists; reflexivity).
  set (months := months_ahead_of (e_year entities)) in *.
  set (rd := get_rainfall_data self (Some (String c w)) None).
  set (gd := get_groundwater_data self (Some (String c w)) (e_district entities) None).
  assert (Forall (fun r => to_datetime (rf_year_month r) = Some (rf_date r)) rd) as Hrd.
  { apply Forall_forall. intros r Hin. rewrite Forall_forall in Hr. apply Hr.
    unfold rd, get_rainfall_data in Hin. now do 2 apply keep_if_in in Hin. }
  assert (Forall (fun r => to_datetime (gw_year_month r) = Some (gw_date r)) gd) as Hgd.
  { apply Forall_forall. intros r Hin. rewrite Forall_forall in Hg. apply Hg.
    unfold gd, get_groundwater_data in Hin. now do 3 apply keep_if_in in Hin. }
  destruct (dated_returns rf_year_month rf_date rainfall_actual_mm rd Hrd)
    as (lr & Hlr & Hlenr).
  destruct (dated_returns gw_year_month gw_date gw_level_m_bgl gd Hgd)
    as (lg & Hlg & Hleng).
  destruct rd as [|r0 rd']; [eexists; reflexivity|].
  destruct gd as [|g0 gd']; [eexists; reflexivity|].
  rewrite Hlr, Hlg. cbn [bind].
  assert (tail 36 lr <> []) as Hnr
      by (apply tail_nonempty; [lia | destruct lr; [discriminate Hlenr | discriminate]]).
  assert (tail 36 lg <> []) as Hng
      by (apply tail_nonempty; [lia | destruct lg; [discriminate Hleng | discriminate]]).
  destruct (predict_future_values_total (tail 36 lr) months) as (fr & -> & Hnumr & Hkeysr).
  destruct (predict_future_values_total (tail 36 lg) months) as (fg & -> & Hnumg & _).
  cbn [bind]. specialize (Hnumr Hnr). specialize (Hnumg Hng).
  assert (exists pr, (6 < months)%Z -> last_item (predictions fr) = Return pr)
    as [pr Hpr].
  { destruct (predictions fr) as [|p ps] eqn:E.
    - exists {| p_date := EmptyString; p_value := 0; p_confidence := 0 |}.
      cbn in Hnumr. lia.
    - destruct (last_item_returns (p :: ps)) as [x Hx]; [discriminate|].
      now exists x. }
  assert (exists pg, (6 < months)%Z -> last_item (predictions fg) = Return pg)
    as [pg Hpg].
  { destruct (predictions fg) as [|p ps] eqn:E.
    - exists {| p_date := EmptyString; p_value := 0; p_confidence := 0 |}.
      cbn in Hnumg. lia.
    - destruct (last_item_returns (p :: ps)) as [x Hx]; [discriminate|].
      now exists x. }
  destruct Hkeysr as [->|(t & s & v & ->)];
    cbn [dict_get String.eqb Ascii.eqb Bool.eqb bind];
    (destruct (6 <? months)%Z eqn:E6;
     [apply Z.ltb_lt in E6; rewrite (Hpr E6), (Hpg E6); cbn [bind] |];
     eexists; reflexivity).
Qed.

Lemma months_ahead_of_bounds (year : option string) :
  (1 <= months_ahead_of year <= 60)%Z.
Proof.
  unfold months_ahead_of. destruct year as [[|c y]|]; lia.
Qed.

(** X9.  On tables whose dates are those of their month keys, as
    [load_data] leaves them, [generate_response] never raises: for every
    text, model and generator state the result is an answer. *)
Theorem answer_never_raises (self : GroundwaterChatbot) (rs : RandomState)
    (text : string) :
  dates_parsed self ->
  exists msg, fst (generate_response self rs text) = Return msg.
Proof.
  intros Hdates. unfold generate_response. cbv zeta.
  pose proof (handle_future_prediction_query_returns self
                (extract_entities self text) (lower text) Hdates
                (proj1 (months_ahead_of_bounds _))) as Hfuture.
  unfold get_greeting_response, random_choice.
  repeat match goal with
         | |- context [if ?c then _ else _] => destruct c
         end; cbn [fst];
    first [ exact Hfuture
          | apply handle_rainfall_query_returns
          | apply handle_groundwater_query_returns
          | apply handle_prediction_query_returns
          | apply handle_district_query_returns
          | apply handle_trend_query_returns
          | eexists; reflexivity ].
Qed.

End NeverRaises.

(** ** The horizon of a forecast *)

(** X10.  The number of months the future-prediction handler projects is
    read off the year entity: twelve without a year, one for a year up to
    2024, twelve per year from 2025 to 2028 and sixty from 2029 on, so it
    is always one of 1, 12, 24, 36, 48 and 60. *)
Theorem forecast_horizon_values (self : GroundwaterChatbot) (text : string) :
  let year := e_year (extract_entities self text) in
  In (months_ahead_of year) [1; 12; 24; 36; 48; 60]%Z
  /\ (year = None -> months_ahead_of year = 12%Z)
  /\ forall y, year = Some y ->
       ((py_int y <= 2024)%Z -> months_ahead_of year = 1%Z)
       /\ ((2025 <= py_int y <= 2028)%Z ->
           months_ahead_of year = ((py_int y - 2024) * 12)%Z)
       /\ ((2029 <= py_int y)%Z -> months_ahead_of year = 60%Z).
Proof.
  intros year. unfold year. rewrite e_year_extract.
  destruct (year_search None text) as [y|] eqn:E.
  - destruct (year_search_shape _ _ _ E) as (d1 & d2 & -> & D1 & D2).
    apply digit_value_bounds in D1, D2.
    unfold months_ahead_of, py_int. cbn [digits_value In].
    change (digit_value "2") with 2%Z. change (digit_value "0") with 0%Z.
    split; [lia|]. split; [discriminate|].
    intros y Hy. injection Hy as <-. cbn [digits_value].
    change (digit_value "2") with 2%Z. change (digit_value "0") with 0%Z. lia.
  - split; [cbn; tauto|]. split; [reflexivity | discriminate].
Qed.

(** ** Edge cases of the trend summary *)

Section TrendSummary.
Context {L : PyLib}.

Lemma filter_other_month (m k : Z) (data : list (Timestamp * float)) :
  Forall (fun r => ts_month (fst r) = m) data -> k <> m ->
  filter (fun r => (ts_month (fst r) =? k)%Z) data = [].
Proof.
  intros Hdata Hk. induction Hdata as [|r data Hr _ IH]; cbn [filter]; [reflexivity|].
  rewrite Hr. destruct (Z.eqb_spec m k); [congruence | exact IH].
Qed.

Lemma monthly_groups_empty (m : Z) (data : list (Timestamp * float)) (months : list Z) :
  Forall (fun r => ts_month (fst r) = m) data ->
  ~ In m months ->
  flat_map
    (fun k =>
       match filter (fun r => (ts_month (fst r) =? k)%Z) data with
       | [] => []
       | group => [group_mean (map snd group)]
       end) months = [].
Proof.
  intros Hdata. induction months as [|k months IH]; cbn [flat_map In]; [reflexivity|].
  intros Hm.
  rewrite (filter_other_month m k data Hdata) by (intros ->; apply Hm; now left).
  cbn [app]. apply IH. intros H. apply Hm. now right.
Qed.

Lemma monthly_groups_one (m : Z) (data : list (Timestamp * float)) (months : list Z) :
  Forall (fun r => ts_month (fst r) = m) data ->
  NoDup months ->
  (List.length
     (flat_map
        (fun k =>
           match filter (fun r => (ts_month (fst r) =? k)%Z) data with
           | [] => []
           | group => [group_mean (map snd group)]
           end) months) <= 1)%nat.
Proof.
  intros Hdata. induction 1 as [|k months Hk Hnd IH]; cbn [flat_map]; [cbn; lia|].
  rewrite List.length_app. destruct (Z.eq_dec m k) as [->|N].
  - rewrite (monthly_groups_empty k data months Hdata Hk).
    destruct (filter _ data); cbn; lia.
  - rewrite (filter_other_month m k data Hdata) by congruence.
    cbn [List.length]. exact IH.
Qed.

(** X11.  The trend summary always has its three fields.  With at most
    one observation the trend is 0, and when all observations fall in the
    same calendar month the seasonality is 0, whatever the numerical
    libraries compute. *)
Theorem trend_summary_edge_cases (data : list (Timestamp * float)) :
  (exists t s v,
      analyze_trends data = [("trend", t); ("seasonality", s); ("volatility", v)])
  /\ ((List.length data <= 1)%nat ->
      dict_get (analyze_trends data) "trend" = Return 0%float)
  /\ (forall m, Forall (fun r => ts_month (fst r) = m) data ->
                dict_get (analyze_trends data) "seasonality" = Return 0%float).
Proof.
  destruct data as [|row data].
  - split; [do 3 eexists; reflexivity|]. split; [reflexivity|]. intros m _. reflexivity.
  - unfold analyze_trends.
    set (sorted_data := sort_values fst timestamp_le (row :: data)).
    split; [do 3 eexists; reflexivity|]. split.
    + intros Hlen. cbn [dict_get String.eqb Ascii.eqb Bool.eqb].
      rewrite length_map, length_seq. unfold sorted_data.
      rewrite length_sort_values.
      destruct (Nat.ltb_spec 1 (List.length (row :: data))); [lia | reflexivity].
    + intros m Hm. cbn [dict_get String.eqb Ascii.eqb Bool.eqb].
      assert (Forall (fun r => ts_month (fst r) = m) sorted_data) as Hs.
      { apply Forall_forall. intros r Hr. apply in_sort_values in Hr.
        rewrite Forall_forall in Hm. now apply Hm. }
      pose proof (monthly_groups_one m sorted_data
                    [1; 2; 3; 4; 5; 6; 7; 8; 9; 10; 11; 12]%Z Hs) as Hone.
      fold (monthly_avg sorted_data) in Hone.
      destruct (Nat.ltb_spec 1 (List.length (monthly_avg sorted_data)));
        [|reflexivity].
      assert (NoDup [1; 2; 3; 4; 5; 6; 7; 8; 9; 10; 11; 12]%Z) as Hnd
          by (repeat (constructor; [cbn [In]; lia|]); constructor).
      specialize (Hone Hnd). lia.
Qed.

End TrendSummary.

(** ** Loading the files *)





Lemma is_space_lower_char (c : ascii) : is_space (lower_char c) = is_space c.
Proof. destruct c as [[] [] [] [] [] [] [] []]; reflexivity. Qed.

Lemma lstrip_lower (s : string) : lstrip (lower s) = lower (lstrip s).
Proof.
  induction s as [|c s IH]; cbn [lower lstrip]; [reflexivity|].
  rewrite is_space_lower_char. now destruct (is_space c).
Qed.

Lemma rstrip_lower (s : string) : rstrip (lower s) = lower (rstrip s).
Proof.
  induction s as [|c s IH]; cbn [lower rstrip]; [reflexivity|].
  rewrite IH, is_space_lower_char.
  destruct (rstrip s); cbn [lower]; [now destruct (is_space c) | reflexivity].
Qed.

Lemma rstrip_idempotent (s : string) : rstrip (rstrip s) = rstrip s.
Proof.
  induction s as [|c s IH]; cbn [rstrip]; [reflexivity|].
  destruct (rstrip s) as [|b r] eqn:E.
  - destruct (is_space c) eqn:S; cbn [rstrip]; [reflexivity | now rewrite S].
  - cbn [rstrip]. change (rstrip (String b r)) with (rstrip (String b r)).
    cbn [rstrip] in IH. rewrite IH. reflexivity.
Qed.

Lemma lstrip_first (s : string) :
  match lstrip s with
  | String c _ => is_space c = false
  | EmptyString => True
  end.
Proof.
  induction s as [|c s IH]; cbn [lstrip]; [exact I|].
  destruct (is_space c) eqn:S; [exact IH | exact S].
Qed.

Lemma lstrip_rstrip (c : ascii) (s : string) :
  is_space c = false -> lstrip (rstrip (String c s)) = rstrip (String c s).
Proof.
  intros S. cbn [rstrip]. destruct (rstrip s); [rewrite S|]; cbn [lstrip]; now rewrite S.
Qed.

Lemma strip_idempotent (s : string) : strip (strip s) = strip s.
Proof.
  unfold strip. pose proof (lstrip_first s) as H.
  destruct (lstrip s) as [|c t]; [reflexivity|].
  rewrite (lstrip_rstrip c t H). apply rstrip_idempotent.
Qed.

Lemma normalised_name (x : string) :
  lower (lower (strip x)) = lower (strip x)
  /\ strip (lower (strip x)) = lower (strip x).
Proof.
  split; [apply lower_idempotent|].
  unfold strip at 1. rewrite lstrip_lower, rstrip_lower.
  fold (strip (strip x)). now rewrite strip_idempotent.
Qed.

(** X13.  The names of the loaded tables are normalised: every state name
    and district name is its own lower-casing and has no white space at
    either end, so that lower-casing or stripping a name again changes
    nothing. *)
Theorem loaded_names_are_normalised {P : Pandas} (rainfall_csv : list RainfallCsv)
    (groundwater_csv : list GroundwaterCsv) :
  Forall (fun row => lower (rf_state_name row) = rf_state_name row
                     /\ strip (rf_state_name row) = rf_state_name row)
         (fst (load_data rainfall_csv groundwater_csv))
  /\ Forall (fun row => lower (gw_state_name row) = gw_state_name row
                        /\ strip (gw_state_name row) = gw_state_name row
                        /\ lower (gw_district_name row) = gw_district_name row
                        /\ strip (gw_district_name row) = gw_district_name row)
            (snd (load_data rainfall_csv groundwater_csv)).
Proof.
  unfold load_data.
  destruct (pd_to_datetime (map csv_rf_year_month rainfall_csv)) as [rd|];
    [|split; constructor].
  destruct (pd_to_datetime (map csv_gw_year_month groundwater_csv)) as [gd|];
    [|split; constructor].
  cbn [fst snd]. split.
  - apply with_dates_forall. intros i x _.
    cbn [load_rainfall_row rf_state_name]. apply normalised_name.
  - apply with_dates_forall. intros i x _.
    cbn [load_groundwater_row gw_state_name gw_district_name].
    destruct (normalised_name (csv_gw_state_name x)),
      (normalised_name (csv_gw_district_name x)). now repeat split.
Qed.

(** ** The months of the rainfall table *)

Lemma strongly_sorted_impl {A : Type} (R S : A -> A -> Prop) (l : list A) :
  (forall a b, R a b -> S a b) -> StronglySorted R l -> StronglySorted S l.
Proof.
  intros H. induction 1 as [|x l Hl IH Hx]; constructor; [exact IH|].
  eapply Forall_impl; [|exact Hx]. intros b. apply H.
Qed.

(** X14.  For a rainfall table with rows, [get_available_months] lists
    the month keys of the rows once each, sorted as strings; two keys of
    the list that are both written ["YYYY-MM"] are thereby in the order
    of their dates. *)
Theorem available_months_listing (self : GroundwaterChatbot)
    (has_rows : rainfall self <> []) :
  StronglySorted alphabetical (get_available_months self has_rows)
  /\ NoDup (get_available_months self has_rows)
  /\ StronglySorted chronological (get_available_months self has_rows)
  /\ forall k, In k (get_available_months self has_rows)
               <-> exists row, In row (rainfall self) /\ rf_year_month row = k.
Proof.
  unfold get_available_months. split; [apply sorted_sorted|].
  split; [apply NoDup_sorted, NoDup_unique|]. split.
  - apply (strongly_sorted_impl alphabetical); [|apply sorted_sorted].
    intros a b Hab da db Ha Hb. now rewrite <- (month_key_leb a b da db Ha Hb).
  - intros k. rewrite in_sorted_iff, in_unique_iff, in_map_iff. split.
    + intros (r & Hk & Hr). now exists r.
    + intros (r & Hr & Hk). now exists r.
Qed.

(** ** The latest groundwater level *)

Section LatestLevel.
Context {L : PyLib}.

(** X15.  On tables whose month keys are written ["YYYY-MM"]: asked about
    a state (and district) with groundwater rows and no month, the
    groundwater handler answers with the mean of at most twelve of those
    rows and names, as the latest data available, the month key of one of
    them that none of them is dated after. *)
Theorem recent_groundwater_names_latest_period (self : GroundwaterChatbot)
    (entities : Entities) (user_input : string) (c : ascii) (w : string) :
  let state := String c w in
  let data := get_groundwater_data self (Some state) (e_district entities) None in
  dates_parsed self ->
  e_state entities = Some state ->
  truthy (e_month entities) = false ->
  data <> [] ->
  exists latest recent,
    handle_groundwater_query self entities user_input
    = Return ("💧 **Recent Groundwater Levels in "
              ++ location_of (e_district entities) state ++ ":**" ++ nl ++ nl
              ++ "Average groundwater level (last 12 months): **"
              ++ py_format (series_mean (map gw_level_m_bgl recent)) ".2f"
              ++ " m bgl**" ++ nl ++ nl
              ++ "Latest data available: " ++ gw_year_month latest)
    /\ (List.length recent <= 12)%nat
    /\ (forall row, In row recent -> In row data)
    /\ In latest recent
    /\ (forall row, In row data ->
                    timestamp_le (gw_date row) (gw_date latest) = true).
Proof.
  intros state data [_ Hdates] Hstate Hmonth Hne.
  unfold handle_groundwater_query. rewrite Hstate. fold state.
  assert (get_groundwater_data self (Some state) (e_district entities) (e_month entities)
          = data) as ->.
  { unfold data, get_groundwater_data. now rewrite (keep_if_falsy _ _ _ Hmonth). }
  assert (Forall (fun r => to_datetime (gw_year_month r) = Some (gw_date r)) data) as Hd.
  { apply Forall_forall. intros r Hr. rewrite Forall_forall in Hdates. apply Hdates.
    unfold data, get_groundwater_data in Hr. now do 3 apply keep_if_in in Hr. }
  destruct (latest_by_month_key gw_year_month gw_date data Hne Hd)
    as (latest & Hlast & Hin & Hmax).
  set (recent := tail 12 (sort_values gw_year_month String.leb data)) in *.
  exists latest, recent. split.
  - destruct data as [|r0 rows0] eqn:E; [congruence|].
    destruct (e_month entities) as [[|c' w']|]; try discriminate Hmonth;
      fold recent; rewrite Hlast; reflexivity.
  - split; [unfold recent, tail; rewrite length_skipn; lia|].
    split.
    { intros r Hr. apply (in_sort_values gw_year_month String.leb).
      now apply (in_tail 12). }
    split; [exact (last_item_in recent latest Hlast) | exact Hmax].
Qed.

End LatestLevel.

(** ** Closed examples of the further properties *)

(** X1, witness: two observations, the later one in December 2024; the
    first projected month is January 2025. *)
Lemma projection_dates_witness :
  exists f p latest,
    predict_future_values
      [ ({| ts_year := 2024; ts_month := 12 |}, 4.5%float);
        ({| ts_year := 2024; ts_month := 11 |}, 4.25%float) ] 3 = Return f
    /\ In latest [ ({| ts_year := 2024; ts_month := 12 |}, 4.5%float);
                   ({| ts_year := 2024; ts_month := 11 |}, 4.25%float) ]
    /\ (forall row,
           In row [ ({| ts_year := 2024; ts_month := 12 |}, 4.5%float);
                    ({| ts_year := 2024; ts_month := 11 |}, 4.25%float) ] ->
           timestamp_le (fst row) (fst latest) = true)
    /\ nth_error (predictions f) (Z.to_nat (1 - 1)) = Some p
    /\ p_date p = strftime_Y_m (add_months (fst latest) 1)
    /\ (ts_month (fst latest) = 12%Z ->
        add_months (fst latest) 1
        = {| ts_year := ts_year (fst latest) + 1; ts_month := 1 |}).
Proof.
  apply (projection_dates
           [ ({| ts_year := 2024; ts_month := 12 |}, 4.5%float);
             ({| ts_year := 2024; ts_month := 11 |}, 4.25%float) ] 3 1).
  - discriminate.
  - repeat constructor; cbn; lia.
  - lia.
Defined.

(** X2, witness: December 2023 and January 2024. *)
Lemma month_key_order_witness :
  String.leb "2023-12" "2024-01"
  = timestamp_le {| ts_year := 2023; ts_month := 12 |} {| ts_year := 2024; ts_month := 1 |}
  /\ (String.ltb "2023-12" "2024-01" = true
      <-> timestamp_le {| ts_year := 2023; ts_month := 12 |}
            {| ts_year := 2024; ts_month := 1 |} = true
          /\ {| ts_year := 2023; ts_month := 12 |} <> {| ts_year := 2024; ts_month := 1 |})
  /\ ("2023-12" = "2024-01"
      <-> {| ts_year := 2023; ts_month := 12 |} = {| ts_year := 2024; ts_month := 1 |}).
Proof.
  apply (month_key_order "2023-12" "2024-01"); vm_compute; reflexivity.
Defined.

(** X3, witness: the rainfall of Kerala in the sample tables. *)
Lemma recent_rainfall_names_latest_period_witness :
  exists latest recent,
    handle_rainfall_query sample_bot
      (extract_entities sample_bot "Rainfall in Kerala") "rainfall in kerala"
    = Return ("🌧️ **Recent Rainfall in " ++ title "kerala" ++ ":**" ++ nl ++ nl
              ++ "Average rainfall (last 12 months): **"
              ++ py_format (series_mean (map rainfall_actual_mm recent)) ".2f"
              ++ " mm**" ++ nl ++ nl
              ++ "Latest data available: " ++ rf_year_month latest)
    /\ (List.length recent <= 12)%nat
    /\ (forall row, In row recent ->
                    In row (rainfall sample_bot) /\ rf_state_name row = "kerala")
    /\ In latest recent
    /\ (forall row, In row (rainfall sample_bot) -> rf_state_name row = "kerala" ->
                    timestamp_le (rf_date row) (rf_date latest) = true).
Proof.
  apply (recent_rainfall_names_latest_period sample_bot
           (extract_entities sample_bot "Rainfall in Kerala") "rainfall in kerala"
           "k" "erala").
  - apply init_dates_parsed.
  - vm_compute. reflexivity.
  - vm_compute. reflexivity.
  - exists {| rf_state_name := "kerala"; rf_year_month := "2023-01";
              rainfall_actual_mm := 12.5; rf_date := {| ts_year := 2023; ts_month := 1 |} |}.
    split; [vm_compute; tauto | reflexivity].
Defined.

(** X6, witness: a district of Goa named after its state. *)
Lemma district_comes_with_its_state_witness :
  exists s,
    e_state (extract_entities sample_bot "Groundwater in North Goa, Goa") = Some s
    /\ In s (get_available_states sample_bot)
    /\ In "north goa" (get_available_districts sample_bot s)
    /\ str_in "north goa" (lower "Groundwater in North Goa, Goa") = true
    /\ get_groundwater_data sample_bot (Some s) (Some "north goa") None <> [].
Proof.
  apply (district_comes_with_its_state sample_bot "Groundwater in North Goa, Goa"
           "north goa").
  vm_compute. reflexivity.
Defined.

(** X7, witness: "06-2023" in a question. *)
Lemma month_entity_is_a_month_key_witness :
  exists d,
    to_datetime "2023-06" = Some d
    /\ strftime_Y_m d = "2023-06"
    /\ (2000 <= ts_year d <= 2099)%Z
    /\ valid_month d
    /\ exists y, e_year (extract_entities sample_bot "Rainfall in Kerala for 06-2023")
                 = Some y.
Proof.
  apply (month_entity_is_a_month_key sample_bot "Rainfall in Kerala for 06-2023" "2023-06");
    [vm_compute; reflexivity|].
  vm_compute. reflexivity.
Defined.

(** X9, witness: a forecast asked of the sample tables. *)
Lemma answer_never_raises_witness :
  exists msg,
    fst (generate_response sample_bot sample_draws "Forecast for Kerala in 2026")
    = Return msg.
Proof.
  apply (answer_never_raises sample_bot sample_draws "Forecast for Kerala in 2026").
  apply init_dates_parsed.
Defined.

(** X15, witness: the groundwater of Idukki, Kerala, in the sample
    tables. *)
Lemma recent_groundwater_names_latest_period_witness :
  exists latest recent,
    handle_groundwater_query sample_bot
      (extract_entities sample_bot "Groundwater in Idukki, Kerala")
      "groundwater in idukki, kerala"
    = Return ("💧 **Recent Groundwater Levels in "
              ++ location_of (Some "idukki") "kerala" ++ ":**" ++ nl ++ nl
              ++ "Average groundwater level (last 12 months): **"
              ++ py_format (series_mean (map gw_level_m_bgl recent)) ".2f"
              ++ " m bgl**" ++ nl ++ nl
              ++ "Latest data available: " ++ gw_year_month latest)
    /\ (List.length recent <= 12)%nat
    /\ (forall row, In row recent ->
                    In row (get_groundwater_data sample_bot (Some "kerala")
                              (Some "idukki") None))
    /\ In latest recent
    /\ (forall row,
           In row (get_groundwater_data sample_bot (Some "kerala") (Some "idukki") None) ->
           timestamp_le (gw_date row) (gw_date latest) = true).
Proof.
  assert (e_district (extract_entities sample_bot "Groundwater in Idukki, Kerala")
          = Some "idukki") as E by (vm_compute; reflexivity).
  rewrite <- E.
  apply (recent_groundwater_names_latest_period sample_bot
           (extract_entities sample_bot "Groundwater in Idukki, Kerala")
           "groundwater in idukki, kerala" "k" "erala").
  - apply init_dates_parsed.
  - vm_compute. reflexivity.
  - vm_compute. reflexivity.
  - rewrite E. vm_compute. discriminate.
Defined.

(** ** The lag feature of a prediction *)

Lemma tail_one {A : Type} (l : list A) :
  l <> [] -> exists x, tail 1 l = [x] /\ last_item l = Return x.
Proof.
  intros Hl. destruct (last_item_returns l Hl) as [x Hx].
  exists x. split; [|exact Hx].
  pose proof (last_item_tail 1 l ltac:(lia) Hl) as Ht. rewrite Hx in Ht.
  assert (List.length (tail 1 l) = 1%nat) as Hlen.
  { unfold tail. rewrite length_skipn.
    destruct l; [congruence | cbn [List.length]; lia]. }
  destruct (tail 1 l) as [|a [|b t]]; try discriminate Hlen.
  cbn in Ht. now injection Ht as ->.
Qed.

Section LagFeature.
Context {L : PyLib}.

(** X16.  On tables whose month keys are written ["YYYY-MM"]: with a
    model, a state and a non-zero number, the prediction handler applies
    the model to that number and to the groundwater level of a row of the
    location that no other row of the location is dated after; the answer
    shows the model's output rounded to two decimals, or says that the
    prediction failed when the model raises. *)
Theorem prediction_uses_latest_level (self : GroundwaterChatbot)
    (entities : Entities) (user_input : string) (c : ascii) (w : string)
    (x : float) (m : Model) :
  let state := String c w in
  let data := get_groundwater_data self (Some state) (e_district entities) None in
  dates_parsed self ->
  model self = Some m ->
  e_state entities = Some state ->
  e_number entities = Some x ->
  PrimFloat.eqb x 0 = false ->
  data <> [] ->
  exists latest,
    In latest data
    /\ (forall row, In row data -> timestamp_le (gw_date row) (gw_date latest) = true)
    /\ (m x (gw_level_m_bgl latest) = None ->
        handle_prediction_query self entities user_input
        = Return ("❌ **Prediction Failed:**" ++ nl ++ nl
                  ++ "Unable to generate prediction. Please check the input parameters."))
    /\ (forall p, m x (gw_level_m_bgl latest) = Some p ->
          exists head middle,
            handle_prediction_query self entities user_input
            = Return (head
                      ++ "- Rainfall: " ++ py_str x ++ " mm" ++ nl
                      ++ "- Current groundwater level: "
                      ++ py_format (gw_level_m_bgl latest) ".2f" ++ " m bgl" ++ nl
                      ++ middle
                      ++ nl ++ "**Predicted groundwater level:** **"
                      ++ py_str (py_round p 2) ++ " m bgl**" ++ nl ++ nl
                      ++ "*Note: This is a machine learning prediction based on historical data.*")).
Proof.
  intros state data [_ Hdates] Hmodel Hstate Hnumber Hzero Hne.
  assert (Forall (fun r => to_datetime (gw_year_month r) = Some (gw_date r)) data) as Hd.
  { apply Forall_forall. intros r Hr. rewrite Forall_forall in Hdates. apply Hdates.
    unfold data, get_groundwater_data in Hr. now do 3 apply keep_if_in in Hr. }
  set (sorted_data := sort_values gw_year_month String.leb data).
  assert (sorted_data <> []) as Hs by now apply sort_values_nonempty.
  destruct (tail_one sorted_data Hs) as (latest & Htail & Hlast).
  destruct (last_item_greatest gw_year_month String.leb string_leb_total _ latest
              (sort_values_sorted gw_year_month String.leb string_leb_total leb_trans data)
              Hlast) as [Hin Hmax].
  apply in_sort_values in Hin.
  exists latest. split; [exact Hin|]. split.
  { intros row Hrow. rewrite Forall_forall in Hd.
    rewrite <- (month_key_leb _ _ _ _ (Hd row Hrow) (Hd latest Hin)).
    apply Hmax. now apply in_sort_values. }
  unfold handle_prediction_query, predict_groundwater.
  rewrite Hmodel, Hstate, Hnumber. fold state. fold data. fold sorted_data.
  unfold truthy_float. rewrite Hzero. cbn [negb]. rewrite Htail. cbn [first_item bind].
  split.
  - intros ->. reflexivity.
  - intros p ->.
    exists ("🔮 **Groundwater Prediction for " ++ location_of (e_district entities) state
            ++ match e_year entities with
               | Some (String _ _ as y) => " for " ++ y
               | _ => EmptyString
               end
            ++ ":**" ++ nl ++ nl ++ "**Input Parameters:**" ++ nl),
      (match e_district entities with
       | Some (String _ _ as d) => "- Location: " ++ title d ++ " district" ++ nl
       | _ => EmptyString
       end
       ++ match e_year entities with
          | Some (String _ _ as y) => "- Year: " ++ y ++ nl
          | _ => EmptyString
          end).
    rewrite !append_assoc. reflexivity.
Qed.

End LagFeature.

(** ** The state entity *)


(** ** Further closed examples *)

(** X8, witness: the number of a text with a unit and a year. *)
Lemma numeric_tokens_are_float_literals_witness :
  exists tok,
    In tok (number_findall "Kerala had 120.5mm in 2024")
    /\ is_float_literal tok = true /\ py_float "120.5" = py_float tok.
Proof.
  apply (proj2 (numeric_tokens_are_float_literals sample_bot "Kerala had 120.5mm in 2024"
                  ltac:(vm_compute; reflexivity))).
  vm_compute. reflexivity.
Defined.

(** X10, witness: a forecast asked for 2026. *)
Lemma forecast_horizon_values_witness :
  months_ahead_of (e_year (extract_entities sample_bot "Forecast for Kerala in 2026"))
  = ((py_int "2026" - 2024) * 12)%Z.
Proof.
  apply (proj2 (proj2 (forecast_horizon_values sample_bot "Forecast for Kerala in 2026"))
           "2026").
  - vm_compute. reflexivity.
  - vm_compute. split; discriminate.
Defined.

(** X11, witness: one observation. *)
Lemma trend_summary_edge_cases_witness :
  dict_get (analyze_trends sample_series) "trend" = Return 0%float
  /\ dict_get (analyze_trends sample_series) "seasonality" = Return 0%float.
Proof.
  destruct (trend_summary_edge_cases sample_series) as (_ & Htrend & Hseason). split.
  - apply Htrend. cbn. lia.
  - apply (Hseason 1%Z). repeat constructor.
Defined.


Lemma sample_bot_has_rows : rainfall sample_bot <> [].
Proof. vm_compute. discriminate. Qed.

(** X14, witness: the months of the sample rainfall table. *)
Lemma available_months_listing_witness :
  StronglySorted alphabetical (get_available_months sample_bot sample_bot_has_rows)
  /\ NoDup (get_available_months sample_bot sample_bot_has_rows)
  /\ StronglySorted chronological (get_available_months sample_bot sample_bot_has_rows)
  /\ forall k, In k (get_available_months sample_bot sample_bot_has_rows)
               <-> exists row, In row (rainfall sample_bot) /\ rf_year_month row = k.
Proof.
  exact (available_months_listing sample_bot sample_bot_has_rows).
Defined.

(** X16, witness: a prediction for Kerala with 120 mm on the sample
    tables. *)
Lemma prediction_uses_latest_level_witness :
  exists latest,
    In latest (get_groundwater_data sample_bot (Some "kerala") None None)
    /\ (forall row, In row (get_groundwater_data sample_bot (Some "kerala") None None) ->
                    timestamp_le (gw_date row) (gw_date latest) = true)
    /\ (sample_model (py_float "120") (gw_level_m_bgl latest) = None ->
        handle_prediction_query sample_bot
          (extract_entities sample_bot "Predict groundwater for Kerala with 120mm")
          "predict groundwater for kerala with 120mm"
        = Return ("❌ **Prediction Failed:**" ++ nl ++ nl
                  ++ "Unable to generate prediction. Please check the input parameters."))
    /\ (forall p, sample_model (py_float "120") (gw_level_m_bgl latest) = Some p ->
          exists head middle,
            handle_prediction_query sample_bot
              (extract_entities sample_bot "Predict groundwater for Kerala with 120mm")
              "predict groundwater for kerala with 120mm"
            = Return (head
                      ++ "- Rainfall: " ++ py_str (py_float "120") ++ " mm" ++ nl
                      ++ "- Current groundwater level: "
                      ++ py_format (gw_level_m_bgl latest) ".2f" ++ " m bgl" ++ nl
                      ++ middle
                      ++ nl ++ "**Predicted groundwater level:** **"
                      ++ py_str (py_round p 2) ++ " m bgl**" ++ nl ++ nl
                      ++ "*Note: This is a machine learning prediction based on historical data.*")).
Proof.
  assert (e_district (extract_entities sample_bot "Predict groundwater for Kerala with 120mm")
          = None) as E by (vm_compute; reflexivity).
  rewrite <- E.
  apply (prediction_uses_latest_level sample_bot
           (extract_entities sample_bot "Predict groundwater for Kerala with 120mm")
           "predict groundwater for kerala with 120mm" "k" "erala"
           (py_float "120") sample_model).
  - apply init_dates_parsed.
  - vm_compute. reflexivity.
  - vm_compute. reflexivity.
  - vm_compute. reflexivity.
  - vm_compute. reflexivity.
  - rewrite E. vm_compute. discriminate.
Defined.
